(** * Photogrammetry importer: NVM and Meshroom file handlers

    A shallow embedding of
      - [nvm_import_export/nvm_file_handler.py]   (class [NVMFileHandler])
      - [photogrammetry_importer/file_handlers/meshroom_file_handler.py]
        (class [MeshroomFileHandler])
    together with the properties of the two parsers and of the NVM writer.

    Conventions of the embedding.
      - A Python [str] is a [string]; a character is a code point below 256.
      - A Python exception is a constructor of [exn]; a computation that may
        raise returns a [result].
      - A file opened for reading is the text that is still unread;
        [readline] consumes it line by line.
      - [float] and the numeric libraries are interfaces ([PyFloat],
        [Numpy], [CameraLib], [MeshroomLib]): the handlers are generic in
        them, and [Exact] is an instance with rational arithmetic.
      - A reporter [op] is the list of the reports made so far. *)

From Stdlib Require Import ZArith QArith String Ascii List Lia.
From stdpp Require Import base option list gmap strings pretty.

Open Scope string_scope.
Open Scope Z_scope.

(* ===================================================================== *)
(** * Python runtime *)
(* ===================================================================== *)

Module Py.

(** The built-in exceptions the handlers can raise. *)
Inductive exn : Type :=
| AssertionError
| ValueError
| IndexError
| KeyError
| TypeError
| OverflowError
| FileNotFoundError
| LinAlgError.

Inductive result (A : Type) : Type :=
| Ok (a : A)
| Raise (e : exn).
Arguments Ok {A} a.
Arguments Raise {A} e.

Definition bind {A B} (r : result A) (k : A -> result B) : result B :=
  match r with
  | Ok a => k a
  | Raise e => Raise e
  end.

Definition of_option {A} (e : exn) (o : option A) : result A :=
  match o with
  | Some a => Ok a
  | None => Raise e
  end.

(** [assert b] *)
Definition assert (b : bool) : result unit :=
  if b then Ok tt else Raise AssertionError.

(** ** Characters *)

Definition code (c : ascii) : Z := Z.of_nat (nat_of_ascii c).

(** [str.isspace] on one character: TAB..CR, FS..US, space, NEL, NBSP. *)
Definition isspace (c : ascii) : bool :=
  let n := code c in
  ((9 <=? n) && (n <=? 13)) || ((28 <=? n) && (n <=? 32))
  || (n =? 133) || (n =? 160).

(** A decimal digit, the only digits [int] reads. *)
Definition isdecimal_char (c : ascii) : bool :=
  let n := code c in (48 <=? n) && (n <=? 57).

(** [str.isdigit] on one character: the decimal digits and the
    superscript digits two, three and one. *)
Definition isdigit_char (c : ascii) : bool :=
  let n := code c in
  isdecimal_char c || (n =? 178) || (n =? 179) || (n =? 185).

Definition digit_val (c : ascii) : Z := code c - 48.

Definition LF : ascii := "010"%char.
Definition CR : ascii := "013"%char.
Definition TAB : ascii := "009"%char.

(** ** Strings *)

Definition is_empty (s : string) : bool :=
  match s with
  | EmptyString => true
  | String _ _ => false
  end.

(** [s.rstrip()] *)
Fixpoint rstrip (s : string) : string :=
  match s with
  | EmptyString => EmptyString
  | String c s' =>
      let r := rstrip s' in
      if isspace c && is_empty r then EmptyString else String c r
  end.

(** [s.lstrip()] *)
Fixpoint lstrip (s : string) : string :=
  match s with
  | EmptyString => EmptyString
  | String c s' => if isspace c then lstrip s' else s
  end.

Definition strip (s : string) : string := lstrip (rstrip s).

(** [s.split()]: the maximal runs of non-whitespace characters. *)
Fixpoint split (s : string) : list string :=
  match s with
  | EmptyString => []
  | String c s' =>
      if isspace c then split s'
      else
        match s' with
        | EmptyString => [String c EmptyString]
        | String c' _ =>
            if isspace c' then String c EmptyString :: split s'
            else
              match split s' with
              | t :: ts => String c t :: ts
              | [] => [String c EmptyString]
              end
        end
  end.

(** [s.isdigit()] *)
Fixpoint all_digit (s : string) : bool :=
  match s with
  | EmptyString => true
  | String c s' => isdigit_char c && all_digit s'
  end.

Definition isdigit (s : string) : bool := negb (is_empty s) && all_digit s.

(** [s.isdecimal()]: a non-empty string of decimal digits. *)
Fixpoint all_decimal (s : string) : bool :=
  match s with
  | EmptyString => true
  | String c s' => isdecimal_char c && all_decimal s'
  end.

Definition isdecimal (s : string) : bool :=
  negb (is_empty s) && all_decimal s.

(** The number a string of decimal digits denotes, after [acc]. *)
Fixpoint digits_value (acc : Z) (s : string) : Z :=
  match s with
  | EmptyString => acc
  | String c s' => digits_value (10 * acc + digit_val c) s'
  end.

(** The digits of an [int] literal: decimal digits, single underscores
    allowed between two digits. [after_digit] tells whether the previous
    character was a digit. *)
Fixpoint int_digits (acc : Z) (after_digit : bool) (s : string) : option Z :=
  match s with
  | EmptyString => if after_digit then Some acc else None
  | String c s' =>
      if isdecimal_char c then int_digits (10 * acc + digit_val c) true s'
      else if Ascii.eqb c "_"%char && after_digit then int_digits acc false s'
      else None
  end.

(** The blanks [int] skips around a literal: TAB..CR and space, and the
    spaces above U+007F, NEL and NBSP. FS..US are whitespace for
    [str.isspace], [str.strip] and [str.split], but not for [int]. *)
Definition isblank_int (c : ascii) : bool :=
  let n := code c in
  ((9 <=? n) && (n <=? 13)) || (n =? 32) || (n =? 133) || (n =? 160).

Fixpoint int_rstrip (s : string) : string :=
  match s with
  | EmptyString => EmptyString
  | String c s' =>
      let r := int_rstrip s' in
      if isblank_int c && is_empty r then EmptyString else String c r
  end.

Fixpoint int_lstrip (s : string) : string :=
  match s with
  | EmptyString => EmptyString
  | String c s' => if isblank_int c then int_lstrip s' else s
  end.

(** [int(s)] for a string: surrounding blanks, an optional sign, the
    digits. [ValueError] otherwise. The number of digits is not limited
    (the limit of Python 3.11 is not part of the model). *)
Definition int (s : string) : result Z :=
  of_option ValueError
    match int_lstrip (int_rstrip s) with
    | String "-"%char d => Z.opp <$> int_digits 0 false d
    | String "+"%char d => int_digits 0 false d
    | d => int_digits 0 false d
    end.

(** [str(n)] for an int. *)
Definition str_int (n : Z) : string := pretty n.

(** [sep.join(l)] *)
Fixpoint join (sep : string) (l : list string) : string :=
  match l with
  | [] => ""
  | [s] => s
  | s :: l' => s ++ sep ++ join sep l'
  end.

(** [l[i]] on a list *)
Definition getitem {A} (l : list A) (i : nat) : result A :=
  of_option IndexError (nth_error l i).

(** [l[i:j]] for [0 <= i <= j] *)
Definition slice {A} (l : list A) (i j : nat) : list A :=
  firstn (j - i) (skipn i l).

(** [range(n)] as the number of iterations *)
Definition range (n : Z) : nat := Z.to_nat n.

(** [sub in s] on strings *)
Fixpoint contains (sub s : string) : bool :=
  String.prefix sub s
  || match s with
     | EmptyString => false
     | String _ s' => contains sub s'
     end.

(** ** Files *)

(** [f.readline()]: the text up to and including the next line feed, and
    what remains; the empty string at the end of the file. *)
Fixpoint readline (f : string) : string * string :=
  match f with
  | EmptyString => (EmptyString, EmptyString)
  | String c f' =>
      if Ascii.eqb c LF then (String c EmptyString, f')
      else let '(l, r) := readline f' in (String c l, r)
  end.

(** Text mode with universal newlines: CR LF and a lone CR are read as LF. *)
Fixpoint universal_newlines (raw : string) : string :=
  match raw with
  | EmptyString => EmptyString
  | String c raw' =>
      if Ascii.eqb c CR then
        match raw' with
        | String c' raw'' =>
            if Ascii.eqb c' LF then String LF (universal_newlines raw'')
            else String LF (universal_newlines raw')
        | EmptyString => String LF EmptyString
        end
      else String c (universal_newlines raw')
  end.

(** [os.linesep] (POSIX) *)
Definition linesep : string := String LF EmptyString.

(** ** [os.path] (POSIX) *)

(** ['/' in p] *)
Fixpoint has_sep (p : string) : bool :=
  match p with
  | EmptyString => false
  | String c p' => Ascii.eqb c "/"%char || has_sep p'
  end.

Fixpoint basename_from (cand p : string) : string :=
  match p with
  | EmptyString => cand
  | String c p' =>
      if Ascii.eqb c "/"%char then basename_from p' p' else basename_from cand p'
  end.

(** [os.path.basename(p)]: what follows the last slash. *)
Definition basename (p : string) : string := basename_from p p.

Fixpoint endswith_sep (p : string) : bool :=
  match p with
  | EmptyString => false
  | String c EmptyString => Ascii.eqb c "/"%char
  | String _ p' => endswith_sep p'
  end.

Definition startswith_sep (p : string) : bool :=
  match p with
  | String c _ => Ascii.eqb c "/"%char
  | EmptyString => false
  end.

(** [os.path.join(a, *p)] *)
Definition path_join (a : string) (p : list string) : string :=
  fold_left
    (fun path b =>
       if startswith_sep b then b
       else if is_empty path || endswith_sep path then path ++ b
       else path ++ "/" ++ b)
    p a.

(** [s.lower()] on one character: A..Z and the capital letters of Latin-1
    (U+00C0..U+00DE but the multiplication sign) move up by 32. *)
Definition lower_char (c : ascii) : ascii :=
  let n := code c in
  if ((65 <=? n) && (n <=? 90))
     || ((192 <=? n) && (n <=? 222) && negb (n =? 215))
  then ascii_of_nat (Z.to_nat (n + 32))
  else c.

(** [s.lower()] *)
Fixpoint lower (s : string) : string :=
  match s with
  | EmptyString => EmptyString
  | String c s' => String (lower_char c) (lower s')
  end.

(** The part of [p] up to its last slash, the slash included. *)
Fixpoint head_upto_last_sep (p : string) : string :=
  match p with
  | EmptyString => EmptyString
  | String c p' =>
      if has_sep p' then String c (head_upto_last_sep p')
      else if Ascii.eqb c "/"%char then String c EmptyString
      else EmptyString
  end.

Fixpoint all_sep (p : string) : bool :=
  match p with
  | EmptyString => true
  | String c p' => Ascii.eqb c "/"%char && all_sep p'
  end.

(** [p.rstrip('/')] *)
Fixpoint rstrip_sep (p : string) : string :=
  match p with
  | EmptyString => EmptyString
  | String c p' =>
      let r := rstrip_sep p' in
      if Ascii.eqb c "/"%char && is_empty r then EmptyString else String c r
  end.

(** [os.path.dirname(p)]: the head up to the last slash, without its
    trailing slashes unless it consists of slashes only. *)
Definition dirname (p : string) : string :=
  let head := head_upto_last_sep p in
  if all_sep head then head else rstrip_sep head.

(** The part of [b] from its last dot on. *)
Fixpoint last_dot_suffix (b : string) : option string :=
  match b with
  | EmptyString => None
  | String c b' =>
      match last_dot_suffix b' with
      | Some e => Some e
      | None => if Ascii.eqb c "."%char then Some b else None
      end
  end.

Fixpoint all_dots (s : string) : bool :=
  match s with
  | EmptyString => true
  | String c s' => Ascii.eqb c "."%char && all_dots s'
  end.

(** [os.path.splitext(p)[1]]: the extension starts at the last dot of the
    last path component, unless only dots precede that dot there. *)
Definition splitext_ext (p : string) : string :=
  let b := basename p in
  match last_dot_suffix b with
  | None => EmptyString
  | Some e =>
      if all_dots (substring 0 (String.length b - String.length e) b)
      then EmptyString
      else e
  end.

End Py.

Import Py.

#[global] Instance result_bind : MBind result := fun A B k r => Py.bind r k.
#[global] Instance result_ret : MRet result := @Py.Ok.
#[global] Instance result_fmap : FMap result :=
  fun A B f r => Py.bind r (fun a => Py.Ok (f a)).


(* ===================================================================== *)
(** * Floats and the numeric libraries *)
(* ===================================================================== *)

(** The built-in [float] as the handlers use it. *)
Class PyFloat : Type := {
  float : Type;
  (** the value of a float literal, [None] when [s] is none *)
  parse_float : string -> option float;
  (** [float(n)] for an int; [OverflowError] when [n] is too large *)
  float_of_int : Z -> result float;
  (** [int(x)]: truncation; fails on infinities and NaN *)
  int_of_float : float -> result Z;
  (** [str(x)] and [repr(x)] *)
  str_float : float -> string;
  (** the floats [0.0] and [1.0] *)
  f0 : float;
  f1 : float;
  fadd : float -> float -> float;
  fmul : float -> float -> float;
  fneg : float -> float;
  (** [x == y] *)
  feqb : float -> float -> bool
}.

Section Linalg.
Context `{PyFloat}.

(** [float(s)] for a string: [ValueError] when [s] is no float literal. *)
Definition float_of_string (s : string) : result float :=
  of_option ValueError (parse_float s).

(** A numpy array of shape (3), (4) and (3,3), rows first. *)
Definition vec3 : Type := float * float * float.
Definition quat : Type := float * float * float * float.
Definition mat3 : Type := vec3 * vec3 * vec3.

Definition vec3_to_list (v : vec3) : list float :=
  let '(a, b, c) := v in [a; b; c].
Definition quat_to_list (q : quat) : list float :=
  let '(w, x, y, z) := q in [w; x; y; z].

Definition row (R : mat3) (j : nat) : vec3 :=
  let '(r0, r1, r2) := R in
  match j with O => r0 | S O => r1 | _ => r2 end.

Definition zeros3 : vec3 := (f0, f0, f0).
Definition zeros33 : mat3 := (zeros3, zeros3, zeros3).

(** [u . v] as numpy accumulates it *)
Definition inner (u v : vec3) : float :=
  let '(u0, u1, u2) := u in
  let '(v0, v1, v2) := v in
  fadd (fadd (fmul u0 v0) (fmul u1 v1)) (fmul u2 v2).

(** [R.dot(v)] *)
Definition dot (R : mat3) (v : vec3) : vec3 :=
  let '(r0, r1, r2) := R in (inner r0 v, inner r1 v, inner r2 v).

(** [-v] *)
Definition vneg (v : vec3) : vec3 :=
  let '(v0, v1, v2) := v in (fneg v0, fneg v1, fneg v2).
End Linalg.

(** [numpy.linalg] *)
Class Numpy `{PyFloat} : Type := {
  (** [np.linalg.inv(m)]; [LinAlgError] on a singular matrix *)
  linalg_inv : mat3 -> result mat3
}.

(** The conversions of the [Camera] class between a quaternion (w, x, y, z)
    and a rotation matrix. *)
Class CameraLib `{PyFloat} : Type := {
  quaternion_to_rotation_mat : quat -> mat3;
  rotation_mat_to_quaternion : mat3 -> quat
}.

(* ===================================================================== *)
(** * nvm_import_export/nvm_file_handler.py *)
(* ===================================================================== *)

Module NVMFileHandler.
Section Handler.
Context `{FL : PyFloat} `{!Numpy} `{!CameraLib}.

(** Modelled from the spec: the class [Camera] of
    [nvm_import_export/camera.py], which is not among the sources. It holds
    the fields of the data model; the parser assigns [_center], [normal],
    [_translation_vec], [calibration_mat], [file_name] and [id], and
    [set_quaternion] stores the rotation. *)
Record Camera : Type := {
  _rotation_mat : mat3;
  _center : vec3;
  _translation_vec : vec3;
  normal : vec3;
  calibration_mat : mat3;
  radial_distortion : float;
  file_name : string;
  id : nat;
  width : option Z;
  height : option Z
}.

(** Modelled from the spec: [Camera()], radial distortion zero when absent. *)
Definition Camera_new : Camera :=
  {| _rotation_mat := zeros33; _center := zeros3; _translation_vec := zeros3;
     normal := zeros3; calibration_mat := zeros33; radial_distortion := f0;
     file_name := ""; id := O; width := None; height := None |}.

(** Modelled from the spec: [camera.set_quaternion(q)] sets the rotation
    from the quaternion. *)
Definition set_quaternion (q : quat) (cam : Camera) : Camera :=
  {| _rotation_mat := quaternion_to_rotation_mat q; _center := _center cam;
     _translation_vec := _translation_vec cam; normal := normal cam;
     calibration_mat := calibration_mat cam;
     radial_distortion := radial_distortion cam;
     file_name := file_name cam; id := id cam;
     width := width cam; height := height cam |}.

(** Modelled from the spec: the getters of [Camera]. *)
Definition get_rotation_mat (cam : Camera) : mat3 := _rotation_mat cam.
Definition get_quaternion (cam : Camera) : quat :=
  rotation_mat_to_quaternion (_rotation_mat cam).
Definition get_calibration_mat (cam : Camera) : mat3 := calibration_mat cam.
Definition get_camera_center (cam : Camera) : vec3 := _center cam.
Definition get_radial_distortion (cam : Camera) : float :=
  radial_distortion cam.

(** [Measurement = namedtuple('Measurement', ['image_index', 'feature_index', 'x', 'y'])] *)
Record Measurement : Type := {
  image_index : Z;
  feature_index : Z;
  x : float;
  y : float
}.

(** [Point = namedtuple('Point', ['coord', 'color', 'measurements', 'id', 'scalars'])];
    the parser always sets [scalars] to [None]. *)
Record Point : Type := {
  coord : list float;
  color : list Z;
  measurements : list Measurement;
  point_id : nat;
  scalars : option (list float)
}.

(** [compute_camera_coordinate_system_translation_vector(c, R)]:
    [t[j] = -float(R[j][0] * c[0] + R[j][1] * c[1] + R[j][2] * c[2])] *)
Definition compute_camera_coordinate_system_translation_vector
    (c : vec3) (R : mat3) : vec3 :=
  let '(c0, c1, c2) := c in
  let t (j : nat) : float :=
    let '(Rj0, Rj1, Rj2) := row R j in
    fneg (fadd (fadd (fmul Rj0 c0) (fmul Rj1 c1)) (fmul Rj2 c2)) in
  (t 0%nat, t 1%nat, t 2%nat).

(** One iteration of the loop of [_parse_cameras], on the line just read. *)
Definition _parse_cameras_body (i : nat) (line : string) : result Camera :=
  let line_values := split line in
  file_name ← basename <$> getitem line_values 0;
  focal_length ← getitem line_values 1 ≫= float_of_string;
  quaternion_w ← getitem line_values 2 ≫= float_of_string;
  quaternion_x ← getitem line_values 3 ≫= float_of_string;
  quaternion_y ← getitem line_values 4 ≫= float_of_string;
  quaternion_z ← getitem line_values 5 ≫= float_of_string;
  let quaternion : quat :=
    (quaternion_w, quaternion_x, quaternion_y, quaternion_z) in
  camera_center_x ← getitem line_values 6 ≫= float_of_string;
  camera_center_y ← getitem line_values 7 ≫= float_of_string;
  camera_center_z ← getitem line_values 8 ≫= float_of_string;
  let center_vec : vec3 :=
    (camera_center_x, camera_center_y, camera_center_z) in
  radial_distortion ← getitem line_values 9 ≫= float_of_string;
  let camera_calibration_matrix : mat3 :=
    ((focal_length, f0, f0), (f0, focal_length, f0), (f0, f0, f1)) in
  zero_value ← getitem line_values 10 ≫= float_of_string;
  _ ← assert (feqb zero_value f0);
  let current_camera := set_quaternion quaternion Camera_new in
  let cam_view_vec_cam_coord : vec3 := (f0, f0, f1) in
  cam_rotation_matrix_inv ← linalg_inv (get_rotation_mat current_camera);
  let cam_view_vec_world_coord :=
    dot cam_rotation_matrix_inv cam_view_vec_cam_coord in
  let translation_vec :=
    compute_camera_coordinate_system_translation_vector
      center_vec (get_rotation_mat current_camera) in
  mret {| _rotation_mat := _rotation_mat current_camera;
          _center := center_vec;
          _translation_vec := translation_vec;
          normal := cam_view_vec_world_coord;
          calibration_mat := camera_calibration_matrix;
          radial_distortion := get_radial_distortion current_camera;
          file_name := file_name;
          id := i;
          width := width current_camera;
          height := height current_camera |}.

(** The loop [for i in range(num_cameras)], from index [i] on, with
    [n] iterations left; returns the cameras and the unread text. *)
Fixpoint _parse_cameras_loop (i n : nat) (input_file : string)
  : result (list Camera * string) :=
  match n with
  | O => mret ([], input_file)
  | S n' =>
      let '(line, input_file) := readline input_file in
      current_camera ← _parse_cameras_body i line;
      '(cameras, input_file) ← _parse_cameras_loop (S i) n' input_file;
      mret (current_camera :: cameras, input_file)
  end.

Definition _parse_cameras (input_file : string) (num_cameras : Z)
  : result (list Camera * string) :=
  _parse_cameras_loop 0 (range num_cameras) input_file.

(** The loop [for measurement_index in range(0, number_measurements)]. *)
Fixpoint _parse_measurements (measurements : list string)
    (measurement_index n : nat) : result (list Measurement) :=
  match n with
  | O => mret []
  | S n' =>
      let current_measurement :=
        slice measurements (measurement_index * 4)
              ((measurement_index + 1) * 4) in
      image_index ← getitem current_measurement 0 ≫= int;
      feature_index ← getitem current_measurement 1 ≫= int;
      x_in_nvm_file ← getitem current_measurement 2 ≫= float_of_string;
      y_in_nvm_file ← getitem current_measurement 3 ≫= float_of_string;
      rest ← _parse_measurements measurements (S measurement_index) n';
      mret ({| image_index := image_index; feature_index := feature_index;
               x := x_in_nvm_file; y := y_in_nvm_file |} :: rest)
  end.

(** One iteration of the loop of [_parse_nvm_points]. *)
Definition _parse_nvm_points_body (point_index : nat) (point_line : string)
  : result Point :=
  let point_line_elements := split (rstrip point_line) in
  xyz_vec ← mapM float_of_string (slice point_line_elements 0 3);
  rgb_vec ← mapM int (slice point_line_elements 3 6);
  number_measurements ← getitem point_line_elements 6 ≫= int;
  let measurements := skipn 7 point_line_elements in
  current_point_measurement ←
    _parse_measurements measurements 0 (range number_measurements);
  mret {| coord := xyz_vec; color := rgb_vec;
          measurements := current_point_measurement;
          point_id := point_index; scalars := None |}.

Fixpoint _parse_nvm_points_loop (point_index n : nat) (input_file : string)
  : result (list Point * string) :=
  match n with
  | O => mret ([], input_file)
  | S n' =>
      let '(point_line, input_file) := readline input_file in
      current_point ← _parse_nvm_points_body point_index point_line;
      '(points, input_file) ←
        _parse_nvm_points_loop (S point_index) n' input_file;
      mret (current_point :: points, input_file)
  end.

Definition _parse_nvm_points (input_file : string) (num_3D_points : Z)
  : result (list Point * string) :=
  _parse_nvm_points_loop 0 (range num_3D_points) input_file.

(** [parse_nvm_file] from the line of the camera count on. *)
Definition parse_nvm_model (input_file : string)
  : result (list Camera * list Point) :=
  let '(current_line, input_file) := readline input_file in
  amount_cameras ← int (rstrip current_line);
  '(cameras, input_file) ← _parse_cameras input_file amount_cameras;
  let '(current_line, input_file) := readline input_file in
  _ ← assert (String.eqb (rstrip current_line) "");
  let '(current_line, input_file) := readline input_file in
  let current_line := rstrip current_line in
  if isdigit current_line then
    amount_points ← int current_line;
    '(points, _) ← _parse_nvm_points input_file amount_points;
    mret (cameras, points)
  else
    mret (cameras, []).

(** [parse_nvm_file] once the file is open: the first two lines, then
    the model. *)
Definition parse_nvm_text (input_file : string)
  : result (list Camera * list Point) :=
  let '(current_line, input_file) := readline input_file in
  _ ← assert (String.eqb (rstrip current_line) "NVM_V3");
  let '(current_line, input_file) := readline input_file in
  _ ← assert (String.eqb (rstrip current_line) "");
  parse_nvm_model input_file.

(** [parse_nvm_file(name)] on a file system: [open(name, 'r')] reads the
    file in text mode. The [print] calls are left out. *)
Definition parse_nvm_file (fs : gmap string string)
    (input_visual_fsm_file_name : string)
  : result (list Camera * list Point) :=
  raw ← of_option FileNotFoundError (fs !! input_visual_fsm_file_name);
  parse_nvm_text (universal_newlines raw).

(** [nvm_line(content)] *)
Definition nvm_line (content : string) : string :=
  content ++ " " ++ linesep.

(** [str(measurement)]: the [repr] of the named tuple. *)
Definition str_Measurement (m : Measurement) : string :=
  "Measurement(image_index=" ++ str_int (image_index m)
  ++ ", feature_index=" ++ str_int (feature_index m)
  ++ ", x=" ++ str_float (x m)
  ++ ", y=" ++ str_float (y m) ++ ")".

(** The line written for one camera. *)
Definition write_camera_line (camera : Camera) : string :=
  let quaternion := get_quaternion camera in
  let current_line := file_name camera in
  let current_line :=
    current_line ++ String TAB ""
    ++ str_float (fst (fst (row (get_calibration_mat camera) 0))) in
  let current_line :=
    current_line ++ " " ++ join " " (map str_float (quat_to_list quaternion)) in
  let current_line :=
    current_line ++ " "
    ++ join " " (map str_float (vec3_to_list (get_camera_center camera))) in
  let current_line := current_line ++ " " ++ "0" in
  let current_line := current_line ++ " " ++ "0" in
  current_line ++ " " ++ linesep.

(** The line written for one point. *)
Definition write_point_line (point : Point) : string :=
  let current_line := join " " (map str_float (coord point)) in
  let current_line :=
    current_line ++ " " ++ join " " (map str_int (color point)) in
  let current_line :=
    current_line ++ " "
    ++ str_int (Z.of_nat (length (measurements point))) in
  let current_line :=
    fold_left (fun line measurement => line ++ " " ++ str_Measurement measurement)
              (measurements point) current_line in
  current_line ++ " " ++ linesep.

(** The text [write_nvm_file] assembles in [nvm_content]. *)
Definition nvm_content (cameras : list Camera) (points : list Point)
  : list string :=
  [nvm_line "NVM_V3"; nvm_line "";
   nvm_line (str_int (Z.of_nat (length cameras)))]
  ++ map write_camera_line cameras
  ++ [" " ++ linesep;
      str_int (Z.of_nat (length points)) ++ " " ++ linesep]
  ++ map write_point_line points
  ++ [" " ++ linesep; " " ++ linesep; " " ++ linesep; "0" ++ linesep;
      " " ++ linesep;
      "#the last part of NVM file points to the PLY files " ++ linesep;
      "#the first number is the number of associated PLY files " ++ linesep;
      "#each following number gives a model-index that has PLY " ++ linesep;
      "0" ++ linesep].

(** [write_nvm_file(name, cameras, points)]: the file system afterwards. *)
Definition write_nvm_file (fs : gmap string string)
    (output_nvm_file_name : string)
    (cameras : list Camera) (points : list Point) : gmap string string :=
  <[output_nvm_file_name := String.concat "" (nvm_content cameras points)]> fs.

(** [camera.width, camera.height = w, h] *)
Definition set_image_size (w h : Z) (cam : Camera) : Camera :=
  {| _rotation_mat := _rotation_mat cam; _center := _center cam;
     _translation_vec := _translation_vec cam; normal := normal cam;
     calibration_mat := calibration_mat cam;
     radial_distortion := get_radial_distortion cam;
     file_name := file_name cam; id := id cam;
     width := Some w; height := Some h |}.

(** [parse_camera_image_files(cameras, path_to_images, default_width,
    default_height)]. [PILImage] is the imported module, [None] when the
    import failed; [PILImage.open(path).size] gives the size of an image or
    raises. [isfile] is [os.path.isfile]. The [print] call is left out. *)
Fixpoint parse_camera_image_files
    (PILImage : option (string -> result (Z * Z))) (isfile : string -> bool)
    (cameras : list Camera) (path_to_images : string)
    (default_width default_height : Z) : result (list Camera) :=
  match cameras with
  | [] => mret []
  | camera :: cameras' =>
      let image_path := path_join path_to_images [file_name camera] in
      camera ←
        match PILImage with
        | Some PILImage_open =>
            if isfile image_path then
              '(w, h) ← PILImage_open image_path;
              mret (set_image_size w h camera)
            else mret (set_image_size default_width default_height camera)
        | None => mret (set_image_size default_width default_height camera)
        end;
      cameras' ← parse_camera_image_files PILImage isfile cameras'
                   path_to_images default_width default_height;
      mret (camera :: cameras')
  end.

End Handler.
End NVMFileHandler.

(* ===================================================================== *)
(** * JSON values and the reporter *)
(* ===================================================================== *)

Section Json.
Context `{PyFloat}.

(** What [json.load] returns: [None], [bool], [int], [float], [str],
    [list] and [dict] with string keys. *)
#[warnings="-register-all"] Inductive json : Type :=
| JNull
| JBool (b : bool)
| JInt (z : Z)
| JFloat (f : float)
| JStr (s : string)
| JArr (l : list json)
| JObj (d : gmap string json).

Fixpoint chars (s : string) : list string :=
  match s with
  | EmptyString => []
  | String c s' => String c EmptyString :: chars s'
  end.

(** [x == k] for a string [k] *)
Definition eq_str (k : string) (x : json) : bool :=
  match x with
  | JStr s => String.eqb s k
  | _ => false
  end.

(** [k in j] for a string [k] *)
Definition py_in (k : string) (j : json) : result bool :=
  match j with
  | JObj d => Ok (bool_decide (is_Some (d !! k)))
  | JArr l => Ok (existsb (eq_str k) l)
  | JStr s => Ok (contains k s)
  | _ => Raise TypeError
  end.

(** [j[k]] for a string [k] *)
Definition py_getitem (j : json) (k : string) : result json :=
  match j with
  | JObj d => of_option KeyError (d !! k)
  | _ => Raise TypeError
  end.

(** [j[i]] for an index [i >= 0] *)
Definition py_getitem_int (j : json) (i : nat) : result json :=
  match j with
  | JArr l => getitem l i
  | JStr s => getitem (JStr <$> chars s) i
  | JObj _ => Raise KeyError
  | _ => Raise TypeError
  end.

(** [len(j)] *)
Definition py_len (j : json) : result nat :=
  match j with
  | JArr l => Ok (length l)
  | JStr s => Ok (String.length s)
  | JObj d => Ok (size d)
  | _ => Raise TypeError
  end.

(** The elements [for x in j] goes through. A dict yields its keys and a
    string its characters. *)
Definition py_iter (j : json) : result (list json) :=
  match j with
  | JArr l => Ok l
  | JStr s => Ok (JStr <$> chars s)
  | JObj d => Ok (JStr <$> (map_to_list d).*1)
  | _ => Raise TypeError
  end.

(** [int(j)] *)
Definition py_int (j : json) : result Z :=
  match j with
  | JInt z => Ok z
  | JBool b => Ok (if b then 1 else 0)
  | JFloat f => int_of_float f
  | JStr s => int s
  | _ => Raise TypeError
  end.

(** [float(j)] *)
Definition py_float (j : json) : result float :=
  match j with
  | JInt z => float_of_int z
  | JBool b => Ok (if b then f1 else f0)
  | JFloat f => Ok f
  | JStr s => float_of_string s
  | _ => Raise TypeError
  end.

(** A path component: [os.path.join] wants a [str]. *)
Definition py_path (j : json) : result string :=
  match j with
  | JStr s => Ok s
  | _ => Raise TypeError
  end.
End Json.

(** Modelled from the spec: the reporter of
    [photogrammetry_importer/utility/blender_logging_utility.py], which is
    not among the sources. [log_report(level, msg, op)] hands the message to
    the sink [op]; the sink is the list of the reports it has received. *)
Module Report.

(** The levels of [log_report]. *)
Inductive level : Type := INFO | WARNING | ERROR.

Definition report : Type := level * string.

(** A computation that reports to [op] and may raise: the reports made so
    far are kept when it raises. *)
Definition Op (A : Type) : Type := list report -> list report * result A.

Definition op_bind {A B} (m : Op A) (k : A -> Op B) : Op B :=
  fun op =>
    match m op with
    | (op', Ok a) => k a op'
    | (op', Raise e) => (op', Raise e)
    end.

Definition op_ret {A} (a : A) : Op A := fun op => (op, Ok a).

(** A computation that reports nothing. *)
Definition lift {A} (r : result A) : Op A := fun op => (op, r).

(** [log_report(level, msg, op)] *)
Definition log_report (lvl : level) (msg : string) : Op unit :=
  fun op => ((op ++ [(lvl, msg)])%list, Ok tt).

Definition reported (lvl : level) (op : list report) : Prop :=
  exists msg, In (lvl, msg) op.

End Report.

Import Report.

#[global] Instance Op_bind : MBind Op := fun A B k m => op_bind m k.
#[global] Instance Op_ret : MRet Op := @op_ret.

(** The parts of numpy and of the utilities that the Meshroom handler
    calls. *)
Class MeshroomLib `{PyFloat} : Type := {
  ndarray : Type;
  (** [np.array(j, dtype=float)] *)
  np_array_float : json -> result ndarray;
  (** [np.array(j, dtype=int)] *)
  np_array_int : json -> result ndarray;
  (** [a.reshape(3, 3).T] *)
  reshape_3_3_T : ndarray -> result ndarray;
  (** [str(j)] *)
  py_str : json -> string;
  (** [check_radial_distortion(radial_distortion, name, op)]: what it reports *)
  check_radial_distortion : float -> string -> list report
}.

(* ===================================================================== *)
(** * photogrammetry_importer/file_handlers/meshroom_file_handler.py *)
(* ===================================================================== *)

Module MeshroomFileHandler.
Section Handler.
Context `{FL : PyFloat} `{!MeshroomLib}.

(** Modelled from the spec: the class [Camera] of
    [photogrammetry_importer/types/camera.py], which is not among the
    sources, as the fields the handler sets; [set_calibration],
    [set_rotation_mat] and [set_camera_center_after_rotation] store their
    arguments. *)
Record Camera : Type := {
  image_fp_type : string;
  image_dp : option string;
  _absolute_fp : string;
  _relative_fp : string;
  _undistorted_relative_fp : string;
  _undistorted_absolute_fp : option string;
  width : Z;
  height : Z;
  calibration_mat : mat3;
  radial_distortion : float;
  rotation_mat : ndarray;
  center : ndarray;
  view_index : Z
}.

(** Modelled from the spec: the class [Point] of
    [photogrammetry_importer/types/point.py]. *)
Record Point : Type := {
  coord : ndarray;
  color : ndarray;
  id : Z;
  scalars : list float
}.

(** A file system for [json.load(open(path, "r"))]: a path holds a JSON
    document ([Some]) or a file that is no JSON ([None]). *)
Definition json_load (fs : gmap string (option json)) (path : string)
  : result json :=
  match fs !! path with
  | None => Raise FileNotFoundError
  | Some None => Raise ValueError
  | Some (Some j) => Ok j
  end.

(** [os.path.isfile(path)] *)
Definition isfile (fs : gmap string (option json)) (path : string) : bool :=
  bool_decide (is_Some (fs !! path)).

(** The loop of [_get_element]: the first element whose id is the queried
    one, [None] when the loop ends without [break]. *)
Fixpoint _get_element_loop (data_list : list json) (id_string : string)
    (query_id : Z) : result (option json) :=
  match data_list with
  | [] => Ok None
  | ele :: data_list' =>
      ele_id ← py_getitem ele id_string ≫= py_int;
      if ele_id =? query_id then Ok (Some ele)
      else _get_element_loop data_list' id_string query_id
  end.

Definition _get_element (data_list : json) (id_string : string)
    (query_id : Z) : result json :=
  elements ← py_iter data_list;
  result ← _get_element_loop elements id_string query_id;
  match result with
  | None => Raise AssertionError
  | Some ele => Ok ele
  end.

Definition FORMAT_ERROR_CAMERAS : string :=
  "FILE FORMAT ERROR: Incorrect SfM/JSON file. Must contain the"
  ++ " SfM reconstruction results: view, intrinsics and poses.".

Definition FORMAT_ERROR_STRUCTURE : string :=
  "FILE FORMAT ERROR: Incorrect SfM/JSON file. Must contain "
  ++ " the SfM reconstruction results: structure.".

(** [a and b] on membership tests: [b] is evaluated only when [a] holds. *)
Definition and_then (a : result bool) (b : result bool) : result bool :=
  a ≫= fun x => if x : bool then b else Ok false.

(** One iteration of the loop over [enumerate(extrinsics)]: the camera
    and the view index. *)
Definition _parse_camera (views intrinsics : json)
    (image_dp : option string) (image_fp_type : string)
    (suppress_distortion_warnings : bool) (extrinsic : json)
  : Op (Z * Camera) :=
  view_index ← lift (py_getitem extrinsic "poseId" ≫= py_int);
  corresponding_view ← lift (_get_element views "poseId" view_index);
  _absolute_fp ← lift (py_str <$> py_getitem corresponding_view "path");
  _relative_fp ←
    lift (basename <$> (py_str <$> py_getitem corresponding_view "path"));
  _undistorted_relative_fp ←
    lift ((fun p => py_str p ++ ".exr") <$> py_getitem extrinsic "poseId");
  let _undistorted_absolute_fp :=
    match image_dp with
    | None => None
    | Some dp => Some (path_join dp [_undistorted_relative_fp])
    end in
  width ← lift (py_getitem corresponding_view "width" ≫= py_int);
  height ← lift (py_getitem corresponding_view "height" ≫= py_int);
  id_intrinsic ← lift (py_getitem corresponding_view "intrinsicId" ≫= py_int);
  intrinsic_params ←
    lift (_get_element intrinsics "intrinsicId" id_intrinsic);
  focal_length ←
    lift (py_getitem intrinsic_params "pxFocalLength" ≫= py_float);
  cx ← lift (principal_point ← py_getitem intrinsic_params "principalPoint";
             py_getitem_int principal_point 0 ≫= py_float);
  cy ← lift (principal_point ← py_getitem intrinsic_params "principalPoint";
             py_getitem_int principal_point 1 ≫= py_float);
  has_distortion ←
    lift (and_then (py_in "distortionParams" intrinsic_params)
            (n ← py_getitem intrinsic_params "distortionParams" ≫= py_len;
             Ok (0 <? Z.of_nat n)));
  radial_distortion ←
    lift (if has_distortion : bool
          then (distortion_params ←
                  py_getitem intrinsic_params "distortionParams";
                py_getitem_int distortion_params 0 ≫= py_float)
          else Ok f0);
  _ ← (if suppress_distortion_warnings then mret tt
       else fun op =>
              ((op ++ check_radial_distortion radial_distortion _relative_fp)%list,
               Ok tt));
  let camera_calibration_matrix : mat3 :=
    ((focal_length, f0, cx), (f0, focal_length, cy), (f0, f0, f1)) in
  extrinsic_params ←
    lift (pose ← py_getitem extrinsic "pose"; py_getitem pose "transform");
  cam_rotation_list ← lift (py_getitem extrinsic_params "rotation");
  rotation ← lift (np_array_float cam_rotation_list ≫= reshape_3_3_T);
  center ← lift (py_getitem extrinsic_params "center" ≫= np_array_float);
  mret (view_index,
        {| image_fp_type := image_fp_type; image_dp := image_dp;
           _absolute_fp := _absolute_fp; _relative_fp := _relative_fp;
           _undistorted_relative_fp := _undistorted_relative_fp;
           _undistorted_absolute_fp := _undistorted_absolute_fp;
           width := width; height := height;
           calibration_mat := camera_calibration_matrix;
           radial_distortion := radial_distortion;
           rotation_mat := rotation; center := center;
           view_index := view_index |}).

(** The loop [for rec_index, extrinsic in enumerate(extrinsics)], with the
    cameras and the index map built so far. The source enters the view
    index in the map before it looks up the view; when the iteration
    raises, the map is lost with the cameras, so the entry is made here
    with [cams.append(camera)]. *)
Fixpoint _parse_cameras_loop (views intrinsics : json)
    (image_dp : option string) (image_fp_type : string)
    (suppress_distortion_warnings : bool)
    (rec_index : nat) (extrinsics : list json)
    (cams : list Camera) (image_index_to_camera_index : gmap Z nat)
  : Op (list Camera * gmap Z nat) :=
  match extrinsics with
  | [] => mret (cams, image_index_to_camera_index)
  | extrinsic :: extrinsics' =>
      '(view_index, camera) ←
        _parse_camera views intrinsics image_dp image_fp_type
                      suppress_distortion_warnings extrinsic;
      _parse_cameras_loop views intrinsics image_dp image_fp_type
        suppress_distortion_warnings (S rec_index) extrinsics'
        (cams ++ [camera])
        (<[view_index := rec_index]> image_index_to_camera_index)
  end.

Definition _parse_cameras_from_json_data (json_data : json)
    (image_dp : option string) (image_fp_type : string)
    (suppress_distortion_warnings : bool)
  : Op (list Camera * gmap Z nat) :=
  let cams : list Camera := [] in
  let image_index_to_camera_index : gmap Z nat := ∅ in
  is_valid_file ←
    lift (and_then (py_in "views" json_data)
            (and_then (py_in "intrinsics" json_data)
                      (py_in "poses" json_data)));
  if is_valid_file : bool then
    views ← lift (py_getitem json_data "views");
    intrinsics ← lift (py_getitem json_data "intrinsics");
    extrinsics ← lift (py_getitem json_data "poses");
    extrinsics ← lift (py_iter extrinsics);
    _parse_cameras_loop views intrinsics image_dp image_fp_type
      suppress_distortion_warnings 0 extrinsics
      cams image_index_to_camera_index
  else
    _ ← log_report ERROR FORMAT_ERROR_CAMERAS;
    mret (cams, image_index_to_camera_index).

(** The loop [for json_point in structure]. *)
Fixpoint _parse_points_loop (structure : list json) : result (list Point) :=
  match structure with
  | [] => Ok []
  | json_point :: structure' =>
      coord ← py_getitem json_point "X" ≫= np_array_float;
      color ← py_getitem json_point "color" ≫= np_array_int;
      id ← py_getitem json_point "landmarkId" ≫= py_int;
      points ← _parse_points_loop structure';
      Ok ({| coord := coord; color := color; id := id; scalars := [] |}
            :: points)
  end.

Definition _parse_points_from_json_data (json_data : json)
    (image_index_to_camera_index : gmap Z nat) : Op (list Point) :=
  is_valid_file ← lift (py_in "structure" json_data);
  if is_valid_file : bool then
    structure ← lift (py_getitem json_data "structure" ≫= py_iter);
    lift (_parse_points_loop structure)
  else
    _ ← log_report ERROR FORMAT_ERROR_STRUCTURE;
    mret [].

Definition parse_sfm_file (fs : gmap string (option json))
    (sfm_ifp : string) (image_idp : option string) (image_fp_type : string)
    (suppress_distortion_warnings : bool)
  : Op (list Camera * list Point) :=
  _ ← log_report INFO "parse_sfm_file: ...";
  _ ← log_report INFO ("sfm_ifp: " ++ sfm_ifp);
  json_data ← lift (json_load fs sfm_ifp);
  '(cams, image_index_to_camera_index) ←
    _parse_cameras_from_json_data json_data image_idp image_fp_type
      suppress_distortion_warnings;
  has_structure ← lift (py_in "structure" json_data);
  points ←
    (if has_structure : bool
     then _parse_points_from_json_data json_data image_index_to_camera_index
     else mret []);
  _ ← log_report INFO "parse_sfm_file: Done";
  mret (cams, points).

(** The loop [for fn in fn_list] of [_get_data_fp_of_node]. *)
Fixpoint _get_data_fp_loop (fs : gmap string (option json))
    (cache_dp : string) (node_type uid_0 : json) (fn_list : list string)
  : result (option string) :=
  match fn_list with
  | [] => Ok None
  | fn :: fn_list' =>
      node_type_s ← py_path node_type;
      uid_0_s ← py_path uid_0;
      let possible_data_fp :=
        path_join cache_dp [node_type_s; uid_0_s; fn] in
      if isfile fs possible_data_fp then Ok (Some possible_data_fp)
      else _get_data_fp_loop fs cache_dp node_type uid_0 fn_list'
  end.

(** [fn_or_fn_list] is a [str] ([inl]) or a list of them ([inr]).
    [data_node] is [None] when [_get_latest_node] found no instance; a node
    that is JSON [null] is loaded as [None] too, and fails the test
    [data_node is not None] in the same way. *)
Definition _get_data_fp_of_node (fs : gmap string (option json))
    (cache_dp : string) (data_node : option json)
    (fn_or_fn_list : string + list string) : result (option string) :=
  let fn_list :=
    match fn_or_fn_list with
    | inl fn => [fn]
    | inr fn_list => fn_list
    end in
  match data_node with
  | None | Some JNull => Ok None
  | Some data_node =>
      node_type ← py_getitem data_node "nodeType";
      uid_0 ← (uids ← py_getitem data_node "uids"; py_getitem uids "0");
      _get_data_fp_loop fs cache_dp node_type uid_0 fn_list
  end.

(** The key of instance [i] of a node type. *)
Definition node_key (node_type : string) (i : Z) : string :=
  node_type ++ "_" ++ str_int i.

(** The loop [while node_type + "_" + str(i + 1) in json_graph: i = i + 1],
    run for at most [fuel] tests of the condition. *)
Fixpoint _get_latest_node_loop (fuel : nat) (json_graph : gmap string json)
    (node_type : string) (i : Z) : Z :=
  match fuel with
  | O => i
  | S fuel' =>
      if bool_decide (is_Some (json_graph !! node_key node_type (i + 1)))
      then _get_latest_node_loop fuel' json_graph node_type (i + 1)
      else i
  end.

(** [json_graph] is the dict under the key [graph] of the project file.
    The loop leaves by its condition within [size json_graph + 1] tests
    (lemma [latest_loop_exits]). *)
Definition _get_latest_node (json_graph : gmap string json)
    (node_type : string) : result (option json) :=
  let i :=
    _get_latest_node_loop (S (size json_graph)) json_graph node_type 0 in
  if i =? 0 then Ok None
  else Some <$> of_option KeyError (json_graph !! node_key node_type i).

(** The message [_get_node] reports for a missing node. *)
Definition invalid_node_message (node_type : string) (node_number : Z)
  : string :=
  "Invalid combination of node type (i.e. "
  ++ node_type
  ++ ") "
  ++ "and node number (i.e. "
  ++ str_int node_number
  ++ ") provided".

Definition _get_node (json_graph : gmap string json) (node_type : string)
    (node_number : Z) : Op (option json) :=
  if node_number =? -1 then lift (_get_latest_node json_graph node_type)
  else
    let node_key := node_key node_type node_number in
    if bool_decide (is_Some (json_graph !! node_key))
    then lift (Some <$> of_option KeyError (json_graph !! node_key))
    else
      _ ← log_report ERROR (invalid_node_message node_type node_number);
      lift (Raise AssertionError).

Definition _get_node_data_fp (fs : gmap string (option json))
    (cache_dp : string) (json_graph : gmap string json)
    (node_type : string) (node_number : Z)
    (fn_or_fn_list : string + list string) : Op (option string) :=
  data_node ← _get_node json_graph node_type node_number;
  lift (_get_data_fp_of_node fs cache_dp data_node fn_or_fn_list).

(** [_get_node] on a graph that is no dict. On a list [in] is membership
    and on a string it is the substring test; the other values are not
    iterable. Where the source goes on to [json_graph[key]], a list or a
    string indexed by a key raises [TypeError]: with the number -1 that is
    the case as soon as the key of instance 1 is found, since the loop
    ends. *)
Definition _get_node_no_dict (json_graph : json) (node_type : string)
    (node_number : Z) : Op (option json) :=
  if node_number =? -1 then
    found ← lift (py_in (node_key node_type 1) json_graph);
    if found : bool then lift (Raise TypeError) else mret None
  else
    found ← lift (py_in (node_key node_type node_number) json_graph);
    if found : bool then lift (Raise TypeError)
    else
      _ ← log_report ERROR (invalid_node_message node_type node_number);
      lift (Raise AssertionError).

(** [_get_node_data_fp] on the value under the key [graph]. *)
Definition _get_node_data_fp_of_graph (fs : gmap string (option json))
    (cache_dp : string) (json_graph : json) (node_type : string)
    (node_number : Z) (fn_or_fn_list : string + list string)
  : Op (option string) :=
  match json_graph with
  | JObj graph =>
      _get_node_data_fp fs cache_dp graph node_type node_number fn_or_fn_list
  | _ =>
      data_node ← _get_node_no_dict json_graph node_type node_number;
      lift (_get_data_fp_of_node fs cache_dp data_node fn_or_fn_list)
  end.

(** The selection of the SfM file in [parse_meshrom_mg_file]. *)
Definition _select_sfm_fp (fs : gmap string (option json))
    (cache_dp : string) (json_graph : json) (sfm_node_type : string)
    (sfm_node_number : Z) : Op (option string) :=
  if String.eqb sfm_node_type "ConvertSfMFormatNode" then
    _get_node_data_fp_of_graph fs cache_dp json_graph "ConvertSfMFormat"
      sfm_node_number (inr ["sfm.sfm"; "sfm.json"])
  else if String.eqb sfm_node_type "StructureFromMotionNode" then
    _get_node_data_fp_of_graph fs cache_dp json_graph "StructureFromMotion"
      sfm_node_number (inl "cameras.sfm")
  else if String.eqb sfm_node_type "AUTOMATIC" then
    sfm_fp ← _get_node_data_fp_of_graph fs cache_dp json_graph
               "ConvertSfMFormat" sfm_node_number
               (inr ["sfm.sfm"; "sfm.json"]);
    match sfm_fp with
    | None =>
        _get_node_data_fp_of_graph fs cache_dp json_graph
          "StructureFromMotion" sfm_node_number (inl "cameras.sfm")
    | Some _ => mret sfm_fp
    end
  else
    _ ← log_report ERROR "Select SfM node is not supported";
    lift (Raise AssertionError).

(** The selection of the mesh file in [parse_meshrom_mg_file]. *)
Definition _select_mesh_fp (fs : gmap string (option json))
    (cache_dp : string) (json_graph : json) (mesh_node_type : string)
    (mesh_node_number : Z) : Op (option string) :=
  if String.eqb mesh_node_type "Texturing" then
    _get_node_data_fp_of_graph fs cache_dp json_graph "Texturing"
      mesh_node_number (inl "texturedMesh.obj")
  else if String.eqb mesh_node_type "MeshFiltering" then
    _get_node_data_fp_of_graph fs cache_dp json_graph "MeshFiltering"
      mesh_node_number (inl "mesh.obj")
  else if String.eqb mesh_node_type "Meshing" then
    _get_node_data_fp_of_graph fs cache_dp json_graph "Meshing"
      mesh_node_number (inl "mesh.obj")
  else if String.eqb mesh_node_type "AUTOMATIC" then
    mesh_fp ← _get_node_data_fp_of_graph fs cache_dp json_graph "Texturing"
                mesh_node_number (inl "texturedMesh.obj");
    mesh_fp ←
      match mesh_fp with
      | None =>
          _get_node_data_fp_of_graph fs cache_dp json_graph "MeshFiltering"
            mesh_node_number (inl "mesh.obj")
      | Some _ => mret mesh_fp
      end;
    match mesh_fp with
    | None =>
        _get_node_data_fp_of_graph fs cache_dp json_graph "Meshing"
          mesh_node_number (inl "mesh.obj")
    | Some _ => mret mesh_fp
    end
  else
    _ ← log_report ERROR "Select Mesh node is not supported";
    lift (Raise AssertionError).

(** [parse_meshrom_mg_file(mg_fp, sfm_node_type, sfm_node_number,
    mesh_node_type, mesh_node_number, op)] *)
Definition parse_meshrom_mg_file (fs : gmap string (option json))
    (mg_fp : string) (sfm_node_type : string) (sfm_node_number : Z)
    (mesh_node_type : string) (mesh_node_number : Z)
  : Op (option string * option string) :=
  let cache_dp := path_join (dirname mg_fp) ["MeshroomCache"] in
  json_data ← lift (json_load fs mg_fp);
  json_graph ← lift (py_getitem json_data "graph");
  sfm_fp ← _select_sfm_fp fs cache_dp json_graph sfm_node_type sfm_node_number;
  mesh_fp ←
    _select_mesh_fp fs cache_dp json_graph mesh_node_type mesh_node_number;
  _ ← match sfm_fp with
      | Some fp => log_report INFO ("Found the following sfm file: " ++ fp)
      | None =>
          log_report INFO
            "Request target SfM result does not exist in this meshroom project"
      end;
  _ ← match mesh_fp with
      | Some fp => log_report INFO ("Found the following mesh file: " ++ fp)
      | None =>
          log_report INFO
            "Request target mesh does not exist in this meshroom project"
      end;
  mret (sfm_fp, mesh_fp).

(** [parse_meshroom_file(meshroom_ifp, image_dp, image_fp_type,
    suppress_distortion_warnings, sfm_node_type, sfm_node_number,
    mesh_node_type, mesh_node_number, op)] *)
Definition parse_meshroom_file (fs : gmap string (option json))
    (meshroom_ifp : string) (image_dp : option string)
    (image_fp_type : string) (suppress_distortion_warnings : bool)
    (sfm_node_type : string) (sfm_node_number : Z)
    (mesh_node_type : string) (mesh_node_number : Z)
  : Op (list Camera * list Point * option string) :=
  _ ← log_report INFO "parse_meshroom_file: ...";
  _ ← log_report INFO ("meshroom_ifp: " ++ meshroom_ifp);
  let ext := lower (splitext_ext meshroom_ifp) in
  '(meshroom_ifp, mesh_fp) ←
    (if String.eqb ext ".mg" then
       parse_meshrom_mg_file fs meshroom_ifp sfm_node_type sfm_node_number
         mesh_node_type mesh_node_number
     else
       _ ← lift (assert (String.eqb ext ".json" || String.eqb ext ".sfm"));
       mret (Some meshroom_ifp, None));
  '(cams, points) ←
    match meshroom_ifp with
    | Some sfm_ifp =>
        parse_sfm_file fs sfm_ifp image_dp image_fp_type
          suppress_distortion_warnings
    | None =>
        _ ← log_report WARNING
              "Meshroom project does not contain cameras or points";
        mret ([], [])
    end;
  _ ← log_report INFO "parse_meshroom_file: Done";
  mret (cams, points, mesh_fp).

End Handler.
End MeshroomFileHandler.

(* ===================================================================== *)
(** * An instance of the interfaces: exact rational arithmetic *)
(* ===================================================================== *)

(** The handlers run on concrete files with this instance: floats are
    rationals in lowest terms, read from decimal literals and printed as
    decimal expansions; an array is the list of its entries. *)
Module Exact.

Fixpoint take_digits (s : string) : string * string :=
  match s with
  | EmptyString => (EmptyString, EmptyString)
  | String c s' =>
      if isdecimal_char c
      then let '(d, r) := take_digits s' in (String c d, r)
      else (EmptyString, s)
  end.

Definition take_sign (s : string) : bool * string :=
  match s with
  | String "-"%char s' => (true, s')
  | String "+"%char s' => (false, s')
  | _ => (false, s)
  end.

(** The exponent part: nothing, or [e] or [E], a sign and digits. *)
Definition exponent (s : string) : option Z :=
  match s with
  | EmptyString => Some 0
  | String c s' =>
      if Ascii.eqb c "e"%char || Ascii.eqb c "E"%char then
        let '(neg, s') := take_sign s' in
        let '(d, r) := take_digits s' in
        if is_empty d || negb (is_empty r) then None
        else Some (if neg : bool then - digits_value 0 d else digits_value 0 d)
      else None
  end.

Definition scale10 (m e : Z) : Q :=
  if 0 <=? e then Qred (inject_Z (m * 10 ^ e))
  else Qred (Qmake m (Z.to_pos (10 ^ (- e)))).

(** The value of a decimal literal. *)
Definition Q_of_string (s : string) : option Q :=
  let '(neg, s) := take_sign (strip s) in
  let '(ip, s) := take_digits s in
  let '(fp, s) :=
    match s with
    | String "."%char s' => take_digits s'
    | _ => (EmptyString, s)
    end in
  if is_empty ip && is_empty fp then None
  else
    match exponent s with
    | None => None
    | Some e =>
        let m := digits_value 0 (ip ++ fp) in
        Some (scale10 (if neg : bool then - m else m)
                    (e - Z.of_nat (String.length fp)))
    end.

Definition digit_char (d : Z) : ascii := ascii_of_nat (Z.to_nat (48 + d)).

Fixpoint frac_digits (fuel : nat) (r den : Z) : string :=
  match fuel with
  | O => EmptyString
  | S fuel' =>
      if r =? 0 then EmptyString
      else String (digit_char (10 * r / den))
                  (frac_digits fuel' ((10 * r) mod den) den)
  end.

(** [str(x)]: the decimal expansion, cut after 17 fractional digits. *)
Definition str_Q (x : Q) : string :=
  let n := Z.abs (Qnum (Qred x)) in
  let d := Zpos (Qden (Qred x)) in
  let fd := frac_digits 17 (n mod d) d in
  (if Qnum (Qred x) <? 0 then "-" else "")
  ++ str_int (n / d) ++ "."
  ++ (if is_empty fd then "0" else fd).

#[global] Instance float_Q : PyFloat := {|
  float := Q;
  parse_float := Q_of_string;
  float_of_int := fun n => Ok (inject_Z n);
  int_of_float := fun x => Ok (Z.quot (Qnum x) (Zpos (Qden x)));
  str_float := str_Q;
  f0 := 0%Q;
  f1 := 1%Q;
  fadd := fun a b => Qred (a + b);
  fmul := fun a b => Qred (a * b);
  fneg := fun a => Qred (- a);
  feqb := Qeq_bool
|}.

Definition det3 (m : mat3) : Q :=
  let '((a, b, c), (d, e, f), (g, h, i)) := m in
  (a * (e * i - f * h) - b * (d * i - f * g) + c * (d * h - e * g))%Q.

(** The inverse by cofactors. *)
Definition inv3 (m : mat3) : result mat3 :=
  let '((a, b, c), (d, e, f), (g, h, i)) := m in
  let dt := det3 m in
  if Qeq_bool dt 0 then Raise LinAlgError
  else
    let q (v : Q) : Q := Qred (v / dt) in
    Ok ((q (e * i - f * h), q (c * h - b * i), q (b * f - c * e)),
        (q (f * g - d * i), q (a * i - c * g), q (c * d - a * f)),
        (q (d * h - e * g), q (b * g - a * h), q (a * e - b * d)))%Q.

#[global] Instance numpy_Q : Numpy := {| linalg_inv := inv3 |}.

(** The rotation of a quaternion, normalised by its squared norm; the
    identity for the zero quaternion. *)
Definition rotation_of_quaternion (q : quat) : mat3 :=
  let '(w, x, y, z) := q in
  let qq := (w * w + x * x + y * y + z * z)%Q in
  if Qeq_bool qq 0 then ((1, 0, 0), (0, 1, 0), (0, 0, 1))%Q
  else
    let n (v : Q) : Q := Qred (v / qq) in
    ((n (w * w + x * x - z * z - y * y), n (2 * x * y - 2 * z * w),
      n (2 * y * w + 2 * z * x)),
     (n (2 * x * y + 2 * w * z), n (y * y + w * w - z * z - x * x),
      n (2 * z * y - 2 * x * w)),
     (n (2 * x * z - 2 * y * w), n (2 * y * z + 2 * x * w),
      n (z * z + w * w - y * y - x * x)))%Q.

(** A quaternion of a rotation, not normalised. *)
Definition quaternion_of_rotation (m : mat3) : quat :=
  let '((a, b, c), (d, e, f), (g, h, i)) := m in
  (Qred (1 + a + e + i), Qred (h - f), Qred (c - g), Qred (d - b))%Q.

#[global] Instance camera_Q : CameraLib := {|
  quaternion_to_rotation_mat := rotation_of_quaternion;
  rotation_mat_to_quaternion := quaternion_of_rotation
|}.

Definition transpose9 (a : list Q) : result (list Q) :=
  match a with
  | [a; b; c; d; e; f; g; h; i] => Ok [a; d; g; b; e; h; c; f; i]
  | _ => Raise ValueError
  end.

Definition array_of (conv : json -> result Q) (j : json) : result (list Q) :=
  match j with
  | JArr l => mapM conv l
  | _ => Raise ValueError
  end.

Definition str_json (j : json) : string :=
  match j with
  | JNull => "None"
  | JBool b => if b then "True" else "False"
  | JInt z => str_int z
  | JFloat f => str_Q f
  | JStr s => s
  | JArr _ => "[...]"
  | JObj _ => "{...}"
  end.

#[global] Instance meshroom_Q : MeshroomLib := {|
  ndarray := list Q;
  np_array_float := array_of py_float;
  np_array_int := array_of (fun j => inject_Z <$> py_int j);
  reshape_3_3_T := transpose9;
  py_str := str_json;
  check_radial_distortion := fun radial_distortion name =>
    if Qeq_bool radial_distortion 0 then []
    else [(WARNING, "Distortion of camera " ++ name ++ ": "
                    ++ str_Q radial_distortion)]
|}.

End Exact.

Import Exact.

(* ===================================================================== *)
(** * Notions used to state the properties *)
(* ===================================================================== *)

(** A text from its lines, each ended by a line feed. *)
Definition unlines (l : list string) : string :=
  String.concat "" ((fun s => s ++ linesep) <$> l).

(** The text left after [n] calls of [readline]. *)
Fixpoint skip_lines (n : nat) (f : string) : string :=
  match n with
  | O => f
  | S n' => skip_lines n' (snd (readline f))
  end.

(** What call [i] of [readline] returns, counting from 0. *)
Definition line (i : nat) (f : string) : string :=
  fst (readline (skip_lines i f)).

(** The superscript digit two, U+00B2. *)
Definition SUPERSCRIPT_TWO : string := String "178"%char EmptyString.

(** The two exceptions a malformed line raises. *)
Definition parse_error (e : exn) : Prop := e = IndexError \/ e = ValueError.

(* ===================================================================== *)
(** * Sample inputs *)
(* ===================================================================== *)

Module Samples.

(** A point with one measurement. *)
Definition measured_point : NVMFileHandler.Point :=
  {| NVMFileHandler.coord := [0; 0; 0]%Q;
     NVMFileHandler.color := [0; 0; 0];
     NVMFileHandler.measurements :=
       [{| NVMFileHandler.image_index := 0;
           NVMFileHandler.feature_index := 0;
           NVMFileHandler.x := 0%Q;
           NVMFileHandler.y := 0%Q |}];
     NVMFileHandler.point_id := 0%nat;
     NVMFileHandler.scalars := None |}.

(** A point without measurements. *)
Definition bare_point : NVMFileHandler.Point :=
  {| NVMFileHandler.coord := [1 # 2; -3; 4]%Q;
     NVMFileHandler.color := [255; 0; 7];
     NVMFileHandler.measurements := [];
     NVMFileHandler.point_id := 0%nat;
     NVMFileHandler.scalars := None |}.

(** A camera record with a directory in its file name, turned by half a
    turn about the x axis, and the camera it parses to. *)
Definition camera_fields : list string :=
  ["1000.0"; "0"; "1"; "0"; "0"; "1"; "2"; "3"; "0"; "0"].

Definition camera_file : string :=
  unlines ["NVM_V3"; ""; "1";
           "shots/a/img001.jpg 1000.0 0 1 0 0 1 2 3 0 0"; ""; "0"].

(** A file whose only point declares two measurements and carries six of
    their eight tokens. *)
Definition truncated_file : string :=
  unlines ["NVM_V3"; ""; "0"; ""; "1"; "1 2 3 255 0 0 2 0 1 0.5 0.5 1 2"].

Definition camera : NVMFileHandler.Camera :=
  {| NVMFileHandler._rotation_mat := ((1, 0, 0), (0, -1, 0), (0, 0, -1))%Q;
     NVMFileHandler._center := (1, 2, 3)%Q;
     NVMFileHandler._translation_vec := (-1, 2, 3)%Q;
     NVMFileHandler.normal := (0, 0, -1)%Q;
     NVMFileHandler.calibration_mat :=
       ((1000, 0, 0), (0, 1000, 0), (0, 0, 1))%Q;
     NVMFileHandler.radial_distortion := 0%Q;
     NVMFileHandler.file_name := "img001.jpg";
     NVMFileHandler.id := 0%nat;
     NVMFileHandler.width := None;
     NVMFileHandler.height := None |}.

(** An upright camera at (1, 2, 3). *)
Definition upright_camera : NVMFileHandler.Camera :=
  {| NVMFileHandler._rotation_mat := ((1, 0, 0), (0, 1, 0), (0, 0, 1))%Q;
     NVMFileHandler._center := (1, 2, 3)%Q;
     NVMFileHandler._translation_vec := (-1, -2, -3)%Q;
     NVMFileHandler.normal := (0, 0, 1)%Q;
     NVMFileHandler.calibration_mat :=
       ((1000, 0, 0), (0, 1000, 0), (0, 0, 1))%Q;
     NVMFileHandler.radial_distortion := 0%Q;
     NVMFileHandler.file_name := "img001.jpg";
     NVMFileHandler.id := 0%nat;
     NVMFileHandler.width := None;
     NVMFileHandler.height := None |}.

(** The line [write_nvm_file] writes for [measured_point], without its
    line feed. *)
Definition measured_point_line : string :=
  "0.0 0.0 0.0 0 0 0 1 Measurement(image_index=0, feature_index=0, x=0.0, y=0.0) ".

(** A Meshroom view with pose id 7. *)
Definition view (path : string) : json :=
  JObj (list_to_map
          [("poseId", JStr "7"); ("path", JStr path); ("width", JStr "10");
           ("height", JStr "20"); ("intrinsicId", JStr "1")]).

Definition intrinsic : json :=
  JObj (list_to_map
          [("intrinsicId", JStr "1"); ("pxFocalLength", JStr "100.5");
           ("principalPoint", JArr [JStr "5"; JStr "10"])]).

Definition pose (pose_id : string) : json :=
  JObj (list_to_map
          [("poseId", JStr pose_id);
           ("pose",
            JObj (list_to_map
                    [("transform",
                      JObj (list_to_map
                              [("rotation",
                                JArr (JStr <$> ["1"; "0"; "0"; "0"; "1"; "0";
                                                "0"; "0"; "1"]));
                               ("center",
                                JArr (JStr <$> ["1"; "2"; "3"]))]))]))]).

(** An SfM document without [structure]: two views share the pose id 7. *)
Definition sfm_two_views : gmap string json :=
  list_to_map
    [("views", JArr [view "/a/x.jpg"; view "/b/y.jpg"]);
     ("intrinsics", JArr [intrinsic]);
     ("poses", JArr [pose "7"])].

(** The camera of the first of the two views. *)
Definition first_view_camera : MeshroomFileHandler.Camera :=
  {| MeshroomFileHandler.image_fp_type := "NAME";
     MeshroomFileHandler.image_dp := None;
     MeshroomFileHandler._absolute_fp := "/a/x.jpg";
     MeshroomFileHandler._relative_fp := "x.jpg";
     MeshroomFileHandler._undistorted_relative_fp := "7.exr";
     MeshroomFileHandler._undistorted_absolute_fp := None;
     MeshroomFileHandler.width := 10;
     MeshroomFileHandler.height := 20;
     MeshroomFileHandler.calibration_mat :=
       ((201 # 2, 0, 5), (0, 201 # 2, 10), (0, 0, 1))%Q;
     MeshroomFileHandler.radial_distortion := 0%Q;
     MeshroomFileHandler.rotation_mat := [1; 0; 0; 0; 1; 0; 0; 0; 1]%Q;
     MeshroomFileHandler.center := [1; 2; 3]%Q;
     MeshroomFileHandler.view_index := 7 |}.

(** An SfM document without cameras and without [structure]. *)
Definition sfm_empty : gmap string json :=
  list_to_map
    [("views", JArr []); ("intrinsics", JArr []); ("poses", JArr [])].

(** A document with [views] only. *)
Definition sfm_views_only : gmap string json := {[ "views" := JArr [] ]}.

Definition node (node_type uid : string) : json :=
  JObj (list_to_map
          [("nodeType", JStr node_type);
           ("uids", JObj (list_to_map [("0", JStr uid)]))]).

(** A project graph with two instances of [StructureFromMotion]. *)
Definition graph : gmap string json :=
  list_to_map
    [("StructureFromMotion_1", node "StructureFromMotion" "aa");
     ("StructureFromMotion_2", node "StructureFromMotion" "bb");
     ("CameraInit_1", node "CameraInit" "cc")].

(** A cache that holds the output of the second instance only. *)
Definition cache : gmap string (option json) :=
  {[ "/p/MeshroomCache/StructureFromMotion/bb/cameras.sfm"
     := Some (JObj sfm_empty) ]}.

(** A file with a negative camera count and one point. *)
Definition negative_count_file : string :=
  unlines ["NVM_V3"; ""; "-2"; ""; "1"; "0.5 -3 4 255 0 7 0"].

(** A file whose camera record lacks its last value. *)
Definition short_record_file : string :=
  unlines ["NVM_V3"; ""; "1"; "a.jpg 1000.0 1 0 0 0 1 2 3 0"; ""; "0"].

(** A landmark of [structure] and the point it parses to. *)
Definition landmark : json :=
  JObj (list_to_map
          [("X", JArr (JStr <$> ["1"; "2"; "3"]));
           ("color", JArr (JStr <$> ["255"; "0"; "0"]));
           ("landmarkId", JStr "42")]).

Definition landmark_point : MeshroomFileHandler.Point :=
  {| MeshroomFileHandler.coord := [1; 2; 3]%Q;
     MeshroomFileHandler.color := [255; 0; 0]%Q;
     MeshroomFileHandler.id := 42;
     MeshroomFileHandler.scalars := [] |}.

(** An SfM document with [structure] and without [poses]. *)
Definition sfm_points_only : gmap string json :=
  list_to_map [("views", JArr []); ("structure", JArr [landmark])].

(** A project file next to [cache], and a project with an empty graph. *)
Definition project_files : gmap string (option json) :=
  <[ "/p/scene.mg" := Some (JObj {[ "graph" := JObj graph ]}) ]> cache.

Definition empty_project_files : gmap string (option json) :=
  {[ "/p/empty.MG" := Some (JObj {[ "graph" := JObj ∅ ]}) ]}.

End Samples.


(** The values of a camera record whose eleventh value is missing, is no
    float, or is a float other than zero. *)
Definition bad_terminator `{PyFloat} (values : list string) : Prop :=
  (length values <= 10)%nat
  \/ (exists t, values !! 10%nat = Some t /\ parse_float t = None)
  \/ (exists t z, values !! 10%nat = Some t /\ parse_float t = Some z
                  /\ feqb z f0 = false).

(** The index map of the Meshroom camera parse points to cameras with the
    view index it maps, and to the last of them in the list. *)
Definition index_map_sound `{PyFloat} `{!MeshroomLib}
    (cams : list MeshroomFileHandler.Camera) (index : gmap Z nat) : Prop :=
  (forall v i, index !! v = Some i ->
     exists cam, cams !! i = Some cam /\ MeshroomFileHandler.view_index cam = v)
  /\ (forall i cam, cams !! i = Some cam ->
        exists j, index !! MeshroomFileHandler.view_index cam = Some j
                  /\ (i <= j)%nat).

(** The node [_get_node] selects in a graph: for the number -1 the node of
    the last of the instances 1, 2, 3, ... whose keys are in the graph, for
    another number the node under the key of that number. *)
Definition selected_node `{PyFloat} (g : gmap string json)
    (node_type : string) (node_number : Z) (node : json) : Prop :=
  (node_number = -1
   /\ exists k,
        1 <= k
        /\ (forall j, 1 <= j <= k ->
              is_Some (g !! MeshroomFileHandler.node_key node_type j))
        /\ g !! MeshroomFileHandler.node_key node_type (k + 1) = None
        /\ g !! MeshroomFileHandler.node_key node_type k = Some node)
  \/ (node_number <> -1
      /\ g !! MeshroomFileHandler.node_key node_type node_number = Some node).

(** A cache file of a node: an existing file whose path joins the cache
    directory, the [nodeType] and the first uid the node itself declares,
    and one of the file names; it begins with the cache directory when
    neither of the two strings of the node begins with a slash. *)
Definition node_file `{PyFloat} (fs : gmap string (option json))
    (cache_dp : string) (node : json) (names : list string) (fp : string)
  : Prop :=
  MeshroomFileHandler.isfile fs fp = true
  /\ exists nt uid fn,
       py_getitem node "nodeType" = Ok (JStr nt)
       /\ (uids ← py_getitem node "uids"; py_getitem uids "0") = Ok (JStr uid)
       /\ In fn names
       /\ fp = path_join cache_dp [nt; uid; fn]
       /\ (startswith_sep nt = false -> startswith_sep uid = false ->
           exists rest, fp = (cache_dp ++ rest)%string).

(** The node types the SfM selector of [parse_meshrom_mg_file] looks up,
    each with the file names it is asked for. *)
Definition sfm_node_files (sfm_node_type node_type : string)
    (names : list string) : Prop :=
  (node_type = "ConvertSfMFormat" /\ names = ["sfm.sfm"; "sfm.json"]
   /\ (sfm_node_type = "ConvertSfMFormatNode" \/ sfm_node_type = "AUTOMATIC"))
  \/ (node_type = "StructureFromMotion" /\ names = ["cameras.sfm"]
      /\ (sfm_node_type = "StructureFromMotionNode"
          \/ sfm_node_type = "AUTOMATIC")).

(** The node types the mesh selector looks up, each with its file name. *)
Definition mesh_node_files (mesh_node_type node_type : string)
    (names : list string) : Prop :=
  (node_type = "Texturing" /\ names = ["texturedMesh.obj"]
   /\ (mesh_node_type = "Texturing" \/ mesh_node_type = "AUTOMATIC"))
  \/ (node_type = "MeshFiltering" /\ names = ["mesh.obj"]
      /\ (mesh_node_type = "MeshFiltering" \/ mesh_node_type = "AUTOMATIC"))
  \/ (node_type = "Meshing" /\ names = ["mesh.obj"]
      /\ (mesh_node_type = "Meshing" \/ mesh_node_type = "AUTOMATIC")).

(** A string without whitespace. *)
Fixpoint no_space (s : string) : bool :=
  match s with
  | EmptyString => true
  | String c s' => negb (isspace c) && no_space s'
  end.

(** A string without a line feed and without a carriage return. *)
Fixpoint no_break (s : string) : bool :=
  match s with
  | EmptyString => true
  | String c s' => negb (Ascii.eqb c LF) && negb (Ascii.eqb c CR) && no_break s'
  end.

(** A token: written between blanks, it is one element of [split]. *)
Definition token (s : string) : Prop :=
  is_empty s = false /\ no_space s = true.

(** A float that is written as one token, from which [float] reads the
    same float. *)
Definition float_round_trips `{PyFloat} (x : float) : Prop :=
  token (str_float x) /\ parse_float (str_float x) = Some x.

(** A camera of the shape [_parse_cameras] gives to camera [k], whose file
    name, focal length, quaternion and center are written as tokens that
    are read back as they are. *)
Definition parsed_camera `{PyFloat} `{!Numpy} `{!CameraLib}
    (k : nat) (cam : NVMFileHandler.Camera) : Prop :=
  exists focal_length inv,
    NVMFileHandler.id cam = k
    /\ token (NVMFileHandler.file_name cam)
    /\ has_sep (NVMFileHandler.file_name cam) = false
    /\ NVMFileHandler.calibration_mat cam
       = ((focal_length, f0, f0), (f0, focal_length, f0), (f0, f0, f1))
    /\ float_round_trips focal_length
    /\ Forall float_round_trips
         (quat_to_list (NVMFileHandler.get_quaternion cam))
    /\ Forall float_round_trips (vec3_to_list (NVMFileHandler._center cam))
    /\ quaternion_to_rotation_mat (NVMFileHandler.get_quaternion cam)
       = NVMFileHandler._rotation_mat cam
    /\ linalg_inv (NVMFileHandler._rotation_mat cam) = Ok inv
    /\ NVMFileHandler.normal cam = dot inv (f0, f0, f1)
    /\ NVMFileHandler._translation_vec cam
       = NVMFileHandler.compute_camera_coordinate_system_translation_vector
           (NVMFileHandler._center cam) (NVMFileHandler._rotation_mat cam)
    /\ NVMFileHandler.radial_distortion cam = f0
    /\ NVMFileHandler.width cam = None
    /\ NVMFileHandler.height cam = None.

(** A point of the shape [_parse_nvm_points] gives to point [k], without
    measurements, whose coordinates are read back as written. *)
Definition parsed_point `{PyFloat} (k : nat) (p : NVMFileHandler.Point)
  : Prop :=
  NVMFileHandler.point_id p = k
  /\ NVMFileHandler.scalars p = None
  /\ NVMFileHandler.measurements p = []
  /\ length (NVMFileHandler.coord p) = 3%nat
  /\ Forall float_round_trips (NVMFileHandler.coord p)
  /\ length (NVMFileHandler.color p) = 3%nat.

(* ===================================================================== *)
(** * Properties of the NVM handler *)
(* ===================================================================== *)

Lemma bind_Ok {A B} (a : A) (k : A -> result B) : (Ok a ≫= k) = k a.
Proof. reflexivity. Qed.

Lemma bind_Raise {A B} (e : exn) (k : A -> result B) :
  (Raise e ≫= k) = Raise e.
Proof. reflexivity. Qed.

Lemma fmap_Ok {A B} (f : A -> B) (a : A) : f <$> Ok a = Ok (f a).
Proof. reflexivity. Qed.

Example split_ex : split "  a b  c " = ["a"; "b"; "c"].
Proof. reflexivity. Qed.

Section NVM_properties.
Context `{FL : PyFloat} `{!Numpy} `{!CameraLib}.
Import NVMFileHandler.

Lemma parse_nvm_file_open fs name raw :
  fs !! name = Some raw ->
  parse_nvm_file fs name = parse_nvm_text (universal_newlines raw).
Proof. intros Hfs. unfold parse_nvm_file. now rewrite Hfs. Qed.

(** C6 (amended). The two header lines are compared after [rstrip]:
    when the first line without its trailing whitespace is not [NVM_V3],
    or the second line holds anything but whitespace, the parser raises
    [AssertionError]; otherwise it goes on with the line of the camera
    count. *)
Theorem parse_nvm_file_header fs name raw l1 r1 l2 r2 :
  fs !! name = Some raw ->
  readline (universal_newlines raw) = (l1, r1) ->
  readline r1 = (l2, r2) ->
  ((rstrip l1 <> "NVM_V3" \/ rstrip l2 <> "") ->
   parse_nvm_file fs name = Raise AssertionError)
  /\ (rstrip l1 = "NVM_V3" -> rstrip l2 = "" ->
      parse_nvm_file fs name = parse_nvm_model r2).
Proof.
  intros Hfs H1 H2. rewrite (parse_nvm_file_open _ _ _ Hfs).
  unfold parse_nvm_text. rewrite H1, H2. split.
  - intros [Hne | Hne].
    + apply String.eqb_neq in Hne. now rewrite Hne.
    + destruct (String.eqb (rstrip l1) "NVM_V3"); [|reflexivity].
      apply String.eqb_neq in Hne. now rewrite Hne.
  - intros -> ->. reflexivity.
Qed.
End NVM_properties.

Lemma parse_nvm_file_header_witness :
  let fs : gmap string string := {[ "a.nvm" := unlines ["NVM_V3 "; " "; "0"] ]} in
  fs !! "a.nvm" = Some (unlines ["NVM_V3 "; " "; "0"])
  /\ ((rstrip ("NVM_V3 " ++ linesep) <> "NVM_V3" \/ rstrip (" " ++ linesep) <> "" ->
       NVMFileHandler.parse_nvm_file fs "a.nvm" = Raise AssertionError)
      /\ (rstrip ("NVM_V3 " ++ linesep) = "NVM_V3" -> rstrip (" " ++ linesep) = "" ->
          NVMFileHandler.parse_nvm_file fs "a.nvm"
          = NVMFileHandler.parse_nvm_model (unlines ["0"]))).
Proof.
  split; [reflexivity|].
  apply (parse_nvm_file_header _ _ (unlines ["NVM_V3 "; " "; "0"])
           ("NVM_V3 " ++ linesep) (unlines [" "; "0"])
           (" " ++ linesep) (unlines ["0"])); reflexivity.
Defined.

(** Counterexample to C6 as the specification states it: the first line
    [NVM_V3] followed by a space, which is what the writer itself produces,
    is not the literal [NVM_V3], and the file is parsed without error. *)
Lemma header_with_trailing_space_accepted :
  let text := unlines ["NVM_V3 "; ""; "0"; ""; "0"] in
  line 0 text <> "NVM_V3" ++ linesep
  /\ NVMFileHandler.parse_nvm_file {[ "a.nvm" := text ]} "a.nvm" = Ok ([], []).
Proof. split; [discriminate | reflexivity]. Qed.


(** ** Decimal strings *)

Lemma isdecimal_char_not_space c : isdecimal_char c = true -> isspace c = false.
Proof.
  unfold isdecimal_char, isspace. intros Hc.
  apply andb_true_iff in Hc as [H1 H2].
  apply Z.leb_le in H1. apply Z.leb_le in H2.
  repeat (apply orb_false_iff; split);
    first [apply andb_false_iff; right; apply Z.leb_gt; lia
          | apply Z.eqb_neq; lia].
Qed.

Lemma isdecimal_char_digit c : isdecimal_char c = true -> isdigit_char c = true.
Proof. unfold isdigit_char. now intros ->. Qed.

Lemma isdecimal_char_no_sign {A} c s (a b : string -> A) (d : string -> A) :
  isdecimal_char c = true ->
  match String c s with
  | String "-"%char t => a t
  | String "+"%char t => b t
  | t => d t
  end = d (String c s).
Proof.
  destruct c as [[] [] [] [] [] [] [] []]; try discriminate; reflexivity.
Qed.

Lemma all_decimal_rstrip s : all_decimal s = true -> rstrip s = s.
Proof.
  induction s as [|c s IH]; [reflexivity|]. simpl.
  intros Hs. apply andb_true_iff in Hs as [Hc Hs].
  now rewrite (isdecimal_char_not_space _ Hc), (IH Hs).
Qed.

Lemma isdecimal_strip s : isdecimal s = true -> strip s = s.
Proof.
  unfold isdecimal, strip. intros Hs. apply andb_true_iff in Hs as [Hne Hs].
  rewrite (all_decimal_rstrip _ Hs). destruct s as [|c s]; [reflexivity|].
  simpl in *. apply andb_true_iff in Hs as [Hc _].
  now rewrite (isdecimal_char_not_space _ Hc).
Qed.

(** The blanks of [int] are whitespace. *)
Lemma isblank_int_space c : isspace c = false -> isblank_int c = false.
Proof.
  unfold isspace, isblank_int. intros Hc.
  apply orb_false_iff in Hc as [Hc H160].
  apply orb_false_iff in Hc as [Hc H133].
  apply orb_false_iff in Hc as [H9 H28].
  rewrite H9, H133, H160. cbn [orb]. rewrite !orb_false_r.
  apply Z.eqb_neq. intros H32. rewrite H32 in H28. discriminate H28.
Qed.

(** A string without whitespace is read by [int] as it is. *)
Lemma int_rstrip_no_space s :
  (forall c, In c (list_ascii_of_string s) -> isspace c = false) ->
  int_rstrip s = s.
Proof.
  induction s as [|c s IH]; [reflexivity|]. intros Hs. cbn [int_rstrip].
  rewrite (isblank_int_space c) by (apply Hs; now left).
  rewrite IH; [reflexivity|]. intros c' Hc'. apply Hs. now right.
Qed.

Lemma int_strip_no_space s :
  (forall c, In c (list_ascii_of_string s) -> isspace c = false) ->
  int_lstrip (int_rstrip s) = s.
Proof.
  intros Hs. rewrite (int_rstrip_no_space s Hs).
  destruct s as [|c s]; [reflexivity|]. cbn [int_lstrip].
  now rewrite (isblank_int_space c) by (apply Hs; now left).
Qed.

Lemma all_decimal_chars s :
  all_decimal s = true ->
  forall c, In c (list_ascii_of_string s) -> isspace c = false.
Proof.
  induction s as [|a s IH]; intros Hs c Hc; [destruct Hc|].
  cbn [all_decimal] in Hs. apply andb_true_iff in Hs as [Ha Hs].
  destruct Hc as [<- | Hc]; [now apply isdecimal_char_not_space | now apply IH].
Qed.

Lemma isdecimal_int_strip s :
  isdecimal s = true -> int_lstrip (int_rstrip s) = s.
Proof.
  unfold isdecimal. intros Hs. apply andb_true_iff in Hs as [_ Hs].
  apply int_strip_no_space, all_decimal_chars, Hs.
Qed.

Lemma all_decimal_int_digits s : forall acc,
  all_decimal s = true ->
  int_digits acc true s = Some (digits_value acc s).
Proof.
  induction s as [|c s IH]; intros acc Hs; [reflexivity|].
  simpl in *. apply andb_true_iff in Hs as [Hc Hs]. rewrite Hc. now apply IH.
Qed.

Lemma digits_value_nonneg s : forall acc,
  all_decimal s = true -> 0 <= acc -> 0 <= digits_value acc s.
Proof.
  induction s as [|c s IH]; intros acc Hs Hacc; [exact Hacc|].
  simpl in *. apply andb_true_iff in Hs as [Hc Hs]. apply IH; [exact Hs|].
  unfold isdecimal_char in Hc. apply andb_true_iff in Hc as [H1 _].
  apply Z.leb_le in H1. unfold digit_val. lia.
Qed.

(** On a string of decimal digits [isdigit] holds and [int] gives its value. *)
Lemma isdecimal_int s :
  isdecimal s = true ->
  isdigit s = true /\ int s = Ok (digits_value 0 s) /\ 0 <= digits_value 0 s.
Proof.
  intros Hs. pose proof (isdecimal_int_strip _ Hs) as Hstrip.
  unfold isdecimal in Hs. apply andb_true_iff in Hs as [Hne Hs].
  split; [|split].
  - unfold isdigit. rewrite Hne. simpl. clear Hne Hstrip.
    induction s as [|c s IH]; [reflexivity|]. simpl in *.
    apply andb_true_iff in Hs as [Hc Hs].
    now rewrite (isdecimal_char_digit _ Hc), (IH Hs).
  - unfold int. rewrite Hstrip. destruct s as [|c s]; [discriminate|].
    simpl in Hs. apply andb_true_iff in Hs as [Hc Hs].
    rewrite (isdecimal_char_no_sign c s
               (fun d => Z.opp <$> int_digits 0 false d)
               (fun d => int_digits 0 false d)
               (fun d => int_digits 0 false d) Hc).
    simpl. rewrite Hc. now rewrite (all_decimal_int_digits _ _ Hs).
  - now apply digits_value_nonneg.
Qed.

Section NVM_point_count.
Context `{FL : PyFloat} `{!Numpy} `{!CameraLib}.
Import NVMFileHandler.

Lemma _parse_nvm_points_loop_length n : forall idx f pts r,
  _parse_nvm_points_loop idx n f = Ok (pts, r) -> length pts = n.
Proof.
  induction n as [|n IH]; intros idx f pts r; simpl.
  - intros [= <- _]. reflexivity.
  - destruct (readline f) as [l f'].
    destruct (_parse_nvm_points_body idx l) as [p|e]; [|discriminate].
    simpl. destruct (_parse_nvm_points_loop (S idx) n f') as [[ps r']|e] eqn:E;
      [|discriminate].
    simpl. intros [= <- _]. simpl. f_equal. eapply IH, E.
Qed.

(** The two outcomes of the line that follows the camera section. *)
Lemma parse_nvm_model_points f l3 r3 n cameras r4 l5 r5 l6 r6 :
  readline f = (l3, r3) ->
  int (rstrip l3) = Ok n ->
  _parse_cameras r3 n = Ok (cameras, r4) ->
  readline r4 = (l5, r5) ->
  rstrip l5 = "" ->
  readline r5 = (l6, r6) ->
  (isdigit (rstrip l6) = false -> parse_nvm_model f = Ok (cameras, []))
  /\ (isdecimal (rstrip l6) = true ->
      parse_nvm_model f
      = ('(points, _) ← _parse_nvm_points r6 (digits_value 0 (rstrip l6));
         mret (cameras, points))
      /\ forall cams points,
           parse_nvm_model f = Ok (cams, points) ->
           cams = cameras
           /\ Z.of_nat (length points) = digits_value 0 (rstrip l6)).
Proof.
  intros H3 Hn Hc H5 Hb H6. unfold parse_nvm_model.
  rewrite H3, Hn. simpl. rewrite Hc. simpl. rewrite H5, Hb. simpl.
  rewrite H6. split.
  - now intros ->.
  - intros Hd. destruct (isdecimal_int _ Hd) as (-> & -> & Hpos). simpl.
    split; [reflexivity|]. intros cams points.
    unfold _parse_nvm_points, range.
    destruct (_parse_nvm_points_loop _ _ _) as [[ps r]|e] eqn:E; [|discriminate].
    simpl. intros [= <- <-]. split; [reflexivity|].
    rewrite (_parse_nvm_points_loop_length _ _ _ _ _ E). lia.
Qed.
End NVM_point_count.

(** C7. A count line that [isdigit] accepts and [int] rejects: the
    superscript two is no decimal integer, the file has no point section,
    and the parser raises [ValueError] instead of returning zero points. *)
Theorem superscript_point_count_raises :
  let text := unlines ["NVM_V3"; ""; "0"; ""; SUPERSCRIPT_TWO] in
  isdecimal SUPERSCRIPT_TWO = false
  /\ isdigit SUPERSCRIPT_TWO = true
  /\ int SUPERSCRIPT_TWO = Raise ValueError
  /\ NVMFileHandler.parse_nvm_file {[ "a.nvm" := text ]} "a.nvm"
     = Raise ValueError.
Proof. repeat split. Qed.


(** ** The parser, line by line *)

Lemma skip_lines_add b : forall a f,
  skip_lines a (skip_lines b f) = skip_lines (b + a) f.
Proof.
  induction b as [|b IH]; intros a f; [reflexivity|]. simpl. apply IH.
Qed.

Lemma skip_lines_S k : forall f,
  skip_lines (S k) f = snd (readline (skip_lines k f)).
Proof.
  induction k as [|k IH]; intros f; [reflexivity|].
  change (skip_lines (S (S k)) f) with (skip_lines (S k) (snd (readline f))).
  rewrite IH. reflexivity.
Qed.

Lemma readline_skip_lines k f :
  readline (skip_lines k f) = (line k f, skip_lines (S k) f).
Proof.
  rewrite skip_lines_S. unfold line. now destruct (readline (skip_lines k f)).
Qed.

Lemma readline_line f : readline f = (line 0 f, skip_lines 1 f).
Proof. apply (readline_skip_lines 0 f). Qed.

Lemma line_skip_lines n i f : line i (skip_lines n f) = line (n + i) f.
Proof. unfold line. now rewrite skip_lines_add. Qed.

(** Reduce a bind whose first computation is a value or a raise. *)
Ltac bind_step := cbn [mbind result_bind Py.bind mret result_ret].

(** Case analysis on the first computation of a bind that returns. *)
Ltac bind_head :=
  lazymatch goal with
  | |- (?m ≫= _) = Ok _ -> _ => destruct m; bind_step; [|discriminate]
  end.

Section NVM_lines.
Context `{FL : PyFloat} `{!Numpy} `{!CameraLib}.
Import NVMFileHandler.

(** [_parse_cameras] reads one line for each camera. *)
Lemma _parse_cameras_loop_rest n : forall i input_file cameras rest,
_parse_cameras_loop i n input_file = Ok (cameras, rest) ->
rest = skip_lines n input_file.
Proof.
induction n as [|n IH]; intros i f cams rest; simpl.
- now intros [= _ <-].
- destruct (readline f) as [l f'] eqn:Er.
  destruct (_parse_cameras_body i l) as [c|]; [|discriminate].
  simpl. destruct (_parse_cameras_loop (S i) n f') as [[cs r]|] eqn:El;
    [|discriminate].
  simpl. intros [= _ <-]. apply IH in El. now rewrite El.
Qed.

(** [parse_nvm_text] in terms of the lines of the text: lines 0 and 1 are
  the header, the model starts at line 2. *)
Lemma parse_nvm_text_lines text :
parse_nvm_text text
= (_ ← assert (String.eqb (rstrip (line 0 text)) "NVM_V3");
   _ ← assert (String.eqb (rstrip (line 1 text)) "");
   parse_nvm_model (skip_lines 2 text)).
Proof.
unfold parse_nvm_text. rewrite readline_line.
rewrite (readline_skip_lines 1 text). reflexivity.
Qed.

(** [parse_nvm_model] in terms of the lines of the text. *)
Lemma parse_nvm_model_lines f :
parse_nvm_model f
= (amount_cameras ← int (rstrip (line 0 f));
   '(cameras, f') ← _parse_cameras (skip_lines 1 f) amount_cameras;
   _ ← assert (String.eqb (rstrip (line 0 f')) "");
   if isdigit (rstrip (line 1 f')) then
     amount_points ← int (rstrip (line 1 f'));
     '(points, _) ← _parse_nvm_points (skip_lines 2 f') amount_points;
     mret (cameras, points)
   else mret (cameras, [])).
Proof.
unfold parse_nvm_model. rewrite readline_line.
destruct (int (rstrip (line 0 f))) as [n|]; [|reflexivity].
rewrite !bind_Ok.
destruct (_parse_cameras (skip_lines 1 f) n) as [[cams f']|]; [|reflexivity].
rewrite !bind_Ok. cbv beta iota.
rewrite (readline_line f'), (readline_skip_lines 1 f'). reflexivity.
Qed.

(** The cameras of a parsed file are those of the records that start at
  line 3. *)
Lemma parse_nvm_text_cameras text cameras points :
parse_nvm_text text = Ok (cameras, points) ->
exists num_cameras rest,
  _parse_cameras (skip_lines 3 text) num_cameras = Ok (cameras, rest).
Proof.
rewrite parse_nvm_text_lines, parse_nvm_model_lines.
do 3 bind_head. rewrite skip_lines_add. change (2 + 1)%nat with 3%nat.
destruct (_parse_cameras (skip_lines 3 text) _) as [[cams f']|] eqn:Ec;
  bind_step; [|discriminate].
bind_head. destruct (isdigit _).
- bind_head. destruct (_parse_nvm_points _ _) as [[pts r]|]; bind_step;
    [|discriminate].
  intros [= <- _]. eauto.
- bind_step. intros [= <- _]. eauto.
Qed.
End NVM_lines.


(** ** Truncated measurement lists *)

Lemma getitem_raises {A} (l : list A) i e :
  getitem l i = Raise e -> e = IndexError.
Proof. unfold getitem. destruct (nth_error l i); simpl; congruence. Qed.

Lemma int_raises s e : int s = Raise e -> e = ValueError.
Proof.
  unfold int.
  match goal with |- of_option _ ?o = _ -> _ => destruct o end;
    simpl; congruence.
Qed.

Lemma getitem_Ok_lt {A} (l : list A) i a : getitem l i = Ok a -> (i < length l)%nat.
Proof.
  unfold getitem. destruct (nth_error l i) eqn:E; [|discriminate].
  intros _. apply nth_error_Some. congruence.
Qed.

Lemma mapM_raises {A B} (f : A -> result B) (P : exn -> Prop) l e :
  (forall a e', f a = Raise e' -> P e') -> mapM f l = Raise e -> P e.
Proof.
  intros Hf. induction l as [|a l IH]; simpl; [discriminate|].
  destruct (f a) as [b|e'] eqn:Ea; simpl.
  - destruct (mapM f l) as [bs|e'']; simpl; [discriminate|].
    intros [= <-]. now apply IH.
  - intros [= <-]. eapply Hf, Ea.
Qed.

(** Case analysis on a computation whose raise ends the whole parse. *)
Ltac bind_raise :=
  lazymatch goal with
  | |- exists e, (?m ≫= _) = Raise e =>
      let e0 := fresh "e" in
      destruct m as [?|e0]; bind_step; [|exists e0; reflexivity]
  end.

Section NVM_measurements.
Context `{FL : PyFloat} `{!Numpy} `{!CameraLib}.
Import NVMFileHandler.

Lemma float_of_string_raises s e : float_of_string s = Raise e -> e = ValueError.
Proof. unfold float_of_string. destruct (parse_float s); simpl; congruence. Qed.

Lemma getitem_int_raises (l : list string) i e :
  getitem l i ≫= int = Raise e -> parse_error e.
Proof.
  destruct (getitem l i) as [s|e'] eqn:E; simpl.
  - intros He. right. eapply int_raises, He.
  - intros [= <-]. left. eapply getitem_raises, E.
Qed.

Lemma getitem_float_raises (l : list string) i e :
  getitem l i ≫= float_of_string = Raise e -> parse_error e.
Proof.
  destruct (getitem l i) as [s|e'] eqn:E; simpl.
  - intros He. right. eapply float_of_string_raises, He.
  - intros [= <-]. left. eapply getitem_raises, E.
Qed.

Lemma getitem_bind_Ok_lt {B} (l : list string) i (f : string -> result B) b :
  getitem l i ≫= f = Ok b -> (i < length l)%nat.
Proof.
  destruct (getitem l i) as [s|e'] eqn:E; simpl; [|discriminate].
  intros _. eapply getitem_Ok_lt, E.
Qed.

Lemma _parse_measurements_raises n : forall measurements idx e,
  _parse_measurements measurements idx n = Raise e -> parse_error e.
Proof.
  induction n as [|n IH]; intros ms idx e; simpl; [discriminate|].
  repeat match goal with
  | |- context [getitem ?l ?i ≫= ?f] =>
      let E := fresh "E" in
      destruct (getitem l i ≫= f) eqn:E; simpl;
      [| intros [= <-];
         first [eapply getitem_int_raises, E | eapply getitem_float_raises, E]]
  end.
  destruct (_parse_measurements ms (S idx) n) eqn:Er; simpl; [discriminate|].
  intros [= <-]. eapply IH, Er.
Qed.

(** With fewer than four tokens for one of the measurements still to
    read, the loop raises. *)
Lemma _parse_measurements_short n : forall measurements idx,
  (0 < n)%nat ->
  (length measurements < 4 * (idx + n))%nat ->
  exists e, _parse_measurements measurements idx n = Raise e /\ parse_error e.
Proof.
  induction n as [|n IH]; intros ms idx Hn Hlen; [lia|].
  destruct (_parse_measurements ms idx (S n)) as [r|e] eqn:E.
  - exfalso. simpl in E.
    destruct (getitem _ 0 ≫= int) eqn:E0; [|discriminate].
    destruct (getitem _ 1 ≫= int) eqn:E1; [|discriminate].
    destruct (getitem _ 2 ≫= float_of_string) eqn:E2; [|discriminate].
    destruct (getitem _ 3 ≫= float_of_string) eqn:E3; [|discriminate].
    simpl in E. apply getitem_bind_Ok_lt in E3.
    unfold slice in E3. rewrite length_take, length_drop in E3.
    destruct (_parse_measurements ms (S idx) n) eqn:Er; [|discriminate].
    destruct (IH ms (S idx)) as (e & He & _); [lia|lia|congruence].
  - exists e. split; [reflexivity|]. eapply _parse_measurements_raises, E.
Qed.

Lemma _parse_nvm_points_body_raises idx point_line e :
  _parse_nvm_points_body idx point_line = Raise e -> parse_error e.
Proof.
  unfold _parse_nvm_points_body.
  destruct (mapM float_of_string _) eqn:E1; simpl.
  2:{ intros [= <-]. right.
      eapply (mapM_raises _ (fun e => e = ValueError)), E1.
      apply float_of_string_raises. }
  destruct (mapM int _) eqn:E2; simpl.
  2:{ intros [= <-]. right.
      eapply (mapM_raises _ (fun e => e = ValueError)), E2.
      apply int_raises. }
  destruct (getitem _ 6 ≫= int) eqn:E3; simpl.
  2:{ intros [= <-]. eapply getitem_int_raises, E3. }
  destruct (_parse_measurements _ _ _) eqn:E4; simpl; [discriminate|].
  intros [= <-]. eapply _parse_measurements_raises, E4.
Qed.

Lemma _parse_nvm_points_body_short idx point_line K :
  getitem (split (rstrip point_line)) 6 ≫= int = Ok K ->
  Z.of_nat (length (skipn 7 (split (rstrip point_line)))) < 4 * K ->
  exists e, _parse_nvm_points_body idx point_line = Raise e /\ parse_error e.
Proof.
  intros HK Hlen.
  destruct (_parse_nvm_points_body idx point_line) as [p|e] eqn:E.
  - exfalso. unfold _parse_nvm_points_body in E.
    destruct (mapM float_of_string _); [|discriminate].
    destruct (mapM int _); [|discriminate]. simpl in E.
    rewrite HK in E. simpl in E.
    destruct (_parse_measurements_short (range K)
                (skipn 7 (split (rstrip point_line))) 0)
      as (e & He & _); [unfold range; lia | unfold range; lia |].
    now rewrite He in E.
  - exists e. split; [reflexivity|]. eapply _parse_nvm_points_body_raises, E.
Qed.

Lemma _parse_nvm_points_loop_short n : forall idx input_file i K,
  (i < n)%nat ->
  getitem (split (rstrip (line i input_file))) 6 ≫= int = Ok K ->
  Z.of_nat (length (skipn 7 (split (rstrip (line i input_file))))) < 4 * K ->
  exists e, _parse_nvm_points_loop idx n input_file = Raise e /\ parse_error e.
Proof.
  induction n as [|n IH]; intros idx f i K Hi HK Hlen; [lia|].
  simpl. destruct (readline f) as [l f'] eqn:Er.
  destruct i as [|i].
  - unfold line in HK, Hlen. simpl in HK, Hlen. rewrite Er in HK, Hlen.
    destruct (_parse_nvm_points_body_short idx l K HK Hlen) as (e & -> & He).
    exists e. split; [reflexivity | exact He].
  - destruct (_parse_nvm_points_body idx l) as [p|e] eqn:Eb; simpl.
    + unfold line in HK, Hlen. simpl in HK, Hlen. rewrite Er in HK, Hlen.
      destruct (IH (S idx) f' i K) as (e & -> & He);
        [lia | exact HK | exact Hlen |].
      exists e. split; [reflexivity | exact He].
    + exists e. split; [reflexivity|]. eapply _parse_nvm_points_body_raises, Eb.
Qed.

Lemma _parse_nvm_points_short input_file num_3D_points i K :
  Z.of_nat i < num_3D_points ->
  getitem (split (rstrip (line i input_file))) 6 ≫= int = Ok K ->
  Z.of_nat (length (skipn 7 (split (rstrip (line i input_file))))) < 4 * K ->
  exists e,
    _parse_nvm_points input_file num_3D_points = Raise e /\ parse_error e.
Proof.
  intros Hi HK Hlen. unfold _parse_nvm_points.
  eapply _parse_nvm_points_loop_short; [|exact HK|exact Hlen].
  unfold range. lia.
Qed.

(** A file whose point section holds such a line is never parsed. *)
Lemma parse_nvm_text_truncated text n M i K :
  int (rstrip (line 2 text)) = Ok n ->
  isdigit (rstrip (line (4 + range n) text)) = true ->
  int (rstrip (line (4 + range n) text)) = Ok M ->
  Z.of_nat i < M ->
  getitem (split (rstrip (line (5 + range n + i) text))) 6 ≫= int = Ok K ->
  Z.of_nat (length (skipn 7 (split (rstrip (line (5 + range n + i) text)))))
  < 4 * K ->
  exists e, parse_nvm_text text = Raise e.
Proof.
  intros Hn Hdigit HM Hi HK Hlen.
  rewrite parse_nvm_text_lines, parse_nvm_model_lines.
  do 2 bind_raise. rewrite line_skip_lines. change (2 + 0)%nat with 2%nat.
  rewrite Hn. bind_step.
  destruct (_parse_cameras _ n) as [[cams f']|e] eqn:Ec; bind_step; [|eauto].
  unfold _parse_cameras in Ec. apply _parse_cameras_loop_rest in Ec.
  rewrite !skip_lines_add in Ec.
  replace (2 + (1 + range n))%nat with (3 + range n)%nat in Ec by lia.
  subst f'.
  bind_raise. rewrite line_skip_lines.
  replace (3 + range n + 1)%nat with (4 + range n)%nat by lia.
  rewrite Hdigit, HM. bind_step. rewrite skip_lines_add.
  replace (3 + range n + 2)%nat with (5 + range n)%nat by lia.
  destruct (_parse_nvm_points_short (skip_lines (5 + range n) text) M i K)
    as (e & -> & _); [exact Hi | | | bind_step; eauto];
    rewrite line_skip_lines; assumption.
Qed.

(** C4. When one of the point lines the parser reads declares [K]
    measurements and carries fewer than [4 * K] tokens after the seven
    leading fields, [_parse_nvm_points] raises, with [IndexError] or
    [ValueError]; and a file whose point section holds such a line makes
    [parse_nvm_file] raise: the failure reaches the caller. In a file
    with [n] cameras the point count is line [4 + n] and point [i] is line
    [5 + n + i]. *)
Theorem truncated_measurements_raise :
  (forall input_file num_3D_points i K,
     Z.of_nat i < num_3D_points ->
     getitem (split (rstrip (line i input_file))) 6 ≫= int = Ok K ->
     Z.of_nat (length (skipn 7 (split (rstrip (line i input_file))))) < 4 * K ->
     exists e,
       _parse_nvm_points input_file num_3D_points = Raise e
       /\ (e = IndexError \/ e = ValueError))
  /\ (forall (fs : gmap string string) name raw n M i K,
        fs !! name = Some raw ->
        int (rstrip (line 2 (universal_newlines raw))) = Ok n ->
        isdigit (rstrip (line (4 + range n) (universal_newlines raw))) = true ->
        int (rstrip (line (4 + range n) (universal_newlines raw))) = Ok M ->
        Z.of_nat i < M ->
        getitem (split (rstrip (line (5 + range n + i)
                                     (universal_newlines raw)))) 6 ≫= int
        = Ok K ->
        Z.of_nat (length (skipn 7 (split (rstrip
                    (line (5 + range n + i) (universal_newlines raw))))))
        < 4 * K ->
        exists e, parse_nvm_file fs name = Raise e).
Proof.
  split.
  - apply _parse_nvm_points_short.
  - intros fs name raw n M i K Hfs Hn Hdigit HM Hi HK Hlen.
    rewrite (parse_nvm_file_open _ _ _ Hfs).
    eapply parse_nvm_text_truncated; eassumption.
Qed.
End NVM_measurements.

Lemma truncated_measurements_raise_witness :
  (exists e,
     NVMFileHandler._parse_nvm_points
       (unlines ["1 2 3 255 0 0 1"; "1 2 3 255 0 0 2 0 1 0.5 0.5 1 2"]) 2
     = Raise e
     /\ (e = IndexError \/ e = ValueError))
  /\ exists e,
       NVMFileHandler.parse_nvm_file
         {[ "a.nvm" := Samples.truncated_file ]} "a.nvm"
       = Raise e.
Proof.
  split.
  - apply (proj1 truncated_measurements_raise
             (unlines ["1 2 3 255 0 0 1"; "1 2 3 255 0 0 2 0 1 0.5 0.5 1 2"])
             2 1%nat 2); [lia | reflexivity | vm_compute; reflexivity].
  - apply (proj2 truncated_measurements_raise
             {[ "a.nvm" := Samples.truncated_file ]} "a.nvm"
             Samples.truncated_file 0 1 0%nat 2);
      [reflexivity | reflexivity | reflexivity | reflexivity | lia
      | reflexivity | vm_compute; reflexivity].
Defined.


(** ** Camera records *)

Lemma basename_from_no_sep p : forall cand,
  has_sep p = false -> basename_from cand p = cand.
Proof.
  induction p as [|c p IH]; intros cand; simpl; [reflexivity|].
  intros Hp. apply orb_false_iff in Hp as [-> Hp]. now apply IH.
Qed.

Lemma basename_from_sep p : forall cand,
  has_sep p = true -> has_sep (basename_from cand p) = false.
Proof.
  induction p as [|c p IH]; intros cand; simpl; [discriminate|].
  destruct (Ascii.eqb c "/") eqn:Ec; simpl.
  - intros _. destruct (has_sep p) eqn:Hp.
    + now apply IH.
    + now rewrite basename_from_no_sep.
  - apply IH.
Qed.

(** [basename] never keeps a slash. *)
Lemma basename_no_sep p : has_sep (basename p) = false.
Proof.
  unfold basename. destruct (has_sep p) eqn:Hp.
  - now apply basename_from_sep.
  - now rewrite basename_from_no_sep.
Qed.

Lemma split_lstrip s : split (lstrip s) = split s.
Proof.
  induction s as [|c s IH]; [reflexivity|]. simpl.
  destruct (isspace c) eqn:Ec; [exact IH|]. simpl. now rewrite Ec.
Qed.

Lemma lstrip_head s : 
  lstrip s = EmptyString \/ exists c s', lstrip s = String c s' /\ isspace c = false.
Proof.
  induction s as [|c s IH]; [now left|]. simpl.
  destruct (isspace c) eqn:Ec; [exact IH|]. right. eauto.
Qed.

(** A record with one more leading directory has the same tokens but the
    first, which gains a slash. *)
Lemma split_prepend_sep s tok toks :
  split s = tok :: toks ->
  split (String "/" (lstrip s)) = String "/" tok :: toks.
Proof.
  intros Hs. rewrite <- split_lstrip in Hs.
  destruct (lstrip_head s) as [He | (c & s' & He & Hc)]; rewrite He in *.
  - discriminate.
  - change (split (String "/" (String c s')))
      with (if isspace c then String "/" EmptyString :: split (String c s')
            else match split (String c s') with
                 | t :: ts => String "/" t :: ts
                 | [] => [String "/" EmptyString]
                 end).
    now rewrite Hc, Hs.
Qed.

Lemma String_neq c s : String c s <> s.
Proof.
  intros Heq. apply (f_equal String.length) in Heq. simpl in Heq. lia.
Qed.

Ltac bind_inv H :=
  match type of H with
  | (?m ≫= _) = Ok _ =>
      let E := fresh "E" in
      destruct m eqn:E; simpl in H; [|discriminate H]
  end.

Section NVM_cameras.
Context `{FL : PyFloat} `{!Numpy} `{!CameraLib}.
Import NVMFileHandler.

(** The translation [compute_camera_coordinate_system_translation_vector]
    returns is [-(R . c)]. *)
Lemma translation_vector_neg_dot c R :
  compute_camera_coordinate_system_translation_vector c R = vneg (dot R c).
Proof.
  destruct c as [[c0 c1] c2], R as [[[[r00 r01] r02] [[r10 r11] r12]] [[r20 r21] r22]].
  reflexivity.
Qed.

(** What a parsed camera holds. *)
Lemma _parse_cameras_body_inv i line cam :
  _parse_cameras_body i line = Ok cam ->
  (exists tok, getitem (split line) 0 = Ok tok /\ file_name cam = basename tok)
  /\ id cam = i
  /\ _translation_vec cam
     = compute_camera_coordinate_system_translation_vector
         (_center cam) (get_rotation_mat cam).
Proof.
  unfold _parse_cameras_body. intros Hb.
  destruct (getitem (split line) 0) as [tok|] eqn:E0; [|discriminate Hb].
  simpl in Hb. do 10 bind_inv Hb.
  destruct (assert _); [|discriminate Hb]. simpl in Hb.
  bind_inv Hb. injection Hb as <-. simpl. eauto.
Qed.

(** A camera depends on its line through the tokens only, and on the
    first token through its [basename]. *)
Lemma _parse_cameras_body_tokens i line line' tok tok' toks :
  split line = tok :: toks ->
  split line' = tok' :: toks ->
  basename tok' = basename tok ->
  _parse_cameras_body i line' = _parse_cameras_body i line.
Proof.
  intros Hl Hl' Hb. unfold _parse_cameras_body. rewrite Hl, Hl'.
  unfold getitem. simpl nth_error. simpl of_option.
  rewrite !fmap_Ok, Hb. reflexivity.
Qed.

Lemma _parse_cameras_loop_inv n : forall i input_file cams rest k cam,
  _parse_cameras_loop i n input_file = Ok (cams, rest) ->
  cams !! k = Some cam ->
  _parse_cameras_body (i + k) (line k input_file) = Ok cam.
Proof.
  induction n as [|n IH]; intros i f cams rest k cam; simpl.
  - intros [= <- _]. discriminate.
  - destruct (readline f) as [l f'] eqn:Er.
    destruct (_parse_cameras_body i l) as [c|] eqn:Eb; [|discriminate].
    simpl. destruct (_parse_cameras_loop (S i) n f') as [[cs r]|] eqn:El;
      [|discriminate].
    simpl. intros [= <- _]. destruct k as [|k]; simpl.
    + intros [= <-]. unfold line. simpl. rewrite Er. simpl.
      now rewrite Nat.add_0_r.
    + intros Hk. unfold line. simpl. rewrite Er. simpl.
      rewrite <- Nat.add_succ_comm. eapply IH; eassumption.
Qed.

Lemma parse_nvm_file_cameras (fs : gmap string string) name raw cameras points :
  fs !! name = Some raw ->
  parse_nvm_file fs name = Ok (cameras, points) ->
  exists num_cameras rest,
    _parse_cameras_loop 0 num_cameras (skip_lines 3 (universal_newlines raw))
    = Ok (cameras, rest).
Proof.
  intros Hfs Hp. rewrite (parse_nvm_file_open _ _ _ Hfs) in Hp.
  apply parse_nvm_text_cameras in Hp as (n & rest & Hc).
  unfold _parse_cameras in Hc. eauto.
Qed.

(** C10. When the file-name token of a camera record holds a directory
    part, the parsed camera keeps the [basename] only: its [file_name] has
    no slash and differs from the token, and a record with another
    file-name token parses to the same camera, so the token cannot be
    recovered from the camera. Record [k] of a file is its line [3 + k]. *)
Theorem camera_file_name_is_basename (fs : gmap string string) name raw
    cameras points k cam tok toks :
  fs !! name = Some raw ->
  parse_nvm_file fs name = Ok (cameras, points) ->
  cameras !! k = Some cam ->
  split (line (3 + k) (universal_newlines raw)) = tok :: toks ->
  has_sep tok = true ->
  file_name cam = basename tok
  /\ has_sep (file_name cam) = false
  /\ file_name cam <> tok
  /\ exists line' tok',
       split line' = tok' :: toks /\ tok' <> tok
       /\ _parse_cameras_body k line' = Ok cam.
Proof.
  intros Hfs Hp Hk Hl Hsep.
  destruct (parse_nvm_file_cameras _ _ _ _ _ Hfs Hp) as (n & rest & Hc).
  pose proof (_parse_cameras_loop_inv _ _ _ _ _ _ _ Hc Hk) as Hb.
  rewrite line_skip_lines in Hb. change (0 + k)%nat with k in Hb.
  set (l := line (3 + k) (universal_newlines raw)) in *.
  destruct (_parse_cameras_body_inv _ _ _ Hb) as ((t & Ht & Hn) & _).
  rewrite Hl in Ht. injection Ht as <-.
  assert (Hns : has_sep (file_name cam) = false)
    by (rewrite Hn; apply basename_no_sep).
  repeat split; [exact Hn | exact Hns | congruence |].
  exists (String "/" (lstrip l)), (String "/" tok).
  split; [now apply split_prepend_sep|].
  split; [apply String_neq|].
  rewrite <- Hb.
  apply (_parse_cameras_body_tokens k l _ tok
           (String "/" tok) toks Hl (split_prepend_sep _ _ _ Hl)).
  reflexivity.
Qed.

(** C2. Every camera [parse_nvm_file] returns stores the translation
    [-(R . C)] of its own rotation [R] and center [C], computed with the
    float operations in the order of
    [compute_camera_coordinate_system_translation_vector]. *)
Theorem camera_translation_consistent (fs : gmap string string) name
    cameras points cam :
  parse_nvm_file fs name = Ok (cameras, points) ->
  In cam cameras ->
  _translation_vec cam = vneg (dot (get_rotation_mat cam) (_center cam)).
Proof.
  intros Hp Hin. apply list_elem_of_In, list_elem_of_lookup in Hin as [k Hk].
  destruct (fs !! name) as [raw|] eqn:Hfs;
    [|unfold parse_nvm_file in Hp; rewrite Hfs in Hp; discriminate Hp].
  destruct (parse_nvm_file_cameras _ _ _ _ _ Hfs Hp) as (n & rest & Hc).
  pose proof (_parse_cameras_loop_inv _ _ _ _ _ _ _ Hc Hk) as Hb.
  destruct (_parse_cameras_body_inv _ _ _ Hb) as (_ & _ & Ht).
  now rewrite Ht, translation_vector_neg_dot.
Qed.
End NVM_cameras.

Lemma camera_file_name_is_basename_witness :
  NVMFileHandler.parse_nvm_file {[ "a.nvm" := Samples.camera_file ]} "a.nvm"
  = Ok ([Samples.camera], [])
  /\ NVMFileHandler.file_name Samples.camera = "img001.jpg"
  /\ (NVMFileHandler.file_name Samples.camera = basename "shots/a/img001.jpg"
      /\ has_sep (NVMFileHandler.file_name Samples.camera) = false
      /\ NVMFileHandler.file_name Samples.camera <> "shots/a/img001.jpg"
      /\ exists line' tok',
           split line' = tok' :: Samples.camera_fields
           /\ tok' <> "shots/a/img001.jpg"
           /\ NVMFileHandler._parse_cameras_body 0 line' = Ok Samples.camera).
Proof.
  split; [reflexivity|]. split; [reflexivity|].
  apply (camera_file_name_is_basename
           {[ "a.nvm" := Samples.camera_file ]} "a.nvm" Samples.camera_file
           [Samples.camera] [] 0%nat Samples.camera "shots/a/img001.jpg"
           Samples.camera_fields);
    reflexivity.
Defined.

Lemma camera_translation_consistent_witness :
  NVMFileHandler.parse_nvm_file {[ "a.nvm" := Samples.camera_file ]} "a.nvm"
  = Ok ([Samples.camera], [])
  /\ NVMFileHandler._center Samples.camera = (1, 2, 3)%Q
  /\ NVMFileHandler._translation_vec Samples.camera = (-1, 2, 3)%Q
  /\ NVMFileHandler._translation_vec Samples.camera
     = vneg (dot (NVMFileHandler.get_rotation_mat Samples.camera)
                 (NVMFileHandler._center Samples.camera)).
Proof.
  split; [reflexivity|]. split; [reflexivity|]. split; [reflexivity|].
  apply (camera_translation_consistent
           {[ "a.nvm" := Samples.camera_file ]} "a.nvm"
           [Samples.camera] [] Samples.camera);
    [reflexivity | left; reflexivity].
Defined.


(* ===================================================================== *)
(** * Properties of the Meshroom handler *)
(* ===================================================================== *)

Section Meshroom_properties.
Context `{FL : PyFloat} `{!MeshroomLib}.
Import MeshroomFileHandler.

Lemma py_in_JObj k (d : gmap string json) :
  py_in k (JObj d) = Ok (bool_decide (is_Some (d !! k))).
Proof. reflexivity. Qed.

Lemma bool_decide_lookup_None {V} (d : gmap string V) k :
  d !! k = None -> bool_decide (is_Some (d !! k)) = false.
Proof.
  intros Hk. apply bool_decide_eq_false. rewrite Hk. apply is_Some_None.
Qed.

Lemma bool_decide_lookup_Some {V} (d : gmap string V) k v :
  d !! k = Some v -> bool_decide (is_Some (d !! k)) = true.
Proof. intros Hk. apply bool_decide_eq_true. rewrite Hk. eauto. Qed.

(** C8. When the top-level object lacks [views], [intrinsics] or [poses],
    the camera parse reports one error and returns an empty camera list
    and an empty index map; it does not raise. *)
Theorem missing_camera_keys_reported (d : gmap string json)
    image_dp image_fp_type suppress_distortion_warnings op :
  d !! "views" = None \/ d !! "intrinsics" = None \/ d !! "poses" = None ->
  _parse_cameras_from_json_data (JObj d) image_dp image_fp_type
    suppress_distortion_warnings op
  = ((op ++ [(ERROR, FORMAT_ERROR_CAMERAS)])%list, Ok ([], ∅)).
Proof.
  intros Hd. unfold _parse_cameras_from_json_data.
  assert (Hv : and_then (py_in "views" (JObj d))
                 (and_then (py_in "intrinsics" (JObj d))
                           (py_in "poses" (JObj d))) = Ok false).
  { rewrite !py_in_JObj. unfold and_then.
    destruct Hd as [Hd | [Hd | Hd]];
      rewrite (bool_decide_lookup_None _ _ Hd);
      repeat match goal with
             | |- context [bool_decide ?P] => destruct (bool_decide P)
             end;
      reflexivity. }
  rewrite Hv. reflexivity.
Qed.

Lemma lookup_and_then_valid (d : gmap string json) v i p :
  d !! "views" = Some v -> d !! "intrinsics" = Some i -> d !! "poses" = Some p ->
  and_then (py_in "views" (JObj d))
    (and_then (py_in "intrinsics" (JObj d)) (py_in "poses" (JObj d)))
  = Ok true.
Proof.
  intros Hv Hi Hp. rewrite !py_in_JObj. unfold and_then.
  rewrite (bool_decide_lookup_Some _ _ _ Hv), (bool_decide_lookup_Some _ _ _ Hi),
    (bool_decide_lookup_Some _ _ _ Hp).
  reflexivity.
Qed.

(** The camera parse reads [views], [intrinsics] and [poses] only. *)
Lemma cameras_ignore_structure (d : gmap string json) s
    image_dp image_fp_type suppress_distortion_warnings :
  _parse_cameras_from_json_data (JObj (<["structure" := s]> d))
    image_dp image_fp_type suppress_distortion_warnings
  = _parse_cameras_from_json_data (JObj d)
      image_dp image_fp_type suppress_distortion_warnings.
Proof.
  unfold _parse_cameras_from_json_data, py_in, py_getitem.
  rewrite !lookup_insert_ne by discriminate. reflexivity.
Qed.

(** C5 (amended). Without the key [structure], [parse_sfm_file] returns
    the cameras of the camera parse with an empty point list whenever the
    camera parse does not raise, and reports nothing about the missing
    section: the reports are the two opening lines, those of the camera
    parse and the closing line. The cameras are those parsed from the
    same document with any [structure] added. *)
Theorem missing_structure_gives_no_points (fs : gmap string (option json))
    sfm_ifp (d : gmap string json) image_idp image_fp_type
    suppress_distortion_warnings op :
  fs !! sfm_ifp = Some (Some (JObj d)) ->
  d !! "structure" = None ->
  parse_sfm_file fs sfm_ifp image_idp image_fp_type
    suppress_distortion_warnings op
  = match _parse_cameras_from_json_data (JObj d) image_idp image_fp_type
            suppress_distortion_warnings
            (op ++ [(INFO, "parse_sfm_file: ...");
                    (INFO, ("sfm_ifp: " ++ sfm_ifp)%string)])%list with
    | (op', Ok (cams, _)) =>
        ((op' ++ [(INFO, "parse_sfm_file: Done")])%list, Ok (cams, []))
    | (op', Raise e) => (op', Raise e)
    end
  /\ forall s,
       _parse_cameras_from_json_data (JObj (<["structure" := s]> d))
         image_idp image_fp_type suppress_distortion_warnings
       = _parse_cameras_from_json_data (JObj d)
           image_idp image_fp_type suppress_distortion_warnings.
Proof.
  intros Hfs Hd. split; [|intros s; apply cameras_ignore_structure].
  unfold parse_sfm_file, json_load, log_report, lift.
  unfold mbind, Op_bind, op_bind. rewrite Hfs.
  rewrite <- app_assoc. simpl.
  destruct (_parse_cameras_from_json_data _ _ _ _ _) as [op' [[cams idx]|e]];
    [|reflexivity].
  simpl. rewrite (bool_decide_lookup_None _ _ Hd). reflexivity.
Qed.

(** ** Looking up an element by its id *)

Lemma _get_element_loop_none l id_string query_id :
  (forall ele, In ele l ->
     exists v, py_getitem ele id_string ≫= py_int = Ok v /\ v <> query_id) ->
  _get_element_loop l id_string query_id = Ok None.
Proof.
  induction l as [|ele l IH]; intros Hl; [reflexivity|]. simpl.
  destruct (Hl ele) as (v & -> & Hv); [now left|]. simpl.
  apply Z.eqb_neq in Hv. rewrite Hv. apply IH. intros e He. apply Hl. now right.
Qed.

Lemma _get_element_loop_first pre ele post id_string query_id :
  (forall e, In e pre ->
     exists v, py_getitem e id_string ≫= py_int = Ok v /\ v <> query_id) ->
  py_getitem ele id_string ≫= py_int = Ok query_id ->
  _get_element_loop (pre ++ ele :: post) id_string query_id = Ok (Some ele).
Proof.
  induction pre as [|e pre IH]; intros Hpre Hele; simpl.
  - rewrite Hele. simpl. now rewrite Z.eqb_refl.
  - destruct (Hpre e) as (v & -> & Hv); [now left|]. simpl.
    apply Z.eqb_neq in Hv. rewrite Hv. apply IH; [|exact Hele].
    intros e' He'. apply Hpre. now right.
Qed.

Lemma _parse_camera_no_view views_l intrinsics image_dp image_fp_type
    suppress_distortion_warnings extrinsic p op :
  py_getitem extrinsic "poseId" ≫= py_int = Ok p ->
  (forall view, In view views_l ->
     exists v, py_getitem view "poseId" ≫= py_int = Ok v /\ v <> p) ->
  _parse_camera (JArr views_l) intrinsics image_dp image_fp_type
    suppress_distortion_warnings extrinsic op
  = (op, Raise AssertionError).
Proof.
  intros Hp Hv. unfold _parse_camera, lift.
  unfold mbind at 1, Op_bind, op_bind. rewrite Hp.
  unfold mbind at 1, Op_bind, op_bind.
  unfold _get_element. simpl. now rewrite (_get_element_loop_none _ _ _ Hv).
Qed.

Lemma _parse_cameras_loop_no_view views_l intrinsics image_dp image_fp_type
    suppress_distortion_warnings extrinsic p extrinsics :
  In extrinsic extrinsics ->
  py_getitem extrinsic "poseId" ≫= py_int = Ok p ->
  (forall view, In view views_l ->
     exists v, py_getitem view "poseId" ≫= py_int = Ok v /\ v <> p) ->
  forall rec_index cams index_map op,
  exists op' e,
    _parse_cameras_loop (JArr views_l) intrinsics image_dp image_fp_type
      suppress_distortion_warnings rec_index extrinsics cams index_map op
    = (op', Raise e).
Proof.
  intros Hin Hp Hv.
  induction extrinsics as [|x xs IH]; intros rec_index cams index_map op;
    [destruct Hin|].
  simpl. unfold mbind, Op_bind, op_bind.
  destruct Hin as [-> | Hin].
  - rewrite (_parse_camera_no_view _ _ _ _ _ _ _ _ Hp Hv). eauto.
  - destruct (_parse_camera _ _ _ _ _ x op) as [op1 [[vi cam]|e]]; [|eauto].
    apply (IH Hin).
Qed.

(** C3 (amended). [_get_element] requires at least one match: when no
    element carries the queried id it raises [AssertionError], and a pose
    whose [poseId] no view carries makes the camera parse raise, so it is
    never skipped. When several elements carry the id, the first one in
    list order is returned and nothing is raised. *)
Theorem get_element_first_match :
  (forall l id_string query_id,
     (forall ele, In ele l ->
        exists v, py_getitem ele id_string ≫= py_int = Ok v /\ v <> query_id) ->
     _get_element (JArr l) id_string query_id = Raise AssertionError)
  /\ (forall pre ele post id_string query_id,
        (forall e, In e pre ->
           exists v, py_getitem e id_string ≫= py_int = Ok v /\ v <> query_id) ->
        py_getitem ele id_string ≫= py_int = Ok query_id ->
        _get_element (JArr (pre ++ ele :: post)) id_string query_id = Ok ele)
  /\ (forall (d : gmap string json) views_l intrinsics extrinsics extrinsic p
             image_dp image_fp_type suppress_distortion_warnings op,
        d !! "views" = Some (JArr views_l) ->
        d !! "intrinsics" = Some intrinsics ->
        d !! "poses" = Some (JArr extrinsics) ->
        In extrinsic extrinsics ->
        py_getitem extrinsic "poseId" ≫= py_int = Ok p ->
        (forall view, In view views_l ->
           exists v, py_getitem view "poseId" ≫= py_int = Ok v /\ v <> p) ->
        exists op' e,
          _parse_cameras_from_json_data (JObj d) image_dp image_fp_type
            suppress_distortion_warnings op
          = (op', Raise e)).
Proof.
  split; [|split].
  - intros l id_string query_id Hl. unfold _get_element. simpl.
    now rewrite (_get_element_loop_none _ _ _ Hl).
  - intros pre ele post id_string query_id Hpre Hele. unfold _get_element.
    simpl. now rewrite (_get_element_loop_first _ _ _ _ _ Hpre Hele).
  - intros d views_l intrinsics extrinsics extrinsic p image_dp image_fp_type
      suppress op Hv Hi Hps Hin Hp Hviews.
    unfold _parse_cameras_from_json_data.
    rewrite (lookup_and_then_valid _ _ _ _ Hv Hi Hps).
    unfold py_getitem at 1 2 3. rewrite Hv, Hi, Hps. simpl.
    apply (_parse_cameras_loop_no_view _ _ _ _ _ _ _ _ Hin Hp Hviews).
Qed.
End Meshroom_properties.


(** ** Resolving a node of the project graph *)

Lemma append_inj_l s a b : (s ++ a)%string = (s ++ b)%string -> a = b.
Proof.
  induction s as [|c s IH]; simpl; [trivial|]. intros [= Heq]. now apply IH.
Qed.

Section Meshroom_graph.
Context `{FL : PyFloat} `{!MeshroomLib}.
Import MeshroomFileHandler.

Lemma node_key_inj node_type i j :
  node_key node_type i = node_key node_type j -> i = j.
Proof.
  unfold node_key, str_int. intros Heq. apply append_inj_l in Heq.
  simpl in Heq. injection Heq as Heq. now apply (inj pretty).
Qed.

(** The keys of the instances 1 .. n are n different keys of the graph. *)
Lemma instances_bounded (g : gmap string json) node_type (n : nat) :
  (forall k, 1 <= k <= Z.of_nat n -> is_Some (g !! node_key node_type k)) ->
  (n <= size g)%nat.
Proof.
  intros Hk.
  set (l := (fun k : nat => node_key node_type (Z.of_nat k)) <$> seq 1 n).
  assert (Hnd : NoDup l).
  { apply NoDup_fmap_2; [|apply NoDup_seq].
    intros a b Hab. apply node_key_inj in Hab. lia. }
  assert (Hsub : (list_to_set l : gset string) ⊆ dom g).
  { intros key Hkey. apply elem_of_list_to_set in Hkey.
    apply list_elem_of_fmap in Hkey as (k & -> & Hin).
    apply elem_of_seq in Hin. apply elem_of_dom, Hk. lia. }
  apply subseteq_size in Hsub.
  rewrite size_list_to_set, size_dom in Hsub by exact Hnd.
  unfold l in Hsub. now rewrite length_fmap, length_seq in Hsub.
Qed.

(** The loop of [_get_latest_node] leaves by its condition before the
    fuel is spent: it stops at the first instance number whose successor
    is no key of the graph. *)
Lemma latest_loop_exits fuel : forall (g : gmap string json) node_type i,
  0 <= i ->
  (forall k, 1 <= k <= i -> is_Some (g !! node_key node_type k)) ->
  (size g < Z.to_nat i + fuel)%nat ->
  let r := _get_latest_node_loop fuel g node_type i in
  i <= r
  /\ (forall k, 1 <= k <= r -> is_Some (g !! node_key node_type k))
  /\ g !! node_key node_type (r + 1) = None.
Proof.
  induction fuel as [|fuel IH]; intros g node_type i Hi Hk Hsize.
  - exfalso. pose proof (instances_bounded g node_type (Z.to_nat i)) as Hb.
    rewrite Z2Nat.id in Hb by exact Hi. specialize (Hb Hk). lia.
  - simpl. destruct (bool_decide _) eqn:Ed.
    + apply bool_decide_eq_true in Ed.
      destruct (IH g node_type (i + 1)) as (H1 & H2 & H3); [lia| |lia|].
      * intros k Hr. destruct (Z.eq_dec k (i + 1)) as [-> | Hne];
          [exact Ed | apply Hk; lia].
      * split; [lia|]. split; assumption.
    + apply bool_decide_eq_false in Ed. split; [lia|]. split; [exact Hk|].
      destruct (g !! node_key node_type (i + 1)) eqn:El; [|reflexivity].
      exfalso. apply Ed. eauto.
Qed.

(** The loop finds the instance [k] when 1 .. k are keys and k + 1 is not. *)
Lemma latest_loop_result (g : gmap string json) node_type k :
  0 <= k ->
  (forall j, 1 <= j <= k -> is_Some (g !! node_key node_type j)) ->
  g !! node_key node_type (k + 1) = None ->
  _get_latest_node_loop (S (size g)) g node_type 0 = k.
Proof.
  intros Hk Hkeys Hnone.
  destruct (latest_loop_exits (S (size g)) g node_type 0) as (H1 & H2 & H3);
    [lia | intros j Hj; lia | simpl; lia |].
  set (r := _get_latest_node_loop (S (size g)) g node_type 0) in *.
  destruct (Z.lt_trichotomy r k) as [Hlt | [Heq | Hgt]]; [|exact Heq|].
  - exfalso. destruct (Hkeys (r + 1)) as [v Hv]; [lia|]. congruence.
  - exfalso. destruct (H2 (k + 1)) as [v Hv]; [lia|]. congruence.
Qed.

Lemma _get_latest_node_found (g : gmap string json) node_type k node :
  1 <= k ->
  (forall j, 1 <= j <= k -> is_Some (g !! node_key node_type j)) ->
  g !! node_key node_type (k + 1) = None ->
  g !! node_key node_type k = Some node ->
  _get_latest_node g node_type = Ok (Some node).
Proof.
  intros Hk Hkeys Hnone Hnode. unfold _get_latest_node.
  rewrite (latest_loop_result g node_type k) by (assumption || lia).
  destruct (k =? 0) eqn:E; [apply Z.eqb_eq in E; lia|].
  now rewrite Hnode.
Qed.

Lemma _get_latest_node_never_run (g : gmap string json) node_type :
  g !! node_key node_type 1 = None ->
  _get_latest_node g node_type = Ok None.
Proof.
  intros Hnone. unfold _get_latest_node.
  rewrite (latest_loop_result g node_type 0);
    [reflexivity | lia | intros j Hj; lia | exact Hnone].
Qed.

Lemma _get_data_fp_loop_cons (fs : gmap string (option json)) cache_dp
    nt uid fn fn_list :
  _get_data_fp_loop fs cache_dp (JStr nt) (JStr uid) (fn :: fn_list)
  = if isfile fs (path_join cache_dp [nt; uid; fn])
    then Ok (Some (path_join cache_dp [nt; uid; fn]))
    else _get_data_fp_loop fs cache_dp (JStr nt) (JStr uid) fn_list.
Proof. reflexivity. Qed.

(** The first candidate file name that is a file of the cache is taken. *)
Lemma _get_data_fp_loop_first (fs : gmap string (option json)) cache_dp
    nt uid pre fn post :
  (forall f, In f pre -> isfile fs (path_join cache_dp [nt; uid; f]) = false) ->
  isfile fs (path_join cache_dp [nt; uid; fn]) = true ->
  _get_data_fp_loop fs cache_dp (JStr nt) (JStr uid) (pre ++ fn :: post)
  = Ok (Some (path_join cache_dp [nt; uid; fn])).
Proof.
  intros Hpre Hfn. induction pre as [|f pre IH].
  - change ([] ++ fn :: post)%list with (fn :: post).
    rewrite _get_data_fp_loop_cons. now rewrite Hfn.
  - change ((f :: pre) ++ fn :: post)%list with (f :: (pre ++ fn :: post))%list.
    rewrite _get_data_fp_loop_cons.
    rewrite (Hpre f) by now left. apply IH. intros f' Hf'. apply Hpre. now right.
Qed.

Lemma _get_data_fp_loop_none (fs : gmap string (option json)) cache_dp
    nt uid fn_list :
  (forall f, In f fn_list ->
     isfile fs (path_join cache_dp [nt; uid; f]) = false) ->
  _get_data_fp_loop fs cache_dp (JStr nt) (JStr uid) fn_list = Ok None.
Proof.
  induction fn_list as [|f fn_list IH]; intros Hnone; [reflexivity|].
  rewrite _get_data_fp_loop_cons, (Hnone f) by now left.
  apply IH. intros f' Hf'. apply Hnone. now right.
Qed.

(** A node with a [nodeType] and a first uid is not [None]: the loop over
    the file names runs with these two strings. *)
Lemma _get_data_fp_of_node_fields (fs : gmap string (option json)) cache_dp
    node nt uid fn_or_fn_list :
  py_getitem node "nodeType" = Ok (JStr nt) ->
  (uids ← py_getitem node "uids"; py_getitem uids "0") = Ok (JStr uid) ->
  _get_data_fp_of_node fs cache_dp (Some node) fn_or_fn_list
  = _get_data_fp_loop fs cache_dp (JStr nt) (JStr uid)
      match fn_or_fn_list with
      | inl fn => [fn]
      | inr fn_list => fn_list
      end.
Proof.
  intros Hnt Huid. unfold _get_data_fp_of_node.
  destruct node as [| | | | | |d]; try discriminate Hnt.
  cbn [mbind result_bind] in Huid |- *. rewrite Hnt. cbn [Py.bind].
  rewrite Huid. reflexivity.
Qed.

(** C9. For a graph and a node type, [_get_node] with the number -1 takes
    the instances 1, 2, 3, ... while their keys are in the graph and
    returns the node of the last one; [_get_node_data_fp] then returns the
    cache file of that node: for a single file name, the path
    [cache/nodeType/uid/name] when it is a file and [None] otherwise; for a
    list of names, the path of the first name that is a file, and [None]
    when none is. Without the key of instance 1 the result is [None] and
    nothing is reported. A number other than -1 whose key is missing is
    reported as an error and raises [AssertionError]. *)
Theorem latest_node_resolution (fs : gmap string (option json)) cache_dp
    (g : gmap string json) node_type :
  (forall k node,
     1 <= k ->
     (forall j, 1 <= j <= k -> is_Some (g !! node_key node_type j)) ->
     g !! node_key node_type (k + 1) = None ->
     g !! node_key node_type k = Some node ->
     forall op,
       _get_node g node_type (-1) op = (op, Ok (Some node))
       /\ forall nt uid,
            py_getitem node "nodeType" = Ok (JStr nt) ->
            (uids ← py_getitem node "uids"; py_getitem uids "0")
            = Ok (JStr uid) ->
            (forall fn,
               _get_node_data_fp fs cache_dp g node_type (-1) (inl fn) op
               = (op,
                  Ok (if isfile fs (path_join cache_dp [nt; uid; fn])
                      then Some (path_join cache_dp [nt; uid; fn])
                      else None)))
            /\ (forall pre fn post,
                  (forall f, In f pre ->
                     isfile fs (path_join cache_dp [nt; uid; f]) = false) ->
                  isfile fs (path_join cache_dp [nt; uid; fn]) = true ->
                  _get_node_data_fp fs cache_dp g node_type (-1)
                    (inr (pre ++ fn :: post)%list) op
                  = (op, Ok (Some (path_join cache_dp [nt; uid; fn]))))
            /\ (forall fn_list,
                  (forall f, In f fn_list ->
                     isfile fs (path_join cache_dp [nt; uid; f]) = false) ->
                  _get_node_data_fp fs cache_dp g node_type (-1)
                    (inr fn_list) op
                  = (op, Ok None)))
  /\ (g !! node_key node_type 1 = None ->
      forall fn_or_fn_list op,
        _get_node g node_type (-1) op = (op, Ok None)
        /\ _get_node_data_fp fs cache_dp g node_type (-1) fn_or_fn_list op
           = (op, Ok None))
  /\ (forall node_number,
        node_number <> -1 ->
        g !! node_key node_type node_number = None ->
        forall fn_or_fn_list op,
          _get_node g node_type node_number op
          = ((op ++ [(ERROR, invalid_node_message node_type node_number)])%list,
             Raise AssertionError)
          /\ _get_node_data_fp fs cache_dp g node_type node_number
               fn_or_fn_list op
             = ((op ++ [(ERROR, invalid_node_message node_type node_number)])%list,
                Raise AssertionError)).
Proof.
  split; [|split].
  - intros k node Hk Hkeys Hnone Hnode op.
    assert (Hget : _get_node g node_type (-1) op = (op, Ok (Some node))).
    { unfold _get_node, lift. simpl.
      now rewrite (_get_latest_node_found g node_type k node). }
    split; [exact Hget|].
    intros nt uid Hnt Huid.
    assert (Hfp : forall fns,
              _get_node_data_fp fs cache_dp g node_type (-1) fns op
              = (op,
                 _get_data_fp_loop fs cache_dp (JStr nt) (JStr uid)
                   match fns with
                   | inl fn => [fn]
                   | inr fn_list => fn_list
                   end)).
    { intros fns. unfold _get_node_data_fp.
      unfold mbind at 1, Op_bind, op_bind. rewrite Hget. unfold lift.
      now rewrite (_get_data_fp_of_node_fields fs cache_dp node nt uid fns). }
    split; [|split].
    + intros fn. rewrite Hfp, _get_data_fp_loop_cons.
      now destruct (isfile fs (path_join cache_dp [nt; uid; fn])).
    + intros pre fn post Hpre Hfn. rewrite Hfp.
      now rewrite (_get_data_fp_loop_first fs cache_dp nt uid pre fn post).
    + intros fn_list Hall. rewrite Hfp.
      now rewrite (_get_data_fp_loop_none fs cache_dp nt uid fn_list).
  - intros Hnone fns op.
    assert (Hget : _get_node g node_type (-1) op = (op, Ok None)).
    { unfold _get_node, lift. simpl.
      now rewrite (_get_latest_node_never_run g node_type). }
    split; [exact Hget|].
    unfold _get_node_data_fp. unfold mbind at 1, Op_bind, op_bind.
    rewrite Hget. reflexivity.
  - intros n Hn Hnone fns op.
    assert (Hget : _get_node g node_type n op
                   = ((op ++ [(ERROR, invalid_node_message node_type n)])%list,
                      Raise AssertionError)).
    { unfold _get_node. apply Z.eqb_neq in Hn. rewrite Hn.
      rewrite (bool_decide_lookup_None _ _ Hnone). reflexivity. }
    split; [exact Hget|].
    unfold _get_node_data_fp. unfold mbind at 1, Op_bind, op_bind.
    rewrite Hget. reflexivity.
Qed.
End Meshroom_graph.


(* ===================================================================== *)
(** * The properties on the sample inputs *)
(* ===================================================================== *)

Lemma missing_camera_keys_reported_witness :
  (Samples.sfm_views_only !! "views" = None
   \/ Samples.sfm_views_only !! "intrinsics" = None
   \/ Samples.sfm_views_only !! "poses" = None)
  /\ MeshroomFileHandler._parse_cameras_from_json_data
       (JObj Samples.sfm_views_only) None "NAME" false []
     = ([(ERROR, MeshroomFileHandler.FORMAT_ERROR_CAMERAS)], Ok ([], ∅)).
Proof.
  split; [right; left; reflexivity|].
  apply (missing_camera_keys_reported Samples.sfm_views_only None "NAME" false []).
  right; left; reflexivity.
Defined.

Lemma missing_structure_gives_no_points_witness :
  Samples.sfm_two_views !! "structure" = None
  /\ MeshroomFileHandler.parse_sfm_file
       {[ "p.sfm" := Some (JObj Samples.sfm_two_views) ]} "p.sfm" None "NAME"
       false []
     = ([(INFO, "parse_sfm_file: ..."); (INFO, "sfm_ifp: p.sfm");
         (INFO, "parse_sfm_file: Done")],
        Ok ([Samples.first_view_camera], [])).
Proof.
  split; [reflexivity|].
  destruct (missing_structure_gives_no_points
              {[ "p.sfm" := Some (JObj Samples.sfm_two_views) ]} "p.sfm"
              Samples.sfm_two_views None "NAME" false [])
    as [Hparse _]; [reflexivity | reflexivity |].
  rewrite Hparse. reflexivity.
Defined.

(** Counterexample to C5 as the specification states it: a document
    without [structure] is parsed with an empty point list, and the reports
    are the three [INFO] lines; no warning is among them. *)
Lemma missing_structure_not_reported :
  Samples.sfm_empty !! "structure" = None
  /\ MeshroomFileHandler.parse_sfm_file
       {[ "p.sfm" := Some (JObj Samples.sfm_empty) ]} "p.sfm" None "NAME"
       false []
     = ([(INFO, "parse_sfm_file: ..."); (INFO, "sfm_ifp: p.sfm");
         (INFO, "parse_sfm_file: Done")],
        Ok ([], []))
  /\ ~ reported WARNING
       [(INFO, "parse_sfm_file: ..."); (INFO, "sfm_ifp: p.sfm");
        (INFO, "parse_sfm_file: Done")].
Proof.
  split; [reflexivity|]. split; [reflexivity|].
  intros [msg [H | [H | [H | []]]]]; discriminate H.
Qed.

Lemma get_element_first_match_witness :
  MeshroomFileHandler._get_element
    (JArr [Samples.view "/a/x.jpg"; Samples.view "/b/y.jpg"]) "poseId" 8
  = Raise AssertionError
  /\ MeshroomFileHandler._get_element
       (JArr ([] ++ Samples.view "/a/x.jpg" :: [Samples.view "/b/y.jpg"]))
       "poseId" 7
     = Ok (Samples.view "/a/x.jpg").
Proof.
  split.
  - apply (proj1 get_element_first_match).
    intros ele [<- | [<- | []]]; exists 7; split; (reflexivity || lia).
  - apply (proj1 (proj2 get_element_first_match)).
    + intros e [].
    + reflexivity.
Defined.

(** Counterexample to C3 as the specification states it: two views carry
    the pose id 7, the lookup returns the first of them and the camera
    parse succeeds with that view. *)
Lemma duplicate_pose_id_takes_first_view :
  (py_getitem (Samples.view "/a/x.jpg") "poseId" ≫= py_int) = Ok 7
  /\ (py_getitem (Samples.view "/b/y.jpg") "poseId" ≫= py_int) = Ok 7
  /\ MeshroomFileHandler._get_element
       (JArr [Samples.view "/a/x.jpg"; Samples.view "/b/y.jpg"]) "poseId" 7
     = Ok (Samples.view "/a/x.jpg")
  /\ MeshroomFileHandler._parse_cameras_from_json_data
       (JObj Samples.sfm_two_views) None "NAME" false []
     = ([], Ok ([Samples.first_view_camera], {[ 7 := 0%nat ]}))
  /\ MeshroomFileHandler._absolute_fp Samples.first_view_camera = "/a/x.jpg".
Proof. repeat split. Qed.

Lemma latest_node_resolution_witness :
  MeshroomFileHandler._get_node_data_fp Samples.cache "/p/MeshroomCache"
    Samples.graph "StructureFromMotion" (-1) (inl "cameras.sfm") []
  = ([], Ok (Some "/p/MeshroomCache/StructureFromMotion/bb/cameras.sfm"))
  /\ MeshroomFileHandler._get_node_data_fp Samples.cache "/p/MeshroomCache"
       Samples.graph "StructureFromMotion" (-1)
       (inr ["sfm.sfm"; "cameras.sfm"]) []
     = ([], Ok (Some "/p/MeshroomCache/StructureFromMotion/bb/cameras.sfm"))
  /\ MeshroomFileHandler._get_node_data_fp Samples.cache "/p/MeshroomCache"
       Samples.graph "Meshing" (-1) (inl "mesh.obj") []
     = ([], Ok None)
  /\ MeshroomFileHandler._get_node Samples.graph "StructureFromMotion" 3 []
     = ([(ERROR,
          "Invalid combination of node type (i.e. StructureFromMotion) and node number (i.e. 3) provided")],
        Raise AssertionError).
Proof.
  destruct (latest_node_resolution Samples.cache "/p/MeshroomCache"
              Samples.graph "StructureFromMotion") as (Hlatest & _ & Hexplicit).
  destruct (latest_node_resolution Samples.cache "/p/MeshroomCache"
              Samples.graph "Meshing") as (_ & Hnone & _).
  assert (Hkeys : forall j, 1 <= j <= 2 ->
            is_Some (Samples.graph
                       !! MeshroomFileHandler.node_key "StructureFromMotion" j)).
  { intros j Hj. assert (Hc : j = 1 \/ j = 2) by lia.
    destruct Hc as [-> | ->]; eexists; reflexivity. }
  assert (Hone : 1 <= 2) by lia.
  destruct (Hlatest 2 (Samples.node "StructureFromMotion" "bb") Hone Hkeys
              eq_refl eq_refl []) as [_ Hfp].
  destruct (Hfp "StructureFromMotion" "bb" eq_refl eq_refl)
    as (Hstr & Hlist & _).
  split; [|split; [|split]].
  - exact (Hstr "cameras.sfm").
  - apply (Hlist ["sfm.sfm"] "cameras.sfm" []); [|reflexivity].
    intros f [<- | []]. reflexivity.
  - assert (Hkey : Samples.graph !! MeshroomFileHandler.node_key "Meshing" 1 = None)
      by reflexivity.
    destruct (Hnone Hkey (inl "mesh.obj") []) as [_ Hmesh]. exact Hmesh.
  - assert (Hnum : 3 <> -1) by lia.
    assert (Hkey : Samples.graph
                     !! MeshroomFileHandler.node_key "StructureFromMotion" 3
                   = None) by reflexivity.
    destruct (Hexplicit 3 Hnum Hkey (inl "cameras.sfm") []) as [Hnode' _].
    exact Hnode'.
Defined.

(** C1. The writer prints a measurement as the text of the named tuple; on
    reading the file back the first token of that text is no [int], and the
    parser raises [ValueError] instead of returning the point. *)
Theorem written_measurements_do_not_parse :
  line 5 (String.concat ""
            (NVMFileHandler.nvm_content [] [Samples.measured_point]))
  = (Samples.measured_point_line ++ linesep)%string
  /\ int "Measurement(image_index=0," = Raise ValueError
  /\ NVMFileHandler.parse_nvm_file
       (NVMFileHandler.write_nvm_file ∅ "out.nvm" [] [Samples.measured_point])
       "out.nvm"
     = Raise ValueError.
Proof. repeat split. Qed.

(** A camera and a point without measurements are read back as written. *)
Example round_trip_without_measurements :
  NVMFileHandler.parse_nvm_file
    (NVMFileHandler.write_nvm_file ∅ "out.nvm"
       [Samples.upright_camera] [Samples.bare_point])
    "out.nvm"
  = Ok ([Samples.upright_camera], [Samples.bare_point]).
Proof. reflexivity. Qed.

(* ===================================================================== *)
(** * Further properties of the NVM parser *)
(* ===================================================================== *)

Lemma mapM_length {A B} (f : A -> result B) l : forall l',
  mapM f l = Ok l' -> length l' = length l.
Proof.
  induction l as [|a l IH]; intros l'; simpl.
  - now intros [= <-].
  - destruct (f a); [|discriminate]. bind_step.
    destruct (mapM f l) as [bs|]; [|discriminate]. bind_step.
    intros [= <-]. simpl. now rewrite (IH bs).
Qed.

Lemma nth_error_lookup {A} (l : list A) : forall i, nth_error l i = l !! i.
Proof.
  induction l as [|a l IH]; intros [|i]; simpl; try reflexivity. apply IH.
Qed.

Section NVM_accepted.
Context `{FL : PyFloat} `{!Numpy} `{!CameraLib}.
Import NVMFileHandler.

Lemma _parse_cameras_loop_length n : forall i f cameras rest,
  _parse_cameras_loop i n f = Ok (cameras, rest) -> length cameras = n.
Proof.
  induction n as [|n IH]; intros i f cams rest; simpl.
  - now intros [= <- _].
  - destruct (readline f) as [l f'].
    destruct (_parse_cameras_body i l); [|discriminate]. bind_step.
    destruct (_parse_cameras_loop (S i) n f') as [[cs r]|] eqn:E;
      [|discriminate].
    bind_step. intros [= <- _]. simpl. f_equal. eapply IH, E.
Qed.

Lemma _parse_nvm_points_loop_inv n : forall idx f points rest k p,
  _parse_nvm_points_loop idx n f = Ok (points, rest) ->
  points !! k = Some p ->
  _parse_nvm_points_body (idx + k) (line k f) = Ok p.
Proof.
  induction n as [|n IH]; intros idx f pts rest k p; simpl.
  - intros [= <- _]. discriminate.
  - destruct (readline f) as [l f'] eqn:Er.
    destruct (_parse_nvm_points_body idx l) as [q|] eqn:Eb; [|discriminate].
    bind_step.
    destruct (_parse_nvm_points_loop (S idx) n f') as [[ps r]|] eqn:El;
      [|discriminate].
    bind_step. intros [= <- _]. destruct k as [|k]; simpl.
    + intros [= <-]. unfold line. simpl. rewrite Er. simpl.
      now rewrite Nat.add_0_r.
    + intros Hk. unfold line. simpl. rewrite Er. simpl.
      rewrite <- Nat.add_succ_comm. eapply IH; eassumption.
Qed.

(** What [parse_nvm_text] has read when it returns: the header on lines 0
    and 1, the camera count [n] on line 2, the cameras on the lines from 3
    on, a blank line, and on the next line either the point count with the
    points after it, or anything [isdigit] rejects. *)
Lemma parse_nvm_text_inv text cameras points :
  parse_nvm_text text = Ok (cameras, points) ->
  rstrip (line 0 text) = "NVM_V3"
  /\ rstrip (line 1 text) = ""
  /\ exists n,
       int (rstrip (line 2 text)) = Ok n
       /\ _parse_cameras_loop 0 (range n) (skip_lines 3 text)
          = Ok (cameras, skip_lines (3 + range n) text)
       /\ rstrip (line (3 + range n) text) = ""
       /\ if isdigit (rstrip (line (4 + range n) text))
          then exists m rest,
                 int (rstrip (line (4 + range n) text)) = Ok m
                 /\ _parse_nvm_points_loop 0 (range m)
                      (skip_lines (5 + range n) text)
                    = Ok (points, rest)
          else points = [].
Proof.
  rewrite parse_nvm_text_lines, parse_nvm_model_lines.
  destruct (String.eqb (rstrip (line 0 text)) "NVM_V3") eqn:E0;
    [|discriminate].
  destruct (String.eqb (rstrip (line 1 text)) "") eqn:E1; [|discriminate].
  apply String.eqb_eq in E0, E1. unfold assert. bind_step.
  rewrite line_skip_lines. change (2 + 0)%nat with 2%nat.
  destruct (int (rstrip (line 2 text))) as [n|] eqn:En; [|discriminate].
  bind_step. rewrite skip_lines_add. change (2 + 1)%nat with 3%nat.
  destruct (_parse_cameras (skip_lines 3 text) n) as [[cams f']|] eqn:Ec;
    [|discriminate].
  bind_step. unfold _parse_cameras in Ec.
  pose proof (_parse_cameras_loop_rest _ _ _ _ _ Ec) as Hf.
  rewrite skip_lines_add in Hf. subst f'.
  rewrite !line_skip_lines, skip_lines_add.
  replace (3 + range n + 0)%nat with (3 + range n)%nat by lia.
  replace (3 + range n + 1)%nat with (4 + range n)%nat by lia.
  replace (3 + range n + 2)%nat with (5 + range n)%nat by lia.
  destruct (String.eqb (rstrip (line (3 + range n) text)) "") eqn:E3;
    [|discriminate].
  apply String.eqb_eq in E3. bind_step.
  destruct (isdigit (rstrip (line (4 + range n) text))) eqn:Ed.
  - destruct (int (rstrip (line (4 + range n) text))) as [m|] eqn:Em;
      [|discriminate].
    bind_step. unfold _parse_nvm_points.
    destruct (_parse_nvm_points_loop 0 (range m) _) as [[pts r]|] eqn:Ep;
      [|discriminate].
    bind_step. intros [= <- <-].
    repeat split; try assumption. exists n. rewrite Ed. eauto 10.
  - intros [= <- <-].
    repeat split; try assumption. exists n. rewrite Ed. eauto 10.
Qed.

Lemma parse_nvm_file_inv (fs : gmap string string) name r :
  parse_nvm_file fs name = Ok r ->
  exists raw, fs !! name = Some raw /\ parse_nvm_text (universal_newlines raw) = Ok r.
Proof.
  unfold parse_nvm_file. destruct (fs !! name) as [raw|]; [|discriminate].
  bind_step. eauto.
Qed.

(** X1. A file that [parse_nvm_file] accepts has its camera count [n] on
    line 2 and a blank line after the [n] camera records; the parser
    returns as many cameras as the count says (none for a count below 1),
    and as many points as the point count says, or none when the line after
    the blank line is no digit string. *)
Theorem accepted_nvm_file_counts (fs : gmap string string) name raw
    cameras points :
  fs !! name = Some raw ->
  parse_nvm_file fs name = Ok (cameras, points) ->
  exists n,
    int (rstrip (line 2 (universal_newlines raw))) = Ok n
    /\ length cameras = Z.to_nat n
    /\ rstrip (line (3 + Z.to_nat n) (universal_newlines raw)) = ""
    /\ (isdigit (rstrip (line (4 + Z.to_nat n) (universal_newlines raw)))
        = false -> points = [])
    /\ (isdigit (rstrip (line (4 + Z.to_nat n) (universal_newlines raw)))
        = true ->
        exists m,
          int (rstrip (line (4 + Z.to_nat n) (universal_newlines raw))) = Ok m
          /\ length points = Z.to_nat m).
Proof.
  intros Hfs Hp. rewrite (parse_nvm_file_open _ _ _ Hfs) in Hp.
  apply parse_nvm_text_inv in Hp as (_ & _ & n & Hn & Hc & Hsep & Hpts).
  exists n. unfold range in *. split; [exact Hn|].
  split; [eapply _parse_cameras_loop_length, Hc|]. split; [exact Hsep|].
  destruct (isdigit _).
  - split; [discriminate|]. intros _.
    destruct Hpts as (m & rest & Hm & Hl). exists m. split; [exact Hm|].
    eapply _parse_nvm_points_loop_length, Hl.
  - split; [intros _; exact Hpts | discriminate].
Qed.
End NVM_accepted.

Lemma accepted_nvm_file_counts_witness :
  NVMFileHandler.parse_nvm_file {[ "a.nvm" := Samples.negative_count_file ]}
    "a.nvm"
  = Ok ([], [Samples.bare_point])
  /\ exists n,
       int (rstrip (line 2 Samples.negative_count_file)) = Ok n
       /\ length (@nil NVMFileHandler.Camera) = Z.to_nat n
       /\ n = -2.
Proof.
  split; [reflexivity|].
  destruct (accepted_nvm_file_counts
              {[ "a.nvm" := Samples.negative_count_file ]} "a.nvm"
              Samples.negative_count_file [] [Samples.bare_point])
    as (n & Hn & Hlen & _); [reflexivity | reflexivity |].
  exists n. split; [exact Hn|]. split; [exact Hlen|].
  change (int (rstrip (line 2 (universal_newlines Samples.negative_count_file))))
    with (@Ok Z (-2)) in Hn.
  congruence.
Defined.

Section NVM_records.
Context `{FL : PyFloat} `{!Numpy} `{!CameraLib}.
Import NVMFileHandler.

(** The fields of a camera in terms of the values of its record. *)
Lemma _parse_cameras_body_fields i line cam :
  _parse_cameras_body i line = Ok cam ->
  exists focal_length w x y z cx cy cz radial zero_value,
    getitem (split line) 1 ≫= float_of_string = Ok focal_length
    /\ getitem (split line) 2 ≫= float_of_string = Ok w
    /\ getitem (split line) 3 ≫= float_of_string = Ok x
    /\ getitem (split line) 4 ≫= float_of_string = Ok y
    /\ getitem (split line) 5 ≫= float_of_string = Ok z
    /\ getitem (split line) 6 ≫= float_of_string = Ok cx
    /\ getitem (split line) 7 ≫= float_of_string = Ok cy
    /\ getitem (split line) 8 ≫= float_of_string = Ok cz
    /\ getitem (split line) 9 ≫= float_of_string = Ok radial
    /\ getitem (split line) 10 ≫= float_of_string = Ok zero_value
    /\ feqb zero_value f0 = true
    /\ calibration_mat cam
       = ((focal_length, f0, f0), (f0, focal_length, f0), (f0, f0, f1))
    /\ _rotation_mat cam = quaternion_to_rotation_mat (w, x, y, z)
    /\ _center cam = (cx, cy, cz)
    /\ radial_distortion cam = radial_distortion Camera_new
    /\ width cam = None /\ height cam = None.
Proof.
  unfold _parse_cameras_body. intros Hb.
  destruct (getitem (split line) 0) as [tok|]; [|discriminate Hb].
  cbn [fmap result_fmap Py.bind mbind result_bind] in Hb.
  destruct (getitem (split line) 1 ≫= float_of_string) as [fl|] eqn:E1;
    [|discriminate Hb].
  destruct (getitem (split line) 2 ≫= float_of_string) as [w|] eqn:E2;
    [|discriminate Hb].
  destruct (getitem (split line) 3 ≫= float_of_string) as [x|] eqn:E3;
    [|discriminate Hb].
  destruct (getitem (split line) 4 ≫= float_of_string) as [y|] eqn:E4;
    [|discriminate Hb].
  destruct (getitem (split line) 5 ≫= float_of_string) as [z|] eqn:E5;
    [|discriminate Hb].
  destruct (getitem (split line) 6 ≫= float_of_string) as [cx|] eqn:E6;
    [|discriminate Hb].
  destruct (getitem (split line) 7 ≫= float_of_string) as [cy|] eqn:E7;
    [|discriminate Hb].
  destruct (getitem (split line) 8 ≫= float_of_string) as [cz|] eqn:E8;
    [|discriminate Hb].
  destruct (getitem (split line) 9 ≫= float_of_string) as [rd|] eqn:E9;
    [|discriminate Hb].
  destruct (getitem (split line) 10 ≫= float_of_string) as [zv|] eqn:E10;
    [|discriminate Hb].
  cbn [mbind result_bind Py.bind] in Hb. unfold assert in Hb.
  destruct (feqb zv f0) eqn:Ez; [|discriminate Hb].
  cbn [mbind result_bind Py.bind] in Hb.
  destruct (linalg_inv _); [|discriminate Hb].
  cbn [mbind result_bind Py.bind mret result_ret] in Hb.
  injection Hb as <-.
  exists fl, w, x, y, z, cx, cy, cz, rd, zv.
  repeat split; first [assumption | reflexivity].
Qed.

Lemma bad_terminator_refused i line cam :
  bad_terminator (split line) -> _parse_cameras_body i line <> Ok cam.
Proof.
  intros Hbad Hb.
  destruct (_parse_cameras_body_fields _ _ _ Hb)
    as (fl & w & x & y & z & cx & cy & cz & rd & zv & _ & _ & _ & _ & _ & _
        & _ & _ & _ & H10 & Hz & _).
  unfold getitem in H10.
  destruct (nth_error (split line) 10) as [t|] eqn:Et; [|discriminate H10].
  cbn [of_option mbind result_bind Py.bind] in H10. unfold float_of_string in H10.
  destruct (parse_float t) as [z'|] eqn:Ep; [|discriminate H10].
  injection H10 as ->.
  destruct Hbad as [Hlen | [(t' & Ht' & Hp') | (t' & z' & Ht' & Hp' & Hz')]].
  - assert (Hlt : (10 < length (split line))%nat)
      by (apply nth_error_Some; congruence).
    lia.
  - rewrite <- nth_error_lookup in Ht'. congruence.
  - rewrite <- nth_error_lookup in Ht'. congruence.
Qed.

(** X2. Camera [k] of an accepted file comes from line [3 + k]: its [id]
    is [k], the eleventh value of the record is a float equal to zero, the
    calibration matrix is [diag(f, f, 1)] for the focal length [f] of the
    record, the center is the one of the record, the tenth value (the
    radial distortion) must be a float but is not stored, and width and
    height are left unset. *)
Theorem accepted_camera_record (fs : gmap string string) name raw
    cameras points k cam :
  fs !! name = Some raw ->
  parse_nvm_file fs name = Ok (cameras, points) ->
  cameras !! k = Some cam ->
  let values := split (line (3 + k) (universal_newlines raw)) in
  id cam = k
  /\ (exists zero_value,
        getitem values 10 ≫= float_of_string = Ok zero_value
        /\ feqb zero_value f0 = true)
  /\ (exists focal_length,
        getitem values 1 ≫= float_of_string = Ok focal_length
        /\ calibration_mat cam
           = ((focal_length, f0, f0), (f0, focal_length, f0), (f0, f0, f1)))
  /\ (exists cx cy cz,
        getitem values 6 ≫= float_of_string = Ok cx
        /\ getitem values 7 ≫= float_of_string = Ok cy
        /\ getitem values 8 ≫= float_of_string = Ok cz
        /\ _center cam = (cx, cy, cz))
  /\ (exists radial, getitem values 9 ≫= float_of_string = Ok radial)
  /\ radial_distortion cam = radial_distortion Camera_new
  /\ width cam = None /\ height cam = None.
Proof.
  intros Hfs Hp Hk values.
  destruct (parse_nvm_file_cameras _ _ _ _ _ Hfs Hp) as (n & rest & Hc).
  pose proof (_parse_cameras_loop_inv _ _ _ _ _ _ _ Hc Hk) as Hb.
  rewrite line_skip_lines in Hb. change (0 + k)%nat with k in Hb.
  fold values in Hb.
  destruct (_parse_cameras_body_inv _ _ _ Hb) as (_ & Hid & _).
  destruct (_parse_cameras_body_fields _ _ _ Hb)
    as (fl & w & x & y & z & cx & cy & cz & rd & zv & H1 & _ & _ & _ & _ & H6
        & H7 & H8 & H9 & H10 & Hz & Hcal & _ & Hcen & Hrd & Hw & Hh).
  repeat split; eauto 10.
Qed.

(** X3. A camera record whose eleventh value is missing, is no float or is
    a float other than zero makes [_parse_cameras] raise when it is among
    the records read, and makes [parse_nvm_file] raise on a file that holds
    it among the records its camera count announces. *)
Theorem bad_camera_record_raises :
  (forall input_file num_cameras i,
     Z.of_nat i < num_cameras ->
     bad_terminator (split (line i input_file)) ->
     exists e, _parse_cameras input_file num_cameras = Raise e)
  /\ (forall (fs : gmap string string) name raw n i,
        fs !! name = Some raw ->
        int (rstrip (line 2 (universal_newlines raw))) = Ok n ->
        Z.of_nat i < n ->
        bad_terminator (split (line (3 + i) (universal_newlines raw))) ->
        exists e, parse_nvm_file fs name = Raise e).
Proof.
  split.
  - intros f n i Hi Hbad.
    destruct (_parse_cameras f n) as [[cams r]|e] eqn:Ec; [|eauto].
    exfalso. unfold _parse_cameras in Ec.
    pose proof (_parse_cameras_loop_length _ _ _ _ _ Ec) as Hlen.
    destruct (lookup_lt_is_Some_2 cams i) as [cam Hcam];
      [unfold range in Hlen; lia|].
    pose proof (_parse_cameras_loop_inv _ _ _ _ _ _ _ Ec Hcam) as Hb.
    exact (bad_terminator_refused _ _ _ Hbad Hb).
  - intros fs name raw n i Hfs Hn Hi Hbad.
    destruct (parse_nvm_file fs name) as [[cams pts]|e] eqn:Ep; [|eauto].
    exfalso. rewrite (parse_nvm_file_open _ _ _ Hfs) in Ep.
    apply parse_nvm_text_inv in Ep as (_ & _ & n' & Hn' & Hc & _).
    assert (n' = n) by congruence. subst n'.
    pose proof (_parse_cameras_loop_length _ _ _ _ _ Hc) as Hlen.
    destruct (lookup_lt_is_Some_2 cams i) as [cam Hcam];
      [unfold range in Hlen; lia|].
    pose proof (_parse_cameras_loop_inv _ _ _ _ _ _ _ Hc Hcam) as Hb.
    rewrite line_skip_lines in Hb.
    exact (bad_terminator_refused _ _ _ Hbad Hb).
Qed.

(** The fields of a point in terms of the elements of its line. *)
Lemma _parse_measurements_length n : forall measurements idx l,
  _parse_measurements measurements idx n = Ok l -> length l = n.
Proof.
  induction n as [|n IH]; intros ms idx l; simpl.
  - now intros [= <-].
  - intros Hm. do 4 bind_inv Hm.
    destruct (_parse_measurements ms (S idx) n) as [r|] eqn:Er;
      [|discriminate Hm].
    cbn [mbind result_bind Py.bind mret result_ret] in Hm.
    injection Hm as <-. simpl. f_equal. eapply IH, Er.
Qed.

Lemma _parse_nvm_points_body_fields idx point_line p :
  _parse_nvm_points_body idx point_line = Ok p ->
  point_id p = idx
  /\ scalars p = None
  /\ length (coord p) = 3%nat
  /\ length (color p) = 3%nat
  /\ exists K,
       getitem (split (rstrip point_line)) 6 ≫= int = Ok K
       /\ length (measurements p) = Z.to_nat K.
Proof.
  unfold _parse_nvm_points_body. intros Hb.
  destruct (mapM float_of_string _) as [xyz|] eqn:E1; [|discriminate Hb].
  cbn [mbind result_bind Py.bind] in Hb.
  destruct (mapM int _) as [rgb|] eqn:E2; [|discriminate Hb].
  cbn [mbind result_bind Py.bind] in Hb.
  destruct (getitem _ 6 ≫= int) as [K|] eqn:E3; [|discriminate Hb].
  cbn [mbind result_bind Py.bind] in Hb.
  destruct (_parse_measurements _ _ _) as [ms|] eqn:E4; [|discriminate Hb].
  cbn [mbind result_bind Py.bind mret result_ret] in Hb.
  injection Hb as <-. simpl.
  apply getitem_bind_Ok_lt in E3 as Hlen.
  apply mapM_length in E1, E2. unfold slice in E1, E2.
  rewrite length_take, length_drop in E1, E2.
  repeat split; [lia | lia |]. exists K. split; [reflexivity|].
  eapply _parse_measurements_length, E4.
Qed.

(** X4. Point [k] of an accepted file with [n] cameras comes from line
    [5 + n + k]: its [id] is [k], [scalars] is [None], it has three
    coordinates and three colour values, and as many measurements as the
    seventh element of its line declares (none for a count below 1). *)
Theorem accepted_point_record (fs : gmap string string) name raw
    cameras points k p :
  fs !! name = Some raw ->
  parse_nvm_file fs name = Ok (cameras, points) ->
  points !! k = Some p ->
  point_id p = k
  /\ scalars p = None
  /\ length (coord p) = 3%nat
  /\ length (color p) = 3%nat
  /\ exists K,
       getitem (split (rstrip (line (5 + length cameras + k)
                                    (universal_newlines raw)))) 6 ≫= int
       = Ok K
       /\ length (measurements p) = Z.to_nat K.
Proof.
  intros Hfs Hp Hk. rewrite (parse_nvm_file_open _ _ _ Hfs) in Hp.
  apply parse_nvm_text_inv in Hp as (_ & _ & n & Hn & Hc & _ & Hpts).
  pose proof (_parse_cameras_loop_length _ _ _ _ _ Hc) as Hlen.
  destruct (isdigit _); [|subst points; discriminate Hk].
  destruct Hpts as (m & rest & Hm & Hl).
  pose proof (_parse_nvm_points_loop_inv _ _ _ _ _ _ _ Hl Hk) as Hb.
  rewrite line_skip_lines in Hb. change (0 + k)%nat with k in Hb.
  rewrite <- Hlen in Hb.
  exact (_parse_nvm_points_body_fields _ _ _ Hb).
Qed.
End NVM_records.

Lemma accepted_camera_record_witness :
  NVMFileHandler.parse_nvm_file {[ "a.nvm" := Samples.camera_file ]} "a.nvm"
  = Ok ([Samples.camera], [])
  /\ NVMFileHandler.id Samples.camera = 0%nat
  /\ NVMFileHandler.calibration_mat Samples.camera
     = ((1000, 0, 0), (0, 1000, 0), (0, 0, 1))%Q
  /\ NVMFileHandler.width Samples.camera = None.
Proof.
  split; [reflexivity|].
  destruct (accepted_camera_record
              {[ "a.nvm" := Samples.camera_file ]} "a.nvm" Samples.camera_file
              [Samples.camera] [] 0%nat Samples.camera)
    as (Hid & _ & _ & _ & _ & _ & Hw & _);
    [reflexivity | reflexivity | reflexivity |].
  split; [exact Hid|]. split; [reflexivity | exact Hw].
Defined.

Lemma bad_camera_record_raises_witness :
  (exists e,
     NVMFileHandler._parse_cameras
       (unlines ["a.jpg 1000.0 1 0 0 0 1 2 3 0 5"]) 1 = Raise e)
  /\ exists e,
       NVMFileHandler.parse_nvm_file
         {[ "a.nvm" := Samples.short_record_file ]} "a.nvm" = Raise e.
Proof.
  split.
  - apply (proj1 bad_camera_record_raises
             (unlines ["a.jpg 1000.0 1 0 0 0 1 2 3 0 5"]) 1 0%nat); [lia|].
    right; right. exists "5", 5%Q. repeat split.
  - apply (proj2 bad_camera_record_raises
             {[ "a.nvm" := Samples.short_record_file ]} "a.nvm"
             Samples.short_record_file 1 0%nat);
      [reflexivity | reflexivity | lia |].
    left. vm_compute. lia.
Defined.

Lemma accepted_point_record_witness :
  NVMFileHandler.parse_nvm_file {[ "a.nvm" := Samples.negative_count_file ]}
    "a.nvm"
  = Ok ([], [Samples.bare_point])
  /\ NVMFileHandler.point_id Samples.bare_point = 0%nat
  /\ length (NVMFileHandler.coord Samples.bare_point) = 3%nat
  /\ length (NVMFileHandler.measurements Samples.bare_point) = 0%nat.
Proof.
  split; [reflexivity|].
  destruct (accepted_point_record
              {[ "a.nvm" := Samples.negative_count_file ]} "a.nvm"
              Samples.negative_count_file [] [Samples.bare_point] 0%nat
              Samples.bare_point)
    as (Hid & _ & Hc & _ & K & HK & Hm);
    [reflexivity | reflexivity | reflexivity |].
  split; [exact Hid|]. split; [exact Hc | reflexivity].
Defined.

(* ===================================================================== *)
(** * The image sizes of the cameras *)
(* ===================================================================== *)

Section NVM_image_sizes.
Context `{FL : PyFloat} `{!Numpy} `{!CameraLib}.
Import NVMFileHandler.

Lemma set_image_size_fields w h cam :
  width (set_image_size w h cam) = Some w
  /\ height (set_image_size w h cam) = Some h
  /\ file_name (set_image_size w h cam) = file_name cam
  /\ id (set_image_size w h cam) = id cam
  /\ _rotation_mat (set_image_size w h cam) = _rotation_mat cam
  /\ _center (set_image_size w h cam) = _center cam
  /\ _translation_vec (set_image_size w h cam) = _translation_vec cam
  /\ calibration_mat (set_image_size w h cam) = calibration_mat cam.
Proof. repeat split. Qed.

(** X5. Without PIL, or when no camera has an image file under
    [path_to_images], [parse_camera_image_files] does not raise and gives
    every camera the default width and height, in the order of the list
    and with the other fields as they were; no image is opened. *)
Theorem image_sizes_default PILImage isfile cameras path_to_images
    default_width default_height :
  PILImage = None
  \/ (forall camera, In camera cameras ->
        isfile (path_join path_to_images [file_name camera]) = false) ->
  parse_camera_image_files PILImage isfile cameras path_to_images
    default_width default_height
  = Ok (map (set_image_size default_width default_height) cameras).
Proof.
  intros Hd. induction cameras as [|camera cameras IH]; [reflexivity|].
  cbn [parse_camera_image_files map].
  rewrite IH.
  - destruct Hd as [-> | Hno]; [reflexivity|].
    destruct PILImage as [PILImage_open|]; [|reflexivity].
    rewrite (Hno camera) by now left. reflexivity.
  - destruct Hd as [-> | Hno]; [now left | right].
    intros c Hc. apply Hno. now right.
Qed.

(** X6. With PIL, an accepted list of cameras comes back with the same
    length and order; camera [k] has the size of its image when
    [path_to_images/file_name] is a file, the defaults otherwise, and its
    other fields are unchanged. An image file that cannot be opened makes
    the whole call raise. *)
Theorem image_sizes_from_files PILImage_open isfile cameras path_to_images
    default_width default_height :
  (forall sized,
     parse_camera_image_files (Some PILImage_open) isfile cameras
       path_to_images default_width default_height = Ok sized ->
     length sized = length cameras
     /\ forall k camera,
          cameras !! k = Some camera ->
          let image_path := path_join path_to_images [file_name camera] in
          exists w h,
            sized !! k = Some (set_image_size w h camera)
            /\ if isfile image_path
               then PILImage_open image_path = Ok (w, h)
               else (w, h) = (default_width, default_height))
  /\ (forall camera e,
        In camera cameras ->
        isfile (path_join path_to_images [file_name camera]) = true ->
        PILImage_open (path_join path_to_images [file_name camera]) = Raise e ->
        exists e',
          parse_camera_image_files (Some PILImage_open) isfile cameras
            path_to_images default_width default_height = Raise e').
Proof.
  split.
  - induction cameras as [|camera cameras IH]; intros sized Hs.
    + injection Hs as <-. split; [reflexivity|]. intros k c Hk. discriminate Hk.
    + cbn [parse_camera_image_files] in Hs.
      destruct (isfile (path_join path_to_images [file_name camera])) eqn:Ef.
      * destruct (PILImage_open _) as [[w h]|] eqn:Eo; [|discriminate Hs].
        cbn [mbind result_bind Py.bind mret result_ret] in Hs.
        destruct (parse_camera_image_files _ _ cameras _ _ _) as [rest|] eqn:Er;
          [|discriminate Hs].
        cbn [mbind result_bind Py.bind mret result_ret] in Hs.
        injection Hs as <-. destruct (IH rest eq_refl) as [Hlen Hk].
        split; [simpl; now rewrite Hlen|].
        intros [|k] c Hc; simpl in Hc.
        -- injection Hc as <-. exists w, h. cbn zeta. rewrite Ef.
           split; [reflexivity | exact Eo].
        -- exact (Hk k c Hc).
      * cbn [mbind result_bind Py.bind mret result_ret] in Hs.
        destruct (parse_camera_image_files _ _ cameras _ _ _) as [rest|] eqn:Er;
          [|discriminate Hs].
        cbn [mbind result_bind Py.bind mret result_ret] in Hs.
        injection Hs as <-. destruct (IH rest eq_refl) as [Hlen Hk].
        split; [simpl; now rewrite Hlen|].
        intros [|k] c Hc; simpl in Hc.
        -- injection Hc as <-. exists default_width, default_height.
           cbn zeta. rewrite Ef. split; reflexivity.
        -- exact (Hk k c Hc).
  - intros camera e Hin Hf Ho.
    induction cameras as [|c cameras IH]; [destruct Hin|].
    cbn [parse_camera_image_files].
    destruct Hin as [-> | Hin].
    + rewrite Hf, Ho. eexists. reflexivity.
    + destruct (isfile (path_join path_to_images [file_name c])).
      * destruct (PILImage_open (path_join path_to_images [file_name c]))
          as [[w h]|e1]; [|eexists; reflexivity].
        cbn [mbind result_bind Py.bind mret result_ret].
        destruct (IH Hin) as [e' ->]. eexists. reflexivity.
      * cbn [mbind result_bind Py.bind mret result_ret].
        destruct (IH Hin) as [e' ->]. eexists. reflexivity.
Qed.
End NVM_image_sizes.

Lemma image_sizes_default_witness :
  NVMFileHandler.parse_camera_image_files None (fun _ => true)
    [Samples.camera; Samples.upright_camera] "/images" 640 480
  = Ok [NVMFileHandler.set_image_size 640 480 Samples.camera;
        NVMFileHandler.set_image_size 640 480 Samples.upright_camera].
Proof.
  apply (image_sizes_default None (fun _ => true)
           [Samples.camera; Samples.upright_camera] "/images" 640 480).
  left. reflexivity.
Defined.

Lemma image_sizes_from_files_witness :
  (exists w h,
     [NVMFileHandler.set_image_size 800 600 Samples.camera] !! 0%nat
     = Some (NVMFileHandler.set_image_size w h Samples.camera)
     /\ (w, h) = (800, 600))
  /\ exists e,
       NVMFileHandler.parse_camera_image_files
         (Some (fun _ => Raise ValueError)) (String.eqb "/images/img001.jpg")
         [Samples.camera] "/images" 640 480 = Raise e.
Proof.
  split.
  - destruct (proj1 (image_sizes_from_files (fun _ => Ok (800, 600))
                       (String.eqb "/images/img001.jpg")
                       [Samples.camera] "/images" 640 480)
                [NVMFileHandler.set_image_size 800 600 Samples.camera])
      as [_ Hk]; [reflexivity|].
    destruct (Hk 0%nat Samples.camera) as (w & h & Hs & Hwh); [reflexivity|].
    exists w, h. split; [exact Hs|]. symmetry.
    injection Hwh as <- <-. reflexivity.
  - apply (proj2 (image_sizes_from_files (fun _ => Raise ValueError)
                    (String.eqb "/images/img001.jpg")
                    [Samples.camera] "/images" 640 480)
             Samples.camera ValueError); [now left | reflexivity | reflexivity].
Defined.

(* ===================================================================== *)
(** * Further properties of the Meshroom handler *)
(* ===================================================================== *)

Lemma lift_bind {A B} (r : result A) (k : A -> Op B) op :
  (lift r ≫= k) op
  = match r with Ok a => k a op | Raise e => (op, Raise e) end.
Proof. unfold mbind, Op_bind, op_bind, lift. destruct r; reflexivity. Qed.

Lemma log_report_bind {B} lvl msg (k : unit -> Op B) op :
  (log_report lvl msg ≫= k) op = k tt (op ++ [(lvl, msg)])%list.
Proof. reflexivity. Qed.

Lemma Op_bind_eq {A B} (m : Op A) (k : A -> Op B) op :
  (m ≫= k) op
  = match m op with
    | (op', Ok a) => k a op'
    | (op', Raise e) => (op', Raise e)
    end.
Proof. reflexivity. Qed.

(** Inversion of one [lift] step of an accepted computation. *)
Ltac lift_inv H :=
  rewrite lift_bind in H;
  lazymatch type of H with
  | match ?r with Ok _ => _ | Raise _ => _ end = _ =>
      let E := fresh "E" in
      destruct r eqn:E; [|discriminate H]
  end.

Section Meshroom_cameras.
Context `{FL : PyFloat} `{!MeshroomLib}.
Import MeshroomFileHandler.

(** What [_parse_camera] has read when it returns a camera. *)
Lemma _parse_camera_inv views intrinsics dp fpt suppress extrinsic op op' vi cam :
  _parse_camera views intrinsics dp fpt suppress extrinsic op
  = (op', Ok (vi, cam)) ->
  exists view path pid intr,
    py_getitem extrinsic "poseId" ≫= py_int = Ok vi
    /\ py_getitem extrinsic "poseId" = Ok pid
    /\ _get_element views "poseId" vi = Ok view
    /\ py_getitem view "path" = Ok path
    /\ (id_intrinsic ← py_getitem view "intrinsicId" ≫= py_int;
        _get_element intrinsics "intrinsicId" id_intrinsic) = Ok intr
    /\ view_index cam = vi
    /\ image_dp cam = dp
    /\ image_fp_type cam = fpt
    /\ _absolute_fp cam = py_str path
    /\ _relative_fp cam = basename (py_str path)
    /\ _undistorted_relative_fp cam = (py_str pid ++ ".exr")%string
    /\ _undistorted_absolute_fp cam
       = match dp with
         | None => None
         | Some d => Some (path_join d [(py_str pid ++ ".exr")%string])
         end
    /\ py_getitem view "width" ≫= py_int = Ok (width cam)
    /\ py_getitem view "height" ≫= py_int = Ok (height cam)
    /\ (exists focal_length cx cy,
          py_getitem intr "pxFocalLength" ≫= py_float = Ok focal_length
          /\ (principal_point ← py_getitem intr "principalPoint";
              py_getitem_int principal_point 0 ≫= py_float) = Ok cx
          /\ (principal_point ← py_getitem intr "principalPoint";
              py_getitem_int principal_point 1 ≫= py_float) = Ok cy
          /\ calibration_mat cam
             = ((focal_length, f0, cx), (f0, focal_length, cy), (f0, f0, f1)))
    /\ (exists has_distortion : bool,
          and_then (py_in "distortionParams" intr)
            (n ← py_getitem intr "distortionParams" ≫= py_len;
             Ok (0 <? Z.of_nat n)) = Ok has_distortion
          /\ if has_distortion
             then (distortion_params ← py_getitem intr "distortionParams";
                   py_getitem_int distortion_params 0 ≫= py_float)
                  = Ok (radial_distortion cam)
             else radial_distortion cam = f0)
    /\ op' = (if suppress : bool then op
              else op ++ check_radial_distortion (radial_distortion cam)
                           (_relative_fp cam))%list
    /\ (exists extrinsic_params,
          (pose ← py_getitem extrinsic "pose"; py_getitem pose "transform")
          = Ok extrinsic_params
          /\ (py_getitem extrinsic_params "rotation" ≫= np_array_float)
               ≫= reshape_3_3_T = Ok (rotation_mat cam)
          /\ py_getitem extrinsic_params "center" ≫= np_array_float
             = Ok (center cam)).
Proof.
  unfold _parse_camera. intros Hc.
  lift_inv Hc. rename a into vi0, E into Evi.
  lift_inv Hc. rename a into view, E into Eview.
  lift_inv Hc. rename a into afp, E into Eafp.
  lift_inv Hc. rename a into rfp, E into Erfp.
  lift_inv Hc. rename a into urfp, E into Eurfp.
  lift_inv Hc. rename a into w, E into Ew.
  lift_inv Hc. rename a into h, E into Eh.
  lift_inv Hc. rename a into ii, E into Eii.
  lift_inv Hc. rename a into intr, E into Eintr.
  lift_inv Hc. rename a into fl, E into Efl.
  lift_inv Hc. rename a into cx, E into Ecx.
  lift_inv Hc. rename a into cy, E into Ecy.
  lift_inv Hc. rename a into hd, E into Ehd.
  lift_inv Hc. rename a into rd, E into Erd.
  rewrite Op_bind_eq in Hc.
  assert (Hlog : exists op1,
            op1 = (if suppress : bool then op
                   else op ++ check_radial_distortion rd rfp)%list
            /\ (if suppress
                then (mret tt : Op unit)
                else fun op0 : list report =>
                       ((op0 ++ check_radial_distortion rd rfp)%list, Ok tt))
                 op
               = (op1, Ok tt)).
  { destruct suppress; eexists; split; reflexivity. }
  destruct Hlog as (op1 & Hop1 & Hlog). rewrite Hlog in Hc. clear Hlog.
  lift_inv Hc. rename a into ep, E into Eep.
  lift_inv Hc. rename a into rl, E into Erl.
  lift_inv Hc. rename a into rot, E into Erot.
  lift_inv Hc. rename a into cen, E into Ecen.
  injection Hc as <- <- <-.
  destruct (py_getitem view "path") as [path|] eqn:Epath; [|discriminate Eafp].
  injection Eafp as <-. injection Erfp as <-.
  destruct (py_getitem extrinsic "poseId") as [pid|] eqn:Epid;
    [|discriminate Eurfp].
  injection Eurfp as <-.
  exists view, path, pid, intr. cbn [view_index image_dp image_fp_type
    _absolute_fp _relative_fp _undistorted_relative_fp
    _undistorted_absolute_fp width height calibration_mat radial_distortion
    rotation_mat center].
  repeat (split; [first [reflexivity | assumption]|]).
  split. { rewrite Eii. cbn [mbind result_bind Py.bind]. exact Eintr. }
  repeat (split; [first [reflexivity | assumption]|]).
  split. { exists fl, cx, cy. repeat split; first [reflexivity | assumption]. }
  split. { exists hd. split; [first [reflexivity | assumption]|].
           destruct hd; [first [reflexivity | assumption]|].
           now injection Erd as <-. }
  split; [exact Hop1|].
  exists ep. split; [first [reflexivity | assumption]|].
  split; [|first [reflexivity | assumption]].
  first [ reflexivity | assumption
        | rewrite Erl; cbn [mbind result_bind Py.bind]; exact Erot ].
Qed.

End Meshroom_cameras.

Section Meshroom_camera_list.
Context `{FL : PyFloat} `{!MeshroomLib}.
Import MeshroomFileHandler.

(** The reports of the distortion check of a list of cameras. *)
Lemma index_map_sound_step cams index vi camera :
  view_index camera = vi ->
  index_map_sound cams index ->
  index_map_sound (cams ++ [camera]) (<[vi := length cams]> index).
Proof.
  intros Hvi [Hmap Hcams]. split.
  - intros v i Hv. destruct (decide (v = vi)) as [-> | Hne].
    + rewrite lookup_insert_eq in Hv. injection Hv as <-.
      exists camera. split; [|exact Hvi].
      rewrite lookup_app_r by lia. now rewrite Nat.sub_diag.
    + rewrite lookup_insert_ne in Hv by congruence.
      destruct (Hmap v i Hv) as (cam & Hcam & Hview).
      exists cam. split; [|exact Hview].
      now apply lookup_app_l_Some.
  - intros i cam Hcam.
    assert (Hi : (i < length (cams ++ [camera]))%nat)
      by (apply lookup_lt_is_Some; eauto).
    rewrite length_app in Hi. simpl in Hi.
    destruct (decide (view_index cam = vi)) as [-> | Hne].
    + exists (length cams). rewrite lookup_insert_eq. split; [reflexivity|lia].
    + rewrite lookup_insert_ne by congruence.
      apply lookup_app_Some in Hcam as [Hcam | [Hge Hcam]].
      * exact (Hcams i cam Hcam).
      * exfalso. apply Hne. rewrite <- Hvi.
        destruct (i - length cams)%nat as [|n] eqn:En; simpl in Hcam;
          [now injection Hcam as <- | now rewrite lookup_nil in Hcam].
Qed.

(** The loop over the poses: one camera for each pose, in their order. *)
Lemma meshroom_cameras_loop_inv views intrinsics dp fpt suppress extrinsics :
  forall rec_index cams index op op' cams' index',
  _parse_cameras_loop views intrinsics dp fpt suppress rec_index extrinsics
    cams index op = (op', Ok (cams', index')) ->
  rec_index = length cams ->
  index_map_sound cams index ->
  exists new,
    cams' = (cams ++ new)%list
    /\ length new = length extrinsics
    /\ index_map_sound cams' index'
    /\ (forall k cam, new !! k = Some cam ->
          exists extrinsic opa opb,
            extrinsics !! k = Some extrinsic
            /\ _parse_camera views intrinsics dp fpt suppress extrinsic opa
               = (opb, Ok (view_index cam, cam)))
    /\ op' = (if suppress : bool then op
              else op ++ flat_map
                           (fun cam =>
                              check_radial_distortion (radial_distortion cam)
                                (_relative_fp cam)) new)%list.
Proof.
  induction extrinsics as [|extrinsic extrinsics IH];
    intros rec_index cams index op op' cams' index' Hl Hrec Hsound.
  - injection Hl as <- <- <-. exists []. rewrite !app_nil_r.
    split; [reflexivity|]. split; [reflexivity|]. split; [exact Hsound|].
    split; [intros k cam Hk; discriminate Hk|]. now destruct suppress.
  - cbn [_parse_cameras_loop] in Hl. rewrite Op_bind_eq in Hl.
    destruct (_parse_camera views intrinsics dp fpt suppress extrinsic op)
      as [op1 [[vi camera]|e]] eqn:Ec; [|discriminate Hl].
    destruct (_parse_camera_inv _ _ _ _ _ _ _ _ _ _ Ec)
      as (view & path & pid & intr & _ & _ & _ & _ & _ & Hvi & _ & _ & _ & _
          & _ & _ & _ & _ & _ & _ & Hop1 & _).
    apply IH in Hl as (new & -> & Hlen & Hsound' & Hnew & Hop');
      [| rewrite length_app; simpl; lia
       | subst rec_index; now apply index_map_sound_step].
    rewrite <- app_assoc in Hsound' |- *. cbn [app] in Hsound' |- *.
    exists (camera :: new).
    split; [reflexivity|]. split; [simpl; now rewrite Hlen|].
    split; [exact Hsound'|]. split.
    + intros [|k] cam Hk; simpl in Hk.
      * injection Hk as <-. exists extrinsic, op, op1. split; [reflexivity|].
        now rewrite Hvi.
      * exact (Hnew k cam Hk).
    + subst op' op1. destruct suppress; [reflexivity|].
      cbn [flat_map]. now rewrite <- app_assoc.
Qed.

Lemma parse_cameras_valid (d : gmap string json) views intrinsics poses
    dp fpt suppress op :
  d !! "views" = Some views ->
  d !! "intrinsics" = Some intrinsics ->
  d !! "poses" = Some poses ->
  _parse_cameras_from_json_data (JObj d) dp fpt suppress op
  = match py_iter poses with
    | Ok extrinsics =>
        _parse_cameras_loop views intrinsics dp fpt suppress 0 extrinsics
          [] ∅ op
    | Raise e => (op, Raise e)
    end.
Proof.
  intros Hv Hi Hp. unfold _parse_cameras_from_json_data.
  rewrite (lookup_and_then_valid _ _ _ _ Hv Hi Hp).
  rewrite lift_bind. unfold py_getitem. rewrite Hv, Hi, Hp.
  cbn [of_option]. rewrite !lift_bind. reflexivity.
Qed.

Lemma index_map_sound_empty : index_map_sound [] ∅.
Proof.
  split.
  - intros v i Hv. now rewrite lookup_empty in Hv.
  - intros i cam Hc. now rewrite lookup_nil in Hc.
Qed.

(** The element [_get_element] returns is the first of the list that
    carries the queried id. *)
Lemma _get_element_loop_split l id_string query_id ele :
  _get_element_loop l id_string query_id = Ok (Some ele) ->
  exists pre post,
    l = (pre ++ ele :: post)%list
    /\ py_getitem ele id_string ≫= py_int = Ok query_id
    /\ forall e, In e pre ->
         exists v, py_getitem e id_string ≫= py_int = Ok v /\ v <> query_id.
Proof.
  induction l as [|e l IH]; [discriminate|]. cbn [_get_element_loop].
  intros Hl.
  destruct (py_getitem e id_string ≫= py_int) as [v|] eqn:Ev; [|discriminate Hl].
  cbn [mbind result_bind Py.bind] in Hl.
  destruct (v =? query_id) eqn:Eq.
  - injection Hl as <-. apply Z.eqb_eq in Eq. subst v.
    exists [], l. split; [reflexivity|]. split; [exact Ev|]. intros e' [].
  - destruct (IH Hl) as (pre & post & -> & Hid & Hpre).
    exists (e :: pre), post. split; [reflexivity|]. split; [exact Hid|].
    intros e' [<- | Hin]; [|exact (Hpre e' Hin)].
    exists v. split; [exact Ev|]. now apply Z.eqb_neq.
Qed.

Lemma _get_element_split data_list id_string query_id ele :
  _get_element data_list id_string query_id = Ok ele ->
  exists elements pre post,
    py_iter data_list = Ok elements
    /\ elements = (pre ++ ele :: post)%list
    /\ py_getitem ele id_string ≫= py_int = Ok query_id
    /\ forall e, In e pre ->
         exists v, py_getitem e id_string ≫= py_int = Ok v /\ v <> query_id.
Proof.
  unfold _get_element. intros Hg.
  destruct (py_iter data_list) as [elements|]; [|discriminate Hg].
  cbn [mbind result_bind Py.bind] in Hg.
  destruct (_get_element_loop elements id_string query_id) as [[e|]|] eqn:El;
    try discriminate Hg.
  injection Hg as <-.
  destruct (_get_element_loop_split _ _ _ _ El) as (pre & post & Hl & Hid & Hpre).
  now exists elements, pre, post.
Qed.

(** X7. The cameras of an accepted SfM document follow its poses: there
    is one camera for each pose, in the order of the poses; camera [k]
    carries the [poseId] of pose [k] as its view index and is built from
    the first view of [views] with that [poseId]: the [path] of that view
    is its absolute path, the base name of it its relative path, and the
    [width] and [height] of that view are its own. It carries the image
    directory and the path type it was called with, and [<poseId>.exr] as
    undistorted relative path (under the image directory when there is
    one). Every entry of the index map points to a camera with the view
    index it maps, and every camera has an entry for its view index, which
    is its own place in the list or a later one with the same [poseId]. *)
Theorem cameras_follow_poses (d : gmap string json) views intrinsics poses
    dp fpt suppress op op' cams index :
  d !! "views" = Some views ->
  d !! "intrinsics" = Some intrinsics ->
  d !! "poses" = Some (JArr poses) ->
  _parse_cameras_from_json_data (JObj d) dp fpt suppress op
  = (op', Ok (cams, index)) ->
  length cams = length poses
  /\ (forall k cam,
        cams !! k = Some cam ->
        exists pose pid,
          poses !! k = Some pose
          /\ py_getitem pose "poseId" = Ok pid
          /\ py_int pid = Ok (view_index cam)
          /\ (exists view_list pre view post path,
                py_iter views = Ok view_list
                /\ view_list = (pre ++ view :: post)%list
                /\ (forall e, In e pre ->
                      exists v, py_getitem e "poseId" ≫= py_int = Ok v
                                /\ v <> view_index cam)
                /\ py_getitem view "poseId" ≫= py_int = Ok (view_index cam)
                /\ py_getitem view "path" = Ok path
                /\ _absolute_fp cam = py_str path
                /\ _relative_fp cam = basename (py_str path)
                /\ py_getitem view "width" ≫= py_int = Ok (width cam)
                /\ py_getitem view "height" ≫= py_int = Ok (height cam))
          /\ image_dp cam = dp
          /\ image_fp_type cam = fpt
          /\ _relative_fp cam = basename (_absolute_fp cam)
          /\ _undistorted_relative_fp cam = (py_str pid ++ ".exr")%string
          /\ _undistorted_absolute_fp cam
             = match dp with
               | None => None
               | Some dir => Some (path_join dir [_undistorted_relative_fp cam])
               end)
  /\ index_map_sound cams index.
Proof.
  intros Hv Hi Hp Hc. rewrite (parse_cameras_valid _ _ _ _ _ _ _ _ Hv Hi Hp) in Hc.
  cbn [py_iter] in Hc.
  apply meshroom_cameras_loop_inv in Hc
    as (new & Hcams & Hlen & Hsound & Hnew & _);
    [|reflexivity|exact index_map_sound_empty].
  cbn [app] in Hcams. subst new.
  split; [exact Hlen|]. split; [|exact Hsound].
  intros k cam Hk. destruct (Hnew k cam Hk) as (pose & opa & opb & Hpose & Hcam).
  destruct (_parse_camera_inv _ _ _ _ _ _ _ _ _ _ Hcam)
    as (view & path & pid & intr & Hvi & Hpid & Hview & Hpath & _ & _ & Hdp
        & Hfpt & Habs & Hrel & Hurel & Huabs & Hw & Hh & _).
  exists pose, pid. split; [exact Hpose|]. split; [exact Hpid|].
  split. { rewrite Hpid in Hvi. exact Hvi. }
  split.
  { destruct (_get_element_split _ _ _ _ Hview)
      as (view_list & pre & post & Hiter & Hlist & Hid & Hpre).
    exists view_list, pre, view, post, path.
    repeat (split; [assumption|]). assumption. }
  split; [exact Hdp|]. split; [exact Hfpt|].
  split. { now rewrite Hrel, Habs. }
  split; [exact Hurel|]. now rewrite Huabs, Hurel.
Qed.

Lemma ret_bind {B} (k : unit -> Op B) op :
  ((mret tt : Op unit) ≫= k) op = k tt op.
Proof. reflexivity. Qed.

Lemma reports_bind {B} (l : list report) (k : unit -> Op B) op :
  ((fun op0 : list report => ((op0 ++ l)%list, Ok tt)) ≫= k) op
  = k tt (op ++ l)%list.
Proof. reflexivity. Qed.

(** One camera with and without the distortion check: the result is the
    same, and only the check reports. *)
Lemma _parse_camera_reports views intrinsics dp fpt extrinsic op :
  _parse_camera views intrinsics dp fpt true extrinsic op
  = (op, snd (_parse_camera views intrinsics dp fpt true extrinsic []))
  /\ _parse_camera views intrinsics dp fpt false extrinsic op
     = ((op ++ fst (_parse_camera views intrinsics dp fpt false extrinsic []))%list,
        snd (_parse_camera views intrinsics dp fpt true extrinsic [])).
Proof.
  unfold _parse_camera.
  do 14 (rewrite !lift_bind;
         match goal with
         | |- context [match ?r with Ok _ => _ | Raise _ => _ end] =>
             destruct r
         end;
         [|cbn [fst snd]; rewrite app_nil_r; split; reflexivity]).
  rewrite !ret_bind, !reports_bind. cbv beta.
  do 4 (rewrite !lift_bind;
        match goal with
        | |- context [match ?r with Ok _ => _ | Raise _ => _ end] =>
            destruct r
        end;
        [|split; reflexivity]).
  split; reflexivity.
Qed.

Lemma _parse_cameras_loop_reports views intrinsics dp fpt extrinsics :
  forall rec_index cams index,
  exists r l,
    forall op,
      _parse_cameras_loop views intrinsics dp fpt true rec_index extrinsics
        cams index op = (op, r)
      /\ _parse_cameras_loop views intrinsics dp fpt false rec_index extrinsics
           cams index op = ((op ++ l)%list, r).
Proof.
  induction extrinsics as [|extrinsic extrinsics IH];
    intros rec_index cams index.
  - exists (Ok (cams, index)), []. intros op. rewrite app_nil_r.
    split; reflexivity.
  - cbn [_parse_cameras_loop].
    destruct (snd (_parse_camera views intrinsics dp fpt true extrinsic []))
      as [[vi camera]|e] eqn:Er.
    + destruct (IH (S rec_index) (cams ++ [camera])%list
                  (<[vi := rec_index]> index)) as (r & l & Hr).
      exists r,
        (fst (_parse_camera views intrinsics dp fpt false extrinsic []) ++ l)%list.
      intros op. rewrite !Op_bind_eq.
      destruct (_parse_camera_reports views intrinsics dp fpt extrinsic op)
        as [-> ->].
      rewrite Er. split; [apply Hr|]. rewrite app_assoc. apply Hr.
    + exists (Raise e),
        (fst (_parse_camera views intrinsics dp fpt false extrinsic [])).
      intros op. rewrite !Op_bind_eq.
      destruct (_parse_camera_reports views intrinsics dp fpt extrinsic op)
        as [-> ->].
      rewrite Er. split; reflexivity.
Qed.

(** X8. On a document that has [views], [intrinsics] and [poses], the
    camera parse reports nothing but the findings of the distortion check:
    with [suppress_distortion_warnings] nothing is reported, whether the
    parse returns or raises; without it the result is the same, the reports
    are added to those made before, and on return they are the findings of
    the check for the returned cameras, in their order. *)
Theorem distortion_check_is_the_only_report (d : gmap string json)
    views intrinsics poses dp fpt op :
  d !! "views" = Some views ->
  d !! "intrinsics" = Some intrinsics ->
  d !! "poses" = Some poses ->
  fst (_parse_cameras_from_json_data (JObj d) dp fpt true op) = op
  /\ snd (_parse_cameras_from_json_data (JObj d) dp fpt false op)
     = snd (_parse_cameras_from_json_data (JObj d) dp fpt true op)
  /\ (exists l,
        fst (_parse_cameras_from_json_data (JObj d) dp fpt false op)
        = (op ++ l)%list)
  /\ forall op' cams index,
       _parse_cameras_from_json_data (JObj d) dp fpt false op
       = (op', Ok (cams, index)) ->
       op' = (op ++ flat_map
                      (fun cam =>
                         check_radial_distortion (radial_distortion cam)
                           (_relative_fp cam)) cams)%list.
Proof.
  intros Hv Hi Hp.
  rewrite !(parse_cameras_valid _ _ _ _ _ _ _ _ Hv Hi Hp).
  destruct (py_iter poses) as [extrinsics|e].
  - destruct (_parse_cameras_loop_reports views intrinsics dp fpt extrinsics
                0%nat [] ∅) as (r & l & Hr).
    destruct (Hr op) as [Ht Hf]. rewrite Ht, Hf. cbn [fst snd].
    split; [reflexivity|]. split; [reflexivity|]. split; [now exists l|].
    intros op' cams index Hc. rewrite <- Hf in Hc.
    apply meshroom_cameras_loop_inv in Hc
      as (new & Hcams & _ & _ & _ & Hop');
      [|reflexivity|exact index_map_sound_empty].
    cbn [app] in Hcams. now subst new.
  - cbn [fst snd]. split; [reflexivity|]. split; [reflexivity|].
    split; [exists []; now rewrite app_nil_r|].
    intros op' cams index Hc. discriminate Hc.
Qed.

Lemma _get_element_loop_In l id_string query_id ele :
  _get_element_loop l id_string query_id = Ok (Some ele) ->
  In ele l /\ py_getitem ele id_string ≫= py_int = Ok query_id.
Proof.
  induction l as [|e l IH]; [discriminate|]. cbn [_get_element_loop].
  intros Hl.
  destruct (py_getitem e id_string ≫= py_int) as [v|] eqn:Ev; [|discriminate Hl].
  cbn [mbind result_bind Py.bind] in Hl.
  destruct (v =? query_id) eqn:Eq.
  - injection Hl as <-. apply Z.eqb_eq in Eq. subst v.
    split; [now left | exact Ev].
  - destruct (IH Hl) as [Hin Hid]. split; [now right | exact Hid].
Qed.

Lemma _get_element_In l id_string query_id ele :
  _get_element (JArr l) id_string query_id = Ok ele ->
  In ele l /\ py_getitem ele id_string ≫= py_int = Ok query_id.
Proof.
  unfold _get_element. cbn [py_iter mbind result_bind Py.bind]. intros Hg.
  destruct (_get_element_loop l id_string query_id) as [[e|]|] eqn:El;
    try discriminate Hg.
  injection Hg as <-. exact (_get_element_loop_In _ _ _ _ El).
Qed.

(** X9. The radial distortion of a camera is read from the intrinsic of
    its view alone: zero when the intrinsic has no [distortionParams] or an
    empty list of them, and otherwise the first parameter as a float; the
    parameters after the first are not read. *)
Theorem radial_distortion_is_first_parameter (d : gmap string json)
    views intrinsics poses dp fpt suppress op op' cams index :
  d !! "views" = Some (JArr views) ->
  d !! "intrinsics" = Some (JArr intrinsics) ->
  d !! "poses" = Some (JArr poses) ->
  _parse_cameras_from_json_data (JObj d) dp fpt suppress op
  = (op', Ok (cams, index)) ->
  forall k cam,
    cams !! k = Some cam ->
    exists (view intrinsic : gmap string json) id_intrinsic,
      In (JObj view) views
      /\ py_getitem (JObj view) "poseId" ≫= py_int = Ok (view_index cam)
      /\ In (JObj intrinsic) intrinsics
      /\ py_getitem (JObj view) "intrinsicId" ≫= py_int = Ok id_intrinsic
      /\ py_getitem (JObj intrinsic) "intrinsicId" ≫= py_int = Ok id_intrinsic
      /\ match intrinsic !! "distortionParams" with
         | None | Some (JArr []) => radial_distortion cam = f0
         | Some (JArr (p :: _)) => py_float p = Ok (radial_distortion cam)
         | Some _ => True
         end.
Proof.
  intros Hv Hi Hp Hc k cam Hk.
  rewrite (parse_cameras_valid _ _ _ _ _ _ _ _ Hv Hi Hp) in Hc.
  cbn [py_iter] in Hc.
  apply meshroom_cameras_loop_inv in Hc
    as (new & Hcams & _ & _ & Hnew & _);
    [|reflexivity|exact index_map_sound_empty].
  cbn [app] in Hcams. subst new.
  destruct (Hnew k cam Hk) as (pose & opa & opb & _ & Hcam).
  destruct (_parse_camera_inv _ _ _ _ _ _ _ _ _ _ Hcam)
    as (view & path & pid & intr & _ & _ & Hview & _ & Hintr & _ & _ & _ & _
        & _ & _ & _ & _ & _ & _ & (hd & Hhd & Hrd) & _).
  apply _get_element_In in Hview as [Hvin Hvid].
  destruct (py_getitem view "intrinsicId" ≫= py_int) as [ii|] eqn:Eii;
    [|discriminate Hintr].
  cbn [mbind result_bind Py.bind] in Hintr.
  apply _get_element_In in Hintr as [Hiin Hiid].
  destruct view as [| | | | | |view]; try discriminate Hvid.
  destruct intr as [| | | | | |intrinsic]; try discriminate Hiid.
  exists view, intrinsic, ii.
  split; [exact Hvin|]. split; [exact Hvid|]. split; [exact Hiin|].
  split; [exact Eii|]. split; [exact Hiid|].
  rewrite py_in_JObj in Hhd. unfold and_then, py_getitem in Hhd, Hrd.
  destruct (intrinsic !! "distortionParams") as [params|] eqn:Ep.
  - rewrite bool_decide_eq_true_2 in Hhd by eauto.
    cbn [mbind result_bind Py.bind of_option] in Hhd, Hrd.
    destruct params as [| | | | |[|p params]|]; try exact I.
    + cbn [py_len mbind result_bind Py.bind length] in Hhd.
      injection Hhd as <-. exact Hrd.
    + cbn [py_len mbind result_bind Py.bind length] in Hhd.
      injection Hhd as <-. exact Hrd.
  - rewrite bool_decide_eq_false_2 in Hhd by apply is_Some_None.
    cbn [mbind result_bind Py.bind] in Hhd. injection Hhd as <-. exact Hrd.
Qed.
End Meshroom_camera_list.

Section Meshroom_points.
Context `{FL : PyFloat} `{!MeshroomLib}.
Import MeshroomFileHandler.

Lemma _parse_points_loop_inv structure : forall points,
  _parse_points_loop structure = Ok points ->
  length points = length structure
  /\ forall k p,
       points !! k = Some p ->
       exists json_point,
         structure !! k = Some json_point
         /\ py_getitem json_point "X" ≫= np_array_float = Ok (coord p)
         /\ py_getitem json_point "color" ≫= np_array_int = Ok (color p)
         /\ py_getitem json_point "landmarkId" ≫= py_int = Ok (id p)
         /\ scalars p = [].
Proof.
  induction structure as [|json_point structure IH]; intros points Hp.
  - injection Hp as <-. split; [reflexivity|]. intros k p Hk. discriminate Hk.
  - cbn [_parse_points_loop] in Hp.
    destruct (py_getitem json_point "X" ≫= np_array_float) as [c|] eqn:Ec;
      [|discriminate Hp].
    cbn [mbind result_bind Py.bind] in Hp.
    destruct (py_getitem json_point "color" ≫= np_array_int) as [col|] eqn:Ecol;
      [|discriminate Hp].
    cbn [mbind result_bind Py.bind] in Hp.
    destruct (py_getitem json_point "landmarkId" ≫= py_int) as [i|] eqn:Ei;
      [|discriminate Hp].
    cbn [mbind result_bind Py.bind] in Hp.
    destruct (_parse_points_loop structure) as [rest|] eqn:Er; [|discriminate Hp].
    cbn [mbind result_bind Py.bind] in Hp. injection Hp as <-.
    destruct (IH rest eq_refl) as [Hlen Hk].
    split; [simpl; now rewrite Hlen|].
    intros [|k] p Hp; simpl in Hp.
    + injection Hp as <-. exists json_point. repeat split; assumption.
    + exact (Hk k p Hp).
Qed.

Lemma _parse_points_loop_raises structure json_point :
  In json_point structure ->
  (exists e, py_getitem json_point "X" ≫= np_array_float = Raise e)
  \/ (exists e, py_getitem json_point "color" ≫= np_array_int = Raise e)
  \/ (exists e, py_getitem json_point "landmarkId" ≫= py_int = Raise e) ->
  exists e, _parse_points_loop structure = Raise e.
Proof.
  intros Hin Hbad.
  destruct (_parse_points_loop structure) as [points|e] eqn:Hp; [|eauto].
  exfalso. destruct (_parse_points_loop_inv _ _ Hp) as [Hlen Hk].
  apply list_elem_of_In, list_elem_of_lookup in Hin as [k Hjp].
  destruct (lookup_lt_is_Some_2 points k) as [p Hpk].
  { rewrite Hlen. apply lookup_lt_is_Some. eauto. }
  destruct (Hk k p Hpk) as (jp & Hjp' & HX & Hcol & Hid & _).
  assert (jp = json_point) by congruence. subst jp.
  destruct Hbad as [[e He] | [[e He] | [e He]]]; congruence.
Qed.

(** X10. The points of an SfM document follow its [structure]: without
    the key, [_parse_points_from_json_data] reports one error and returns
    no points; with a list under the key and the parse accepted, nothing is
    reported, there is one point for each element, in their order, with the
    [X], [color] and [landmarkId] of its element and no scalars. An element
    that lacks one of the three, or holds a value that cannot be converted,
    makes the parse raise without a report. The index map of the cameras
    does not enter the result. *)
Theorem points_follow_structure (d : gmap string json) index op :
  (d !! "structure" = None ->
   _parse_points_from_json_data (JObj d) index op
   = ((op ++ [(ERROR, FORMAT_ERROR_STRUCTURE)])%list, Ok []))
  /\ (forall structure op' points,
        d !! "structure" = Some (JArr structure) ->
        _parse_points_from_json_data (JObj d) index op = (op', Ok points) ->
        op' = op
        /\ length points = length structure
        /\ forall k p,
             points !! k = Some p ->
             exists json_point,
               structure !! k = Some json_point
               /\ py_getitem json_point "X" ≫= np_array_float = Ok (coord p)
               /\ py_getitem json_point "color" ≫= np_array_int
                  = Ok (color p)
               /\ py_getitem json_point "landmarkId" ≫= py_int = Ok (id p)
               /\ scalars p = [])
  /\ (forall structure json_point,
        d !! "structure" = Some (JArr structure) ->
        In json_point structure ->
        (exists e, py_getitem json_point "X" ≫= np_array_float = Raise e)
        \/ (exists e, py_getitem json_point "color" ≫= np_array_int = Raise e)
        \/ (exists e, py_getitem json_point "landmarkId" ≫= py_int = Raise e) ->
        exists e,
          _parse_points_from_json_data (JObj d) index op = (op, Raise e))
  /\ forall index',
       _parse_points_from_json_data (JObj d) index' op
       = _parse_points_from_json_data (JObj d) index op.
Proof.
  split; [|split; [|split]].
  - intros Hd. unfold _parse_points_from_json_data.
    rewrite py_in_JObj, (bool_decide_lookup_None _ _ Hd). reflexivity.
  - intros structure op' points Hd Hp. unfold _parse_points_from_json_data in Hp.
    rewrite py_in_JObj, (bool_decide_lookup_Some _ _ _ Hd) in Hp.
    rewrite lift_bind in Hp. unfold py_getitem at 1 in Hp. rewrite Hd in Hp.
    cbn [of_option mbind result_bind Py.bind py_iter] in Hp.
    rewrite lift_bind in Hp. unfold lift in Hp.
    injection Hp as <- Hp. split; [reflexivity|].
    exact (_parse_points_loop_inv _ _ Hp).
  - intros structure json_point Hd Hin Hbad.
    destruct (_parse_points_loop_raises _ _ Hin Hbad) as [e He].
    exists e. unfold _parse_points_from_json_data.
    rewrite py_in_JObj, (bool_decide_lookup_Some _ _ _ Hd).
    rewrite lift_bind. unfold py_getitem at 1. rewrite Hd.
    cbn [of_option mbind result_bind Py.bind py_iter].
    rewrite lift_bind. unfold lift. now rewrite He.
  - reflexivity.
Qed.

Lemma parse_cameras_invalid (d : gmap string json) dp fpt suppress op :
  d !! "views" = None \/ d !! "intrinsics" = None \/ d !! "poses" = None ->
  _parse_cameras_from_json_data (JObj d) dp fpt suppress op
  = ((op ++ [(ERROR, FORMAT_ERROR_CAMERAS)])%list, Ok ([], ∅)).
Proof.
  intros Hd. unfold _parse_cameras_from_json_data.
  rewrite !py_in_JObj. unfold and_then.
  destruct Hd as [Hd | [Hd | Hd]];
    rewrite (bool_decide_lookup_None _ _ Hd);
    repeat match goal with
           | |- context [bool_decide ?P] => destruct (bool_decide P)
           end;
    reflexivity.
Qed.

(** X11. An SfM file whose document has [structure] but lacks one of
    [views], [intrinsics] and [poses] is not refused: [parse_sfm_file]
    reports the format error of the cameras between its opening and closing
    lines and returns no cameras with the points of [structure]. When the
    file does not exist, the two opening lines are reported and
    [FileNotFoundError] is raised. *)
Theorem sfm_file_without_cameras (fs : gmap string (option json))
    sfm_ifp image_idp image_fp_type suppress op :
  (forall (d : gmap string json) structure points,
     fs !! sfm_ifp = Some (Some (JObj d)) ->
     d !! "views" = None \/ d !! "intrinsics" = None \/ d !! "poses" = None ->
     d !! "structure" = Some (JArr structure) ->
     _parse_points_loop structure = Ok points ->
     parse_sfm_file fs sfm_ifp image_idp image_fp_type suppress op
     = ((op ++ [(INFO, "parse_sfm_file: ...");
                (INFO, ("sfm_ifp: " ++ sfm_ifp)%string);
                (ERROR, FORMAT_ERROR_CAMERAS);
                (INFO, "parse_sfm_file: Done")])%list,
        Ok ([], points)))
  /\ (fs !! sfm_ifp = None ->
      parse_sfm_file fs sfm_ifp image_idp image_fp_type suppress op
      = ((op ++ [(INFO, "parse_sfm_file: ...");
                 (INFO, ("sfm_ifp: " ++ sfm_ifp)%string)])%list,
         Raise FileNotFoundError)).
Proof.
  split.
  - intros d structure points Hfs Hd Hs Hp. unfold parse_sfm_file.
    rewrite !log_report_bind. rewrite lift_bind. unfold json_load.
    rewrite Hfs. rewrite Op_bind_eq.
    rewrite (parse_cameras_invalid d image_idp image_fp_type suppress _ Hd).
    rewrite py_in_JObj, (bool_decide_lookup_Some _ _ _ Hs).
    rewrite lift_bind. rewrite Op_bind_eq.
    unfold _parse_points_from_json_data.
    rewrite py_in_JObj, (bool_decide_lookup_Some _ _ _ Hs).
    rewrite lift_bind. unfold py_getitem at 1. rewrite Hs.
    cbn [of_option mbind result_bind Py.bind py_iter].
    rewrite lift_bind. unfold lift. rewrite Hp.
    rewrite log_report_bind. unfold mret, Op_ret, op_ret.
    rewrite <- !app_assoc. reflexivity.
  - intros Hfs. unfold parse_sfm_file.
    rewrite !log_report_bind. rewrite lift_bind. unfold json_load.
    rewrite Hfs. rewrite <- app_assoc. reflexivity.
Qed.
End Meshroom_points.

(** Concatenation of strings. *)
Lemma string_app_cons c (a b : string) :
  (String c a ++ b)%string = String c (a ++ b)%string.
Proof. reflexivity. Qed.

Lemma string_app_nil_l (b : string) : ("" ++ b)%string = b.
Proof. reflexivity. Qed.

Lemma string_app_assoc (a b c : string) :
  ((a ++ b) ++ c)%string = (a ++ (b ++ c))%string.
Proof.
  induction a as [|x a IH]; [reflexivity|].
  now rewrite !string_app_cons, IH.
Qed.

Lemma string_app_nil_r (a : string) : (a ++ "")%string = a.
Proof.
  induction a as [|x a IH]; [reflexivity|]. now rewrite string_app_cons, IH.
Qed.

Section Meshroom_project.
Context `{FL : PyFloat} `{!MeshroomLib}.
Import MeshroomFileHandler.

(** The file names of [fn_or_fn_list]. *)
Lemma _get_data_fp_loop_inv (fs : gmap string (option json)) cache_dp
    node_type uid_0 fn_list :
  (forall fp,
     _get_data_fp_loop fs cache_dp node_type uid_0 fn_list = Ok (Some fp) ->
     isfile fs fp = true
     /\ exists nt uid fn,
          node_type = JStr nt /\ uid_0 = JStr uid /\ In fn fn_list
          /\ fp = path_join cache_dp [nt; uid; fn])
  /\ (_get_data_fp_loop fs cache_dp node_type uid_0 fn_list = Ok None ->
      forall nt uid fn,
        node_type = JStr nt -> uid_0 = JStr uid -> In fn fn_list ->
        isfile fs (path_join cache_dp [nt; uid; fn]) = false).
Proof.
  induction fn_list as [|fn fn_list [IHs IHn]].
  - split; [intros fp Hl; discriminate Hl|]. intros _ nt uid fn _ _ [].
  - cbn [_get_data_fp_loop].
    destruct node_type as [| | | |nt| |];
      try (split; intros; discriminate).
    destruct uid_0 as [| | | |uid| |];
      try (split; intros; discriminate).
    cbn [py_path mbind result_bind Py.bind].
    destruct (isfile fs (path_join cache_dp [nt; uid; fn])) eqn:Ef.
    + split; [|intros Hl; discriminate Hl].
      intros fp [= <-]. split; [exact Ef|].
      exists nt, uid, fn. repeat split. now left.
    + split.
      * intros fp Hl. destruct (IHs fp Hl) as (Hf & nt' & uid' & fn' & Hnt & Hu & Hin & Hfp).
        split; [exact Hf|]. exists nt', uid', fn'. repeat split; try assumption.
        now right.
      * intros Hl nt' uid' fn' [= <-] [= <-] [<- | Hin]; [exact Ef|].
        now apply (IHn Hl nt uid fn').
Qed.

Lemma _get_node_silent (g : gmap string json) node_type node_number op op' r :
  _get_node g node_type node_number op = (op', Ok r) -> op' = op.
Proof.
  unfold _get_node.
  destruct (node_number =? -1); [unfold lift; now intros [= <- _]|].
  destruct (bool_decide _); [unfold lift; now intros [= <- _]|].
  rewrite log_report_bind. unfold lift. intros Hn. discriminate Hn.
Qed.

Lemma node_data_fp_is_cache_file_aux (fs : gmap string (option json))
    cache_dp (g : gmap string json) node_type node_number fn_or_fn_list op :
  forall op' r,
    _get_node_data_fp fs cache_dp g node_type node_number fn_or_fn_list op
    = (op', Ok r) ->
    op' = op
    /\ exists data_node,
         _get_node g node_type node_number op = (op, Ok data_node)
         /\ match r, data_node with
            | Some fp, Some node =>
                isfile fs fp = true
                /\ exists nt uid fn,
                     py_getitem node "nodeType" = Ok (JStr nt)
                     /\ (uids ← py_getitem node "uids"; py_getitem uids "0")
                        = Ok (JStr uid)
                     /\ In fn (match fn_or_fn_list with
                               | inl fn => [fn] | inr fn_list => fn_list end)
                     /\ fp = path_join cache_dp [nt; uid; fn]
            | Some _, None => False
            | None, Some node =>
                forall nt uid fn,
                  py_getitem node "nodeType" = Ok (JStr nt) ->
                  (uids ← py_getitem node "uids"; py_getitem uids "0")
                  = Ok (JStr uid) ->
                  In fn (match fn_or_fn_list with
                         | inl fn => [fn] | inr fn_list => fn_list end) ->
                  isfile fs (path_join cache_dp [nt; uid; fn]) = false
            | None, None => True
            end.
Proof.
  intros op' r Hfp. unfold _get_node_data_fp in Hfp.
  rewrite Op_bind_eq in Hfp.
  destruct (_get_node g node_type node_number op) as [op1 [data_node|e]] eqn:En;
    [|discriminate Hfp].
  pose proof (_get_node_silent _ _ _ _ _ _ En) as ->.
  unfold lift in Hfp. injection Hfp as <- Hfp. split; [reflexivity|].
  exists data_node. split; [reflexivity|].
  destruct data_node as [node|]; [|now injection Hfp as <-].
  assert (Hnode : node = JNull
                  \/ _get_data_fp_of_node fs cache_dp (Some node) fn_or_fn_list
                     = (node_type ← py_getitem node "nodeType";
                        uid_0 ← (uids ← py_getitem node "uids";
                                 py_getitem uids "0");
                        _get_data_fp_loop fs cache_dp node_type uid_0
                          match fn_or_fn_list with
                          | inl fn => [fn]
                          | inr fn_list => fn_list
                          end)).
  { destruct node; [left | right ..]; reflexivity. }
  destruct Hnode as [-> | Hnode].
  { injection Hfp as <-. intros nt uid fn Hnt. discriminate Hnt. }
  rewrite Hnode in Hfp. clear Hnode.
  destruct (py_getitem node "nodeType") as [ntj|] eqn:Ent; [|discriminate Hfp].
  cbn [mbind result_bind Py.bind] in Hfp.
  destruct (py_getitem node "uids" ≫= (fun uids => py_getitem uids "0"))
    as [uidj|] eqn:Eu; [|discriminate Hfp].
  cbn [mbind result_bind Py.bind] in Hfp.
  destruct (_get_data_fp_loop_inv fs cache_dp ntj uidj
              (match fn_or_fn_list with
               | inl fn => [fn] | inr fn_list => fn_list end)) as [Hs Hn].
  destruct r as [fp|].
  - destruct (Hs fp Hfp) as (Hf & nt & uid & fn & -> & -> & Hin & ->).
    split; [exact Hf|]. exists nt, uid, fn. repeat split. exact Hin.
  - intros nt uid fn [= ->] [= ->] Hin. now apply (Hn Hfp nt uid fn).
Qed.

(** X12. A path [_get_node_data_fp] returns is an existing file: the
    node was found, and the path joins the cache directory, the [nodeType]
    the node itself declares, its first uid and one of the candidate file
    names. A lookup that returns reports nothing; when it returns [None]
    for a node with these two strings, none of the candidates exists. A
    node number other than -1 whose key is in the graph selects the node
    under that key, also when later instances exist. *)
Theorem node_data_fp_is_cache_file (fs : gmap string (option json)) cache_dp
    (g : gmap string json) node_type node_number fn_or_fn_list op :
  (  forall op' r,
     _get_node_data_fp fs cache_dp g node_type node_number fn_or_fn_list op
     = (op', Ok r) ->
     op' = op
     /\ exists data_node,
          _get_node g node_type node_number op = (op, Ok data_node)
          /\ match r, data_node with
             | Some fp, Some node =>
                 isfile fs fp = true
                 /\ exists nt uid fn,
                      py_getitem node "nodeType" = Ok (JStr nt)
                      /\ (uids ← py_getitem node "uids"; py_getitem uids "0")
                         = Ok (JStr uid)
                      /\ In fn (match fn_or_fn_list with
                                | inl fn => [fn] | inr fn_list => fn_list end)
                      /\ fp = path_join cache_dp [nt; uid; fn]
             | Some _, None => False
             | None, Some node =>
                 forall nt uid fn,
                   py_getitem node "nodeType" = Ok (JStr nt) ->
                   (uids ← py_getitem node "uids"; py_getitem uids "0")
                   = Ok (JStr uid) ->
                   In fn (match fn_or_fn_list with
                          | inl fn => [fn] | inr fn_list => fn_list end) ->
                   isfile fs (path_join cache_dp [nt; uid; fn]) = false
             | None, None => True
             end)
  /\ (forall node,
        node_number <> -1 ->
        g !! node_key node_type node_number = Some node ->
        _get_node g node_type node_number op = (op, Ok (Some node))).
Proof.
  split; [apply node_data_fp_is_cache_file_aux|].
  intros node Hnum Hnode. unfold _get_node.
  apply Z.eqb_neq in Hnum. rewrite Hnum.
  rewrite (bool_decide_lookup_Some _ _ _ Hnode), Hnode. reflexivity.
Qed.

(** The node [_get_node] returns is the selected one. *)
Lemma _get_node_inv (g : gmap string json) node_type node_number op op' node :
  _get_node g node_type node_number op = (op', Ok (Some node)) ->
  selected_node g node_type node_number node.
Proof.
  unfold _get_node, selected_node. destruct (node_number =? -1) eqn:En.
  - apply Z.eqb_eq in En. subst node_number. unfold lift. intros [= _ Hl].
    left. split; [reflexivity|].
    unfold _get_latest_node in Hl.
    destruct (latest_loop_exits (S (size g)) g node_type 0) as (H1 & H2 & H3);
      [lia | intros j Hj; lia | simpl; lia |].
    set (r := _get_latest_node_loop (S (size g)) g node_type 0) in *.
    destruct (r =? 0) eqn:Er; [discriminate Hl|]. apply Z.eqb_neq in Er.
    destruct (g !! node_key node_type r) as [n|] eqn:Eg; [|discriminate Hl].
    simpl in Hl. injection Hl as <-. exists r.
    split; [lia|]. split; [exact H2|]. split; [exact H3 | exact Eg].
  - apply Z.eqb_neq in En. destruct (bool_decide _).
    + unfold lift. intros [= _ Hl]. right. split; [exact En|].
      destruct (g !! node_key node_type node_number); [|discriminate Hl].
      simpl in Hl. now injection Hl as <-.
    + rewrite log_report_bind. unfold lift. intros Hn. discriminate Hn.
Qed.

(** Joining components none of which begins with a slash extends the
    path. *)
Lemma path_join_relative l : forall a,
  Forall (fun b => startswith_sep b = false) l ->
  exists rest, path_join a l = (a ++ rest)%string.
Proof.
  unfold path_join. induction l as [|b l IH]; intros a Hl.
  - exists "". cbn [fold_left]. now rewrite string_app_nil_r.
  - apply Forall_cons_iff in Hl as [Hb Hl]. cbn [fold_left]. rewrite Hb.
    destruct (is_empty a || endswith_sep a).
    + destruct (IH (a ++ b)%string Hl) as [rest ->].
      exists (b ++ rest)%string. now rewrite string_app_assoc.
    + destruct (IH (a ++ "/" ++ b)%string Hl) as [rest ->].
      exists ("/" ++ b ++ rest)%string. now rewrite !string_app_assoc.
Qed.

(** The lookups of [parse_meshrom_mg_file]: a returned path is a cache
    file of the selected node of a graph that is a dict, and nothing is
    reported. *)
Lemma _get_node_data_fp_of_graph_inv (fs : gmap string (option json))
    cache_dp json_graph node_type node_number fn_or_fn_list op op' r :
  Forall (fun fn => startswith_sep fn = false)
    (match fn_or_fn_list with inl fn => [fn] | inr l => l end) ->
  _get_node_data_fp_of_graph fs cache_dp json_graph node_type node_number
    fn_or_fn_list op = (op', Ok r) ->
  op' = op
  /\ forall fp,
       r = Some fp ->
       exists g node,
         json_graph = JObj g
         /\ selected_node g node_type node_number node
         /\ node_file fs cache_dp node
              (match fn_or_fn_list with inl fn => [fn] | inr l => l end) fp.
Proof.
  intros Hrel Hg.
  assert (Hother :
            (data_node ← _get_node_no_dict json_graph node_type node_number;
             lift (_get_data_fp_of_node fs cache_dp data_node fn_or_fn_list))
              op = (op', Ok r) ->
            op' = op /\ forall fp, r = Some fp -> False).
  { clear Hg. intros Hn. rewrite Op_bind_eq in Hn. unfold _get_node_no_dict in Hn.
    destruct (node_number =? -1).
    - rewrite lift_bind in Hn.
      destruct (py_in _ json_graph) as [[|]|]; try discriminate Hn.
      unfold mret, Op_ret, op_ret, lift, _get_data_fp_of_node in Hn.
      injection Hn as <- <-. split; [reflexivity|]. intros fp Hfp. discriminate Hfp.
    - rewrite lift_bind in Hn.
      destruct (py_in _ json_graph) as [[|]|]; try discriminate Hn. }
  destruct json_graph as [| | | | | |g]; cbn [_get_node_data_fp_of_graph] in Hg;
    try (destruct (Hother Hg) as [-> Hno]; split; [reflexivity|];
         intros fp Hfp; destruct (Hno fp Hfp)).
  destruct (node_data_fp_is_cache_file_aux fs cache_dp g node_type
              node_number fn_or_fn_list op op' r Hg)
    as (-> & data_node & Hnode & Hr).
  split; [reflexivity|]. intros fp ->.
  destruct data_node as [node|]; [|destruct Hr].
  destruct Hr as (Hf & nt & uid & fn & Hnt & Huid & Hin & ->).
  exists g, node. split; [reflexivity|].
  split; [exact (_get_node_inv _ _ _ _ _ _ Hnode)|].
  split; [exact Hf|]. exists nt, uid, fn.
  repeat (split; [first [assumption | reflexivity]|]).
  intros Hrnt Hruid. apply path_join_relative.
  repeat (apply Forall_cons_iff; split; [assumption|]).
  apply Forall_cons_iff. split; [|apply Forall_nil_iff; exact I].
  exact (proj1 (List.Forall_forall _ _) Hrel fn Hin).
Qed.
End Meshroom_project.

Section Meshroom_project_file.
Context `{FL : PyFloat} `{!MeshroomLib}.
Import MeshroomFileHandler.

Lemma _select_sfm_fp_inv (fs : gmap string (option json)) cache_dp json_graph
    sfm_node_type sfm_node_number op op' r :
  _select_sfm_fp fs cache_dp json_graph sfm_node_type sfm_node_number op
  = (op', Ok r) ->
  op' = op
  /\ forall fp,
       r = Some fp ->
       exists g node_type names node,
         json_graph = JObj g
         /\ sfm_node_files sfm_node_type node_type names
         /\ selected_node g node_type sfm_node_number node
         /\ node_file fs cache_dp node names fp.
Proof.
  assert (Hone : forall node_type fns op0 op1 r0,
            (sfm_node_files sfm_node_type node_type
               (match fns with inl fn => [fn] | inr l => l end)) ->
            _get_node_data_fp_of_graph fs cache_dp json_graph node_type
              sfm_node_number fns op0 = (op1, Ok r0) ->
            op1 = op0
            /\ forall fp,
                 r0 = Some fp ->
                 exists g node_type names node,
                   json_graph = JObj g
                   /\ sfm_node_files sfm_node_type node_type names
                   /\ selected_node g node_type sfm_node_number node
                   /\ node_file fs cache_dp node names fp).
  { intros node_type fns op0 op1 r0 Hfiles Hg.
    apply _get_node_data_fp_of_graph_inv in Hg as [-> Hfp].
    - split; [reflexivity|]. intros fp Hr.
      destruct (Hfp fp Hr) as (g & node & Hgraph & Hsel & Hfile).
      now exists g, node_type,
        (match fns with inl fn => [fn] | inr l => l end), node.
    - destruct Hfiles as [(_ & -> & _) | (_ & -> & _)];
        repeat (apply Forall_cons_iff; split; [reflexivity|]);
        apply Forall_nil_iff; exact I. }
  unfold _select_sfm_fp. intros Hs.
  destruct (String.eqb sfm_node_type "ConvertSfMFormatNode") eqn:E1.
  { apply String.eqb_eq in E1. apply Hone in Hs; [exact Hs|].
    left. repeat split. now left. }
  destruct (String.eqb sfm_node_type "StructureFromMotionNode") eqn:E2.
  { apply String.eqb_eq in E2. apply Hone in Hs; [exact Hs|].
    right. repeat split. now left. }
  destruct (String.eqb sfm_node_type "AUTOMATIC") eqn:E3.
  - apply String.eqb_eq in E3. rewrite Op_bind_eq in Hs.
    destruct (_get_node_data_fp_of_graph fs cache_dp json_graph
                "ConvertSfMFormat" sfm_node_number
                (inr ["sfm.sfm"; "sfm.json"]) op) as [op1 [r1|e]] eqn:Ec;
      [|discriminate Hs].
    apply Hone in Ec as [-> Hfp1]; [|left; repeat split; now right].
    destruct r1 as [fp1|].
    + injection Hs as <- <-. split; [reflexivity | exact Hfp1].
    + apply Hone in Hs; [exact Hs|]. right. repeat split. now right.
  - rewrite log_report_bind in Hs. discriminate Hs.
Qed.

Lemma _select_mesh_fp_inv (fs : gmap string (option json)) cache_dp json_graph
    mesh_node_type mesh_node_number op op' r :
  _select_mesh_fp fs cache_dp json_graph mesh_node_type mesh_node_number op
  = (op', Ok r) ->
  op' = op
  /\ forall fp,
       r = Some fp ->
       exists g node_type names node,
         json_graph = JObj g
         /\ mesh_node_files mesh_node_type node_type names
         /\ selected_node g node_type mesh_node_number node
         /\ node_file fs cache_dp node names fp.
Proof.
  assert (Hone : forall node_type fn op0 op1 r0,
            mesh_node_files mesh_node_type node_type [fn] ->
            _get_node_data_fp_of_graph fs cache_dp json_graph node_type
              mesh_node_number (inl fn) op0 = (op1, Ok r0) ->
            op1 = op0
            /\ forall fp,
                 r0 = Some fp ->
                 exists g node_type names node,
                   json_graph = JObj g
                   /\ mesh_node_files mesh_node_type node_type names
                   /\ selected_node g node_type mesh_node_number node
                   /\ node_file fs cache_dp node names fp).
  { intros node_type fn op0 op1 r0 Hfiles Hg.
    apply _get_node_data_fp_of_graph_inv in Hg as [-> Hfp].
    - split; [reflexivity|]. intros fp Hr.
      destruct (Hfp fp Hr) as (g & node & Hgraph & Hsel & Hfile).
      now exists g, node_type, [fn], node.
    - destruct Hfiles as [(_ & Hn & _) | [(_ & Hn & _) | (_ & Hn & _)]];
        injection Hn as ->;
        (apply Forall_cons_iff; split; [reflexivity|]);
        apply Forall_nil_iff; exact I. }
  unfold _select_mesh_fp. intros Hs.
  destruct (String.eqb mesh_node_type "Texturing") eqn:E1.
  { apply String.eqb_eq in E1. apply Hone in Hs; [exact Hs|].
    left. repeat split. now left. }
  destruct (String.eqb mesh_node_type "MeshFiltering") eqn:E2.
  { apply String.eqb_eq in E2. apply Hone in Hs; [exact Hs|].
    right; left. repeat split. now left. }
  destruct (String.eqb mesh_node_type "Meshing") eqn:E3.
  { apply String.eqb_eq in E3. apply Hone in Hs; [exact Hs|].
    right; right. repeat split. now left. }
  destruct (String.eqb mesh_node_type "AUTOMATIC") eqn:E4.
  - apply String.eqb_eq in E4. rewrite Op_bind_eq in Hs.
    destruct (_get_node_data_fp_of_graph fs cache_dp json_graph "Texturing"
                mesh_node_number (inl "texturedMesh.obj") op)
      as [op1 [r1|e]] eqn:Et; [|discriminate Hs].
    apply Hone in Et as [-> Hfp1]; [|left; repeat split; now right].
    rewrite Op_bind_eq in Hs.
    destruct r1 as [fp1|].
    + injection Hs as <- <-. split; [reflexivity | exact Hfp1].
    + destruct (_get_node_data_fp_of_graph fs cache_dp json_graph
                  "MeshFiltering" mesh_node_number (inl "mesh.obj") op)
        as [op2 [r2|e]] eqn:Ef; [|discriminate Hs].
      apply Hone in Ef as [-> Hfp2]; [|right; left; repeat split; now right].
      destruct r2 as [fp2|].
      * injection Hs as <- <-. split; [reflexivity | exact Hfp2].
      * apply Hone in Hs; [exact Hs|]. right; right. repeat split. now right.
  - rewrite log_report_bind in Hs. discriminate Hs.
Qed.

(** X13. What [parse_meshrom_mg_file] returns for a project file. Each of
    the two paths, when there is one, is an existing file that belongs to a
    node of the graph of the project: the node [_get_node] selects, for the
    requested number, among the nodes of a type the selector stands for
    ([ConvertSfMFormat] or [StructureFromMotion] for the SfM result;
    [Texturing], [MeshFiltering] or [Meshing] for the mesh). The path joins
    the directory [MeshroomCache] next to the project file, the [nodeType]
    and the first uid that node declares, and a file name asked for with
    that type; it begins with the path of that directory when neither of
    the two strings of the node begins with a slash. Exactly two reports are
    added, one for the SfM result and one for the mesh, both at level
    [INFO] also when nothing was found. *)
Theorem mg_file_results_are_cache_files (fs : gmap string (option json))
    mg_fp sfm_node_type sfm_node_number mesh_node_type mesh_node_number
    op op' sfm_fp mesh_fp :
  parse_meshrom_mg_file fs mg_fp sfm_node_type sfm_node_number
    mesh_node_type mesh_node_number op = (op', Ok (sfm_fp, mesh_fp)) ->
  let cache_dp := path_join (dirname mg_fp) ["MeshroomCache"] in
  op' = (op ++ [(INFO,
                 match sfm_fp with
                 | Some fp => ("Found the following sfm file: " ++ fp)%string
                 | None =>
                     "Request target SfM result does not exist in this meshroom project"
                 end);
                (INFO,
                 match mesh_fp with
                 | Some fp => ("Found the following mesh file: " ++ fp)%string
                 | None =>
                     "Request target mesh does not exist in this meshroom project"
                 end)])%list
  /\ (forall fp,
        sfm_fp = Some fp ->
        exists g node_type names node,
          (json_data ← json_load fs mg_fp; py_getitem json_data "graph")
          = Ok (JObj g)
          /\ sfm_node_files sfm_node_type node_type names
          /\ selected_node g node_type sfm_node_number node
          /\ node_file fs cache_dp node names fp)
  /\ (forall fp,
        mesh_fp = Some fp ->
        exists g node_type names node,
          (json_data ← json_load fs mg_fp; py_getitem json_data "graph")
          = Ok (JObj g)
          /\ mesh_node_files mesh_node_type node_type names
          /\ selected_node g node_type mesh_node_number node
          /\ node_file fs cache_dp node names fp).
Proof.
  intros Hp cache_dp. unfold parse_meshrom_mg_file in Hp. fold cache_dp in Hp.
  rewrite lift_bind in Hp.
  destruct (json_load fs mg_fp) as [json_data|]; [|discriminate Hp].
  rewrite lift_bind in Hp. cbn [mbind result_bind Py.bind].
  destruct (py_getitem json_data "graph") as [json_graph|]; [|discriminate Hp].
  rewrite Op_bind_eq in Hp.
  destruct (_select_sfm_fp fs cache_dp json_graph sfm_node_type
              sfm_node_number op) as [op1 [r1|e]] eqn:E1; [|discriminate Hp].
  apply _select_sfm_fp_inv in E1 as [-> Hsfm].
  rewrite Op_bind_eq in Hp.
  destruct (_select_mesh_fp fs cache_dp json_graph mesh_node_type
              mesh_node_number op) as [op2 [r2|e]] eqn:E2; [|discriminate Hp].
  apply _select_mesh_fp_inv in E2 as [-> Hmesh].
  assert (Hr : op' = (op ++ [(INFO,
                 match r1 with
                 | Some fp => ("Found the following sfm file: " ++ fp)%string
                 | None =>
                     "Request target SfM result does not exist in this meshroom project"
                 end);
                (INFO,
                 match r2 with
                 | Some fp => ("Found the following mesh file: " ++ fp)%string
                 | None =>
                     "Request target mesh does not exist in this meshroom project"
                 end)])%list
               /\ sfm_fp = r1 /\ mesh_fp = r2).
  { destruct r1, r2; rewrite !log_report_bind in Hp;
      unfold mret, Op_ret, op_ret in Hp; injection Hp as <- <- <-;
      rewrite <- app_assoc; repeat split. }
  destruct Hr as (-> & -> & ->). split; [reflexivity|]. split.
  - intros fp Hfp.
    destruct (Hsfm fp Hfp) as (g & node_type & names & node & -> & Hrest).
    now exists g, node_type, names, node.
  - intros fp Hfp.
    destruct (Hmesh fp Hfp) as (g & node_type & names & node & -> & Hrest).
    now exists g, node_type, names, node.
Qed.

(** X14. The failures of [parse_meshrom_mg_file] come in the order of
    the code: a missing project file raises [FileNotFoundError] and a
    project without [graph] raises [KeyError], both without a report and
    whatever the selectors are; then an SfM selector other than the three
    names is reported and raises [AssertionError]; and a mesh selector
    other than the four names is reported and raises [AssertionError] only
    after the SfM lookup has returned. *)
Theorem mg_file_failures (fs : gmap string (option json))
    mg_fp sfm_node_type sfm_node_number mesh_node_type mesh_node_number op :
  let cache_dp := path_join (dirname mg_fp) ["MeshroomCache"] in
  (fs !! mg_fp = None ->
   parse_meshrom_mg_file fs mg_fp sfm_node_type sfm_node_number
     mesh_node_type mesh_node_number op = (op, Raise FileNotFoundError))
  /\ (forall d : gmap string json,
        fs !! mg_fp = Some (Some (JObj d)) ->
        d !! "graph" = None ->
        parse_meshrom_mg_file fs mg_fp sfm_node_type sfm_node_number
          mesh_node_type mesh_node_number op = (op, Raise KeyError))
  /\ (forall (d : gmap string json) json_graph,
        fs !! mg_fp = Some (Some (JObj d)) ->
        d !! "graph" = Some json_graph ->
        sfm_node_type <> "ConvertSfMFormatNode" ->
        sfm_node_type <> "StructureFromMotionNode" ->
        sfm_node_type <> "AUTOMATIC" ->
        parse_meshrom_mg_file fs mg_fp sfm_node_type sfm_node_number
          mesh_node_type mesh_node_number op
        = ((op ++ [(ERROR, "Select SfM node is not supported")])%list,
           Raise AssertionError))
  /\ (forall (d : gmap string json) json_graph op1 sfm_fp,
        fs !! mg_fp = Some (Some (JObj d)) ->
        d !! "graph" = Some json_graph ->
        _select_sfm_fp fs cache_dp json_graph sfm_node_type sfm_node_number op
        = (op1, Ok sfm_fp) ->
        mesh_node_type <> "Texturing" ->
        mesh_node_type <> "MeshFiltering" ->
        mesh_node_type <> "Meshing" ->
        mesh_node_type <> "AUTOMATIC" ->
        parse_meshrom_mg_file fs mg_fp sfm_node_type sfm_node_number
          mesh_node_type mesh_node_number op
        = ((op ++ [(ERROR, "Select Mesh node is not supported")])%list,
           Raise AssertionError)).
Proof.
  intros cache_dp. unfold parse_meshrom_mg_file. fold cache_dp.
  split; [|split; [|split]].
  - intros Hfs. rewrite lift_bind. unfold json_load. now rewrite Hfs.
  - intros d Hfs Hd. rewrite lift_bind. unfold json_load. rewrite Hfs.
    rewrite lift_bind. unfold py_getitem. now rewrite Hd.
  - intros d json_graph Hfs Hd H1 H2 H3.
    rewrite lift_bind. unfold json_load. rewrite Hfs.
    rewrite lift_bind. unfold py_getitem. rewrite Hd. cbn [of_option].
    rewrite Op_bind_eq. unfold _select_sfm_fp.
    apply String.eqb_neq in H1, H2, H3. rewrite H1, H2, H3.
    rewrite log_report_bind. reflexivity.
  - intros d json_graph op1 sfm_fp Hfs Hd Hsel H1 H2 H3 H4.
    rewrite lift_bind. unfold json_load. rewrite Hfs.
    rewrite lift_bind. unfold py_getitem. rewrite Hd. cbn [of_option].
    rewrite Op_bind_eq, Hsel.
    apply _select_sfm_fp_inv in Hsel as [-> _].
    rewrite Op_bind_eq. unfold _select_mesh_fp.
    apply String.eqb_neq in H1, H2, H3, H4. rewrite H1, H2, H3, H4.
    rewrite log_report_bind. reflexivity.
Qed.

(** X15. With the SfM selector [AUTOMATIC], the two node types are tried
    with the same node number. For a number other than -1 the
    [ConvertSfMFormat] node of that number must be in the graph: without it
    the call reports the invalid combination and raises [AssertionError],
    whatever [StructureFromMotion] nodes the graph holds. For the number -1
    and a graph without [ConvertSfMFormat_1] the [StructureFromMotion]
    lookup alone decides. *)
Theorem automatic_sfm_selection (fs : gmap string (option json)) mg_fp
    (d g : gmap string json) mesh_node_type mesh_node_number op :
  fs !! mg_fp = Some (Some (JObj d)) ->
  d !! "graph" = Some (JObj g) ->
  (forall sfm_node_number,
     sfm_node_number <> -1 ->
     g !! node_key "ConvertSfMFormat" sfm_node_number = None ->
     parse_meshrom_mg_file fs mg_fp "AUTOMATIC" sfm_node_number
       mesh_node_type mesh_node_number op
     = ((op ++ [(ERROR,
                 invalid_node_message "ConvertSfMFormat" sfm_node_number)])%list,
        Raise AssertionError))
  /\ (g !! node_key "ConvertSfMFormat" 1 = None ->
      forall cache_dp,
        _select_sfm_fp fs cache_dp (JObj g) "AUTOMATIC" (-1) op
        = _get_node_data_fp fs cache_dp g "StructureFromMotion" (-1)
            (inl "cameras.sfm") op).
Proof.
  intros Hfs Hd. split.
  - intros n Hn Hg. unfold parse_meshrom_mg_file.
    rewrite lift_bind. unfold json_load. rewrite Hfs.
    rewrite lift_bind. unfold py_getitem. rewrite Hd. cbn [of_option].
    rewrite Op_bind_eq.
    unfold _select_sfm_fp. cbn [String.eqb Ascii.eqb Bool.eqb].
    rewrite Op_bind_eq. cbn [_get_node_data_fp_of_graph].
    unfold _get_node_data_fp at 1. rewrite Op_bind_eq.
    unfold _get_node. apply Z.eqb_neq in Hn. rewrite Hn.
    rewrite (bool_decide_lookup_None _ _ Hg).
    rewrite log_report_bind. reflexivity.
  - intros Hg cache_dp. unfold _select_sfm_fp.
    cbn [String.eqb Ascii.eqb Bool.eqb].
    rewrite Op_bind_eq. cbn [_get_node_data_fp_of_graph].
    unfold _get_node_data_fp at 1. rewrite Op_bind_eq.
    unfold _get_node at 1. cbn [Z.eqb Pos.eqb].
    rewrite (_get_latest_node_never_run g "ConvertSfMFormat" Hg).
    reflexivity.
Qed.

(** X16. [parse_meshroom_file] decides by the lower-cased extension of
    the path alone. An extension other than [.mg], [.json] and [.sfm] fails
    the assertion after the two opening reports, whatever the files are.
    For [.json] and [.sfm], in any case, the path itself is parsed as an
    SfM file, the node selectors are not looked at, and no mesh path is
    returned. *)
Theorem meshroom_file_extension meshroom_ifp image_dp image_fp_type suppress
    sfm_node_type sfm_node_number mesh_node_type mesh_node_number op :
  let ext := lower (splitext_ext meshroom_ifp) in
  let opened :=
    (op ++ [(INFO, "parse_meshroom_file: ...");
            (INFO, ("meshroom_ifp: " ++ meshroom_ifp)%string)])%list in
  (ext <> ".mg" -> ext <> ".json" -> ext <> ".sfm" ->
   forall fs,
     parse_meshroom_file fs meshroom_ifp image_dp image_fp_type suppress
       sfm_node_type sfm_node_number mesh_node_type mesh_node_number op
     = (opened, Raise AssertionError))
  /\ (ext = ".json" \/ ext = ".sfm" ->
      forall fs,
        parse_meshroom_file fs meshroom_ifp image_dp image_fp_type suppress
          sfm_node_type sfm_node_number mesh_node_type mesh_node_number op
        = match parse_sfm_file fs meshroom_ifp image_dp image_fp_type
                  suppress opened with
          | (op', Ok (cams, points)) =>
              ((op' ++ [(INFO, "parse_meshroom_file: Done")])%list,
               Ok (cams, points, None))
          | (op', Raise e) => (op', Raise e)
          end).
Proof.
  intros ext opened. split.
  - intros H1 H2 H3 fs. apply String.eqb_neq in H1, H2, H3.
    unfold parse_meshroom_file. fold ext.
    rewrite !log_report_bind. rewrite <- app_assoc. cbn [app]. fold opened.
    rewrite Op_bind_eq, H1, lift_bind, H2, H3. reflexivity.
  - intros Hext fs.
    unfold parse_meshroom_file. fold ext.
    rewrite !log_report_bind. rewrite <- app_assoc. cbn [app]. fold opened.
    assert (Hmg : String.eqb ext ".mg" = false)
      by (destruct Hext as [-> | ->]; reflexivity).
    assert (Hok : String.eqb ext ".json" || String.eqb ext ".sfm" = true)
      by (destruct Hext as [-> | ->]; reflexivity).
    rewrite Op_bind_eq, Hmg, lift_bind, Hok.
    cbn [assert]. unfold mret at 1, Op_ret, op_ret. rewrite Op_bind_eq.
    unfold opened.
    destruct (parse_sfm_file fs meshroom_ifp image_dp image_fp_type suppress _)
      as [op1 [[cams points]|e]]; reflexivity.
Qed.

(** X17. A project file ([.mg]) whose graph has no first instance of any
    of the five node types is not an error with the selectors [AUTOMATIC]
    and the node numbers -1: the result has no cameras, no points and no
    mesh path, and one warning is reported after the two [INFO] lines on
    the missing results. *)
Theorem project_without_results (fs : gmap string (option json))
    meshroom_ifp (d g : gmap string json) image_dp image_fp_type suppress op :
  lower (splitext_ext meshroom_ifp) = ".mg" ->
  fs !! meshroom_ifp = Some (Some (JObj d)) ->
  d !! "graph" = Some (JObj g) ->
  g !! node_key "ConvertSfMFormat" 1 = None ->
  g !! node_key "StructureFromMotion" 1 = None ->
  g !! node_key "Texturing" 1 = None ->
  g !! node_key "MeshFiltering" 1 = None ->
  g !! node_key "Meshing" 1 = None ->
  parse_meshroom_file fs meshroom_ifp image_dp image_fp_type suppress
    "AUTOMATIC" (-1) "AUTOMATIC" (-1) op
  = ((op ++ [(INFO, "parse_meshroom_file: ...");
             (INFO, ("meshroom_ifp: " ++ meshroom_ifp)%string);
             (INFO,
              "Request target SfM result does not exist in this meshroom project");
             (INFO,
              "Request target mesh does not exist in this meshroom project");
             (WARNING, "Meshroom project does not contain cameras or points");
             (INFO, "parse_meshroom_file: Done")])%list,
     Ok ([], [], None)).
Proof.
  intros Hext Hfs Hd Hc Hs Ht Hf Hm.
  assert (Hnone : forall cache_dp node_type fns op0,
            g !! node_key node_type 1 = None ->
            _get_node_data_fp_of_graph fs cache_dp (JObj g) node_type (-1)
              fns op0 = (op0, Ok None)).
  { intros cache_dp node_type fns op0 Hk. cbn [_get_node_data_fp_of_graph].
    unfold _get_node_data_fp. rewrite Op_bind_eq.
    unfold _get_node. cbn [Z.eqb Pos.eqb].
    now rewrite (_get_latest_node_never_run g node_type Hk). }
  unfold parse_meshroom_file. rewrite !log_report_bind. rewrite Hext.
  cbn [String.eqb Ascii.eqb Bool.eqb].
  rewrite Op_bind_eq. unfold parse_meshrom_mg_file.
  rewrite lift_bind. unfold json_load. rewrite Hfs.
  rewrite lift_bind. unfold py_getitem. rewrite Hd. cbn [of_option].
  rewrite Op_bind_eq. unfold _select_sfm_fp.
  cbn [String.eqb Ascii.eqb Bool.eqb].
  rewrite Op_bind_eq, (Hnone _ _ _ _ Hc), (Hnone _ _ _ _ Hs).
  rewrite Op_bind_eq. unfold _select_mesh_fp.
  cbn [String.eqb Ascii.eqb Bool.eqb].
  rewrite Op_bind_eq, (Hnone _ _ _ _ Ht).
  rewrite Op_bind_eq, (Hnone _ _ _ _ Hf), (Hnone _ _ _ _ Hm).
  unfold mbind, Op_bind, op_bind, log_report, mret, Op_ret, op_ret.
  cbv beta iota zeta. rewrite <- !app_assoc. reflexivity.
Qed.
End Meshroom_project_file.

(* ===================================================================== *)
(** * The Meshroom properties on the sample inputs *)
(* ===================================================================== *)

Lemma cameras_follow_poses_witness :
  length [Samples.first_view_camera] = length [Samples.pose "7"]
  /\ index_map_sound [Samples.first_view_camera] ({[ 7 := 0%nat ]} : gmap Z nat)
  /\ exists pre view post path,
       [Samples.view "/a/x.jpg"; Samples.view "/b/y.jpg"]
       = (pre ++ view :: post)%list
       /\ py_getitem view "path" = Ok path
       /\ MeshroomFileHandler._absolute_fp Samples.first_view_camera
          = py_str path.
Proof.
  destruct (cameras_follow_poses Samples.sfm_two_views
              (JArr [Samples.view "/a/x.jpg"; Samples.view "/b/y.jpg"])
              (JArr [Samples.intrinsic]) [Samples.pose "7"]
              None "NAME" false [] [] [Samples.first_view_camera]
              {[ 7 := 0%nat ]})
    as (Hlen & Hcam & Hsound);
    [reflexivity | reflexivity | reflexivity | reflexivity |].
  split; [exact Hlen|]. split; [exact Hsound|].
  destruct (Hcam 0%nat Samples.first_view_camera eq_refl)
    as (pose & pid & _ & _ & _
        & (view_list & pre & view & post & path & Hiter & Hlist & _ & _
           & Hpath & Habs & _) & _).
  injection Hiter as <-.
  exists pre, view, post, path. repeat split; assumption.
Defined.

Lemma distortion_check_is_the_only_report_witness :
  fst (MeshroomFileHandler._parse_cameras_from_json_data
         (JObj Samples.sfm_two_views) None "NAME" true [(INFO, "before")])
  = [(INFO, "before")]
  /\ snd (MeshroomFileHandler._parse_cameras_from_json_data
            (JObj Samples.sfm_two_views) None "NAME" false [(INFO, "before")])
     = snd (MeshroomFileHandler._parse_cameras_from_json_data
              (JObj Samples.sfm_two_views) None "NAME" true [(INFO, "before")]).
Proof.
  destruct (distortion_check_is_the_only_report Samples.sfm_two_views
              (JArr [Samples.view "/a/x.jpg"; Samples.view "/b/y.jpg"])
              (JArr [Samples.intrinsic]) (JArr [Samples.pose "7"])
              None "NAME" [(INFO, "before")])
    as (Hquiet & Hsame & _); [reflexivity | reflexivity | reflexivity |].
  split; assumption.
Defined.

Lemma radial_distortion_is_first_parameter_witness :
  MeshroomFileHandler._parse_cameras_from_json_data
    (JObj Samples.sfm_two_views) None "NAME" false []
  = ([], Ok ([Samples.first_view_camera], {[ 7 := 0%nat ]}))
  /\ exists (view intrinsic : gmap string json) id_intrinsic,
       In (JObj view) [Samples.view "/a/x.jpg"; Samples.view "/b/y.jpg"]
       /\ py_getitem (JObj view) "poseId" ≫= py_int = Ok 7
       /\ In (JObj intrinsic) [Samples.intrinsic]
       /\ py_getitem (JObj view) "intrinsicId" ≫= py_int = Ok id_intrinsic
       /\ py_getitem (JObj intrinsic) "intrinsicId" ≫= py_int = Ok id_intrinsic.
Proof.
  split; [reflexivity|].
  destruct (radial_distortion_is_first_parameter Samples.sfm_two_views
              [Samples.view "/a/x.jpg"; Samples.view "/b/y.jpg"]
              [Samples.intrinsic] [Samples.pose "7"]
              None "NAME" false [] [] [Samples.first_view_camera]
              {[ 7 := 0%nat ]}
              eq_refl eq_refl eq_refl eq_refl 0%nat Samples.first_view_camera
              eq_refl)
    as (view & intrinsic & ii & Hv & Hvid & Hi & Hvi & Hii & _).
  exists view, intrinsic, ii. repeat split; assumption.
Defined.

Lemma points_follow_structure_witness :
  MeshroomFileHandler._parse_points_from_json_data
    (JObj Samples.sfm_points_only) ∅ []
  = ([], Ok [Samples.landmark_point])
  /\ length [Samples.landmark_point] = length [Samples.landmark]
  /\ MeshroomFileHandler._parse_points_from_json_data
       (JObj Samples.sfm_two_views) ∅ []
     = ([(ERROR, MeshroomFileHandler.FORMAT_ERROR_STRUCTURE)], Ok []).
Proof.
  split; [reflexivity|].
  destruct (points_follow_structure Samples.sfm_points_only ∅ [])
    as (_ & Hpoints & _).
  destruct (Hpoints [Samples.landmark] [] [Samples.landmark_point])
    as (_ & Hlen & _); [reflexivity | reflexivity |].
  split; [exact Hlen|].
  apply (proj1 (points_follow_structure Samples.sfm_two_views ∅ [])).
  reflexivity.
Defined.

Lemma sfm_file_without_cameras_witness :
  MeshroomFileHandler.parse_sfm_file
    {[ "p.sfm" := Some (JObj Samples.sfm_points_only) ]} "p.sfm" None "NAME"
    false []
  = ([(INFO, "parse_sfm_file: ..."); (INFO, "sfm_ifp: p.sfm");
      (ERROR, MeshroomFileHandler.FORMAT_ERROR_CAMERAS);
      (INFO, "parse_sfm_file: Done")],
     Ok ([], [Samples.landmark_point]))
  /\ MeshroomFileHandler.parse_sfm_file
       {[ "p.sfm" := Some (JObj Samples.sfm_points_only) ]} "q.sfm" None
       "NAME" false []
     = ([(INFO, "parse_sfm_file: ..."); (INFO, "sfm_ifp: q.sfm")],
        Raise FileNotFoundError).
Proof.
  split.
  - apply (proj1 (sfm_file_without_cameras
                    {[ "p.sfm" := Some (JObj Samples.sfm_points_only) ]}
                    "p.sfm" None "NAME" false [])
             Samples.sfm_points_only [Samples.landmark]
             [Samples.landmark_point]);
      [reflexivity | right; left; reflexivity | reflexivity | reflexivity].
  - apply (proj2 (sfm_file_without_cameras
                    {[ "p.sfm" := Some (JObj Samples.sfm_points_only) ]}
                    "q.sfm" None "NAME" false [])).
    reflexivity.
Defined.

Lemma node_data_fp_is_cache_file_witness :
  MeshroomFileHandler._get_node_data_fp Samples.cache "/p/MeshroomCache"
    Samples.graph "StructureFromMotion" 2 (inl "cameras.sfm") []
  = ([], Ok (Some "/p/MeshroomCache/StructureFromMotion/bb/cameras.sfm"))
  /\ MeshroomFileHandler.isfile Samples.cache
       "/p/MeshroomCache/StructureFromMotion/bb/cameras.sfm" = true
  /\ MeshroomFileHandler._get_node Samples.graph "StructureFromMotion" 1 []
     = ([], Ok (Some (Samples.node "StructureFromMotion" "aa"))).
Proof.
  split; [reflexivity|].
  destruct (node_data_fp_is_cache_file Samples.cache "/p/MeshroomCache"
              Samples.graph "StructureFromMotion" 2 (inl "cameras.sfm") [])
    as [Hfile _].
  destruct (Hfile [] (Some "/p/MeshroomCache/StructureFromMotion/bb/cameras.sfm"))
    as (_ & data_node & _ & Hnode); [reflexivity|].
  destruct data_node as [node|]; [|destruct Hnode].
  split; [exact (proj1 Hnode)|].
  apply (proj2 (node_data_fp_is_cache_file Samples.cache "/p/MeshroomCache"
                  Samples.graph "StructureFromMotion" 1 (inl "cameras.sfm") []));
    [lia | reflexivity].
Defined.

Lemma mg_file_results_are_cache_files_witness :
  MeshroomFileHandler.parse_meshrom_mg_file Samples.project_files
    "/p/scene.mg" "AUTOMATIC" (-1) "AUTOMATIC" (-1) []
  = ([(INFO,
       "Found the following sfm file: /p/MeshroomCache/StructureFromMotion/bb/cameras.sfm");
      (INFO, "Request target mesh does not exist in this meshroom project")],
     Ok (Some "/p/MeshroomCache/StructureFromMotion/bb/cameras.sfm", None))
  /\ exists node_type names node,
       sfm_node_files "AUTOMATIC" node_type names
       /\ selected_node Samples.graph node_type (-1) node
       /\ node_file Samples.project_files "/p/MeshroomCache" node names
            "/p/MeshroomCache/StructureFromMotion/bb/cameras.sfm".
Proof.
  split; [reflexivity|].
  destruct (mg_file_results_are_cache_files Samples.project_files
              "/p/scene.mg" "AUTOMATIC" (-1) "AUTOMATIC" (-1) []
              [(INFO,
                "Found the following sfm file: /p/MeshroomCache/StructureFromMotion/bb/cameras.sfm");
               (INFO,
                "Request target mesh does not exist in this meshroom project")]
              (Some "/p/MeshroomCache/StructureFromMotion/bb/cameras.sfm")
              None)
    as (_ & Hsfm & _); [reflexivity|].
  destruct (Hsfm _ eq_refl) as (g & node_type & names & node & Hg & Hrest).
  injection Hg as <-. now exists node_type, names, node.
Defined.

Lemma mg_file_failures_witness :
  MeshroomFileHandler.parse_meshrom_mg_file Samples.project_files
    "/p/other.mg" "NoSuchNode" (-1) "NoSuchNode" (-1) []
  = ([], Raise FileNotFoundError)
  /\ MeshroomFileHandler.parse_meshrom_mg_file Samples.project_files
       "/p/scene.mg" "NoSuchNode" (-1) "NoSuchNode" (-1) []
     = ([(ERROR, "Select SfM node is not supported")], Raise AssertionError)
  /\ MeshroomFileHandler.parse_meshrom_mg_file Samples.project_files
       "/p/scene.mg" "AUTOMATIC" (-1) "NoSuchNode" (-1) []
     = ([(ERROR, "Select Mesh node is not supported")], Raise AssertionError).
Proof.
  split; [|split].
  - apply (proj1 (mg_file_failures Samples.project_files "/p/other.mg"
                    "NoSuchNode" (-1) "NoSuchNode" (-1) [])).
    reflexivity.
  - apply (proj1 (proj2 (proj2
             (mg_file_failures Samples.project_files "/p/scene.mg"
                "NoSuchNode" (-1) "NoSuchNode" (-1) [])))
             {[ "graph" := JObj Samples.graph ]} (JObj Samples.graph));
      first [reflexivity | discriminate].
  - apply (proj2 (proj2 (proj2
             (mg_file_failures Samples.project_files "/p/scene.mg"
                "AUTOMATIC" (-1) "NoSuchNode" (-1) [])))
             {[ "graph" := JObj Samples.graph ]} (JObj Samples.graph) []
             (Some "/p/MeshroomCache/StructureFromMotion/bb/cameras.sfm"));
      first [reflexivity | discriminate].
Defined.

Lemma automatic_sfm_selection_witness :
  MeshroomFileHandler.parse_meshrom_mg_file Samples.project_files
    "/p/scene.mg" "AUTOMATIC" 2 "AUTOMATIC" (-1) []
  = ([(ERROR,
       "Invalid combination of node type (i.e. ConvertSfMFormat) and node number (i.e. 2) provided")],
     Raise AssertionError)
  /\ MeshroomFileHandler.parse_meshrom_mg_file Samples.project_files
       "/p/scene.mg" "StructureFromMotionNode" 2 "AUTOMATIC" (-1) []
     = ([(INFO,
          "Found the following sfm file: /p/MeshroomCache/StructureFromMotion/bb/cameras.sfm");
         (INFO, "Request target mesh does not exist in this meshroom project")],
        Ok (Some "/p/MeshroomCache/StructureFromMotion/bb/cameras.sfm", None)).
Proof.
  split; [|reflexivity].
  destruct (automatic_sfm_selection Samples.project_files "/p/scene.mg"
              {[ "graph" := JObj Samples.graph ]} Samples.graph
              "AUTOMATIC" (-1) []) as [Hneeds _];
    [reflexivity | reflexivity |].
  apply (Hneeds 2); [lia | reflexivity].
Defined.

Lemma meshroom_file_extension_witness :
  MeshroomFileHandler.parse_meshroom_file
    {[ "/d/scene.SfM" := Some (JObj Samples.sfm_two_views) ]} "/d/scene.ply"
    None "NAME" false "AUTOMATIC" (-1) "AUTOMATIC" (-1) []
  = ([(INFO, "parse_meshroom_file: ..."); (INFO, "meshroom_ifp: /d/scene.ply")],
     Raise AssertionError)
  /\ MeshroomFileHandler.parse_meshroom_file
       {[ "/d/scene.SfM" := Some (JObj Samples.sfm_two_views) ]} "/d/scene.SfM"
       None "NAME" false "NoSuchNode" 5 "NoSuchNode" 5 []
     = ([(INFO, "parse_meshroom_file: ...");
         (INFO, "meshroom_ifp: /d/scene.SfM");
         (INFO, "parse_sfm_file: ..."); (INFO, "sfm_ifp: /d/scene.SfM");
         (INFO, "parse_sfm_file: Done"); (INFO, "parse_meshroom_file: Done")],
        Ok ([Samples.first_view_camera], [], None)).
Proof.
  split.
  - apply (proj1 (meshroom_file_extension "/d/scene.ply" None "NAME" false
                    "AUTOMATIC" (-1) "AUTOMATIC" (-1) []));
      discriminate.
  - rewrite (proj2 (meshroom_file_extension "/d/scene.SfM" None "NAME" false
                      "NoSuchNode" 5 "NoSuchNode" 5 []));
      [reflexivity | right; reflexivity].
Defined.

Lemma project_without_results_witness :
  MeshroomFileHandler.parse_meshroom_file Samples.empty_project_files
    "/p/empty.MG" None "NAME" false "AUTOMATIC" (-1) "AUTOMATIC" (-1) []
  = ([(INFO, "parse_meshroom_file: ...");
      (INFO, "meshroom_ifp: /p/empty.MG");
      (INFO,
       "Request target SfM result does not exist in this meshroom project");
      (INFO, "Request target mesh does not exist in this meshroom project");
      (WARNING, "Meshroom project does not contain cameras or points");
      (INFO, "parse_meshroom_file: Done")],
     Ok ([], [], None)).
Proof.
  apply (project_without_results Samples.empty_project_files "/p/empty.MG"
           {[ "graph" := JObj ∅ ]} ∅ None "NAME" false []);
    reflexivity.
Defined.

(* ===================================================================== *)
(** * Writing an NVM file and reading it back *)
(* ===================================================================== *)

Lemma concat_cons (x : string) xs :
  String.concat "" (x :: xs) = (x ++ String.concat "" xs)%string.
Proof.
  destruct xs; [|reflexivity].
  change (String.concat "" [x]) with x. change (String.concat "" []) with "".
  now rewrite string_app_nil_r.
Qed.

Lemma concat_app (l1 l2 : list string) :
  String.concat "" (l1 ++ l2)
  = (String.concat "" l1 ++ String.concat "" l2)%string.
Proof.
  induction l1 as [|x l1 IH]; [reflexivity|].
  change ((x :: l1) ++ l2)%list with (x :: (l1 ++ l2))%list.
  now rewrite !concat_cons, IH, string_app_assoc.
Qed.

Lemma no_space_app a b : no_space (a ++ b) = no_space a && no_space b.
Proof.
  induction a as [|x a IH]; [reflexivity|].
  rewrite string_app_cons. cbn [no_space]. now rewrite IH, andb_assoc.
Qed.

Lemma no_break_app a b : no_break (a ++ b) = no_break a && no_break b.
Proof.
  induction a as [|x a IH]; [reflexivity|].
  rewrite string_app_cons. cbn [no_break]. now rewrite IH, !andb_assoc.
Qed.

Lemma no_space_no_break s : no_space s = true -> no_break s = true.
Proof.
  induction s as [|c s IH]; [reflexivity|]. simpl. intros Hs.
  apply andb_true_iff in Hs as [Hc Hs]. rewrite (IH Hs), andb_true_r.
  destruct (Ascii.eqb c LF) eqn:E1.
  { apply Ascii.eqb_eq in E1. subst c. discriminate Hc. }
  destruct (Ascii.eqb c CR) eqn:E2; [|reflexivity].
  apply Ascii.eqb_eq in E2. subst c. discriminate Hc.
Qed.

(** Reading a line that was written with its line feed. *)
Lemma readline_written l rest :
  no_break l = true ->
  readline (l ++ String LF rest) = ((l ++ String LF "")%string, rest).
Proof.
  induction l as [|c l IH]; intros Hl; [reflexivity|].
  cbn [no_break] in Hl. apply andb_true_iff in Hl as [Hc Hl].
  apply andb_true_iff in Hc as [Hc _]. apply negb_true_iff in Hc.
  rewrite !string_app_cons. cbn [readline]. rewrite Hc. now rewrite (IH Hl).
Qed.

Lemma universal_newlines_written l rest :
  no_break l = true ->
  universal_newlines (l ++ String LF rest)
  = (l ++ String LF (universal_newlines rest))%string.
Proof.
  induction l as [|c l IH]; intros Hl; [reflexivity|].
  cbn [no_break] in Hl. apply andb_true_iff in Hl as [Hc Hl].
  apply andb_true_iff in Hc as [_ Hc]. apply negb_true_iff in Hc.
  rewrite !string_app_cons. cbn [universal_newlines]. rewrite Hc.
  now rewrite (IH Hl).
Qed.

(** Tokens and [split]. *)
Lemma split_space c s : isspace c = true -> split (String c s) = split s.
Proof. intros Hc. simpl. now rewrite Hc. Qed.

Lemma split_cons_nonspace a b s :
  isspace a = false -> isspace b = false ->
  split (String a (String b s))
  = match split (String b s) with
    | t :: ts => String a t :: ts
    | [] => [String a ""]
    end.
Proof.
  intros Ha Hb.
  change (split (String a (String b s)))
    with (if isspace a then split (String b s)
          else if isspace b then String a "" :: split (String b s)
               else match split (String b s) with
                    | t :: ts => String a t :: ts
                    | [] => [String a ""]
                    end).
  now rewrite Ha, Hb.
Qed.

Lemma split_cons_space a b s :
  isspace a = false -> isspace b = true ->
  split (String a (String b s)) = String a "" :: split s.
Proof.
  intros Ha Hb.
  change (split (String a (String b s)))
    with (if isspace a then split (String b s)
          else if isspace b then String a "" :: split (String b s)
               else match split (String b s) with
                    | t :: ts => String a t :: ts
                    | [] => [String a ""]
                    end).
  now rewrite Ha, Hb, (split_space b s Hb).
Qed.

Lemma split_token_space t c s :
  token t -> isspace c = true ->
  split (t ++ String c s) = t :: split s.
Proof.
  intros [Hne Ht] Hc. revert Hne Ht.
  induction t as [|a t IH]; [discriminate|]. intros _ Ht.
  cbn [no_space] in Ht. apply andb_true_iff in Ht as [Ha Ht].
  apply negb_true_iff in Ha.
  destruct t as [|b t].
  - rewrite string_app_cons, string_app_nil_l.
    exact (split_cons_space a c s Ha Hc).
  - specialize (IH eq_refl Ht).
    assert (Hb : isspace b = false).
    { cbn [no_space] in Ht. apply andb_true_iff in Ht as [Hb _].
      now apply negb_true_iff in Hb. }
    rewrite string_app_cons in IH. rewrite !string_app_cons.
    now rewrite (split_cons_nonspace a b _ Ha Hb), IH.
Qed.

Lemma split_rstrip s : split (rstrip s) = split s.
Proof.
  induction s as [|c s IH]; [reflexivity|].
  cbn [rstrip]. destruct (isspace c) eqn:Ec.
  - cbn [andb]. destruct (is_empty (rstrip s)) eqn:Ee.
    + rewrite (split_space c s Ec), <- IH.
      destruct (rstrip s); [reflexivity | discriminate Ee].
    + now rewrite !(split_space c _ Ec).
  - cbn [andb]. destruct s as [|b s]; [reflexivity|].
    destruct (isspace b) eqn:Eb.
    + rewrite (split_cons_space c b s Ec Eb).
      rewrite (split_space b s Eb) in IH. rewrite <- IH.
      destruct (rstrip (String b s)) as [|b' r] eqn:Er.
      * cbn [split]. now rewrite Ec.
      * assert (b' = b) as ->.
        { cbn [rstrip] in Er. rewrite Eb in Er. cbn [andb] in Er.
          destruct (is_empty (rstrip s)); [discriminate Er|].
          now injection Er as <- _. }
        now rewrite (split_cons_space c b r Ec Eb), (split_space b r Eb).
    + rewrite (split_cons_nonspace c b s Ec Eb), <- IH.
      cbn [rstrip]. rewrite Eb. cbn [andb].
      now rewrite (split_cons_nonspace c b _ Ec Eb).
Qed.

(** [str] of an [int] and [int] of what it wrote. *)
Lemma pretty_N_char_decimal d :
  (d < 10)%N ->
  isdecimal_char (pretty_N_char d) = true
  /\ digit_val (pretty_N_char d) = Z.of_N d.
Proof.
  intros Hd.
  assert (Hc : (d = 0 \/ d = 1 \/ d = 2 \/ d = 3 \/ d = 4 \/ d = 5 \/ d = 6
                \/ d = 7 \/ d = 8 \/ d = 9)%N) by lia.
  repeat (destruct Hc as [-> | Hc]; [split; reflexivity|]).
  subst d. split; reflexivity.
Qed.

Lemma pretty_N_go_digits x : forall s,
  all_decimal s = true ->
  all_decimal (pretty_N_go x s) = true
  /\ (is_empty s = false -> is_empty (pretty_N_go x s) = false)
  /\ exists k : nat,
       forall acc,
         digits_value acc (pretty_N_go x s)
         = digits_value (acc * 10 ^ Z.of_nat k + Z.of_N x) s.
Proof.
  induction (N.lt_wf_0 x) as [x _ IH]. intros s Hs.
  assert (Hx : (x = 0 \/ 0 < x)%N) by lia. destruct Hx as [-> | Hx].
  - rewrite pretty_N_go_0. split; [exact Hs|]. split; [trivial|].
    exists 0%nat. intros acc. f_equal. simpl. lia.
  - rewrite (pretty_N_go_step x s Hx).
    destruct (pretty_N_char_decimal (N.modulo x 10)) as [Hd Hv];
      [apply N.mod_lt; lia|].
    destruct (IH (N.div x 10)) with (s := String (pretty_N_char (N.modulo x 10)) s)
      as (Hall & Hne & k & Hk).
    { apply N.div_lt; lia. }
    { cbn [all_decimal]. now rewrite Hd, Hs. }
    split; [exact Hall|]. split; [intros _; now apply Hne|].
    exists (S k). intros acc. rewrite Hk. cbn [digits_value]. f_equal.
    rewrite Hv, Nat2Z.inj_succ, Z.pow_succ_r by lia.
    rewrite N2Z.inj_div, N2Z.inj_mod.
    pose proof (Z.div_mod (Z.of_N x) 10 ltac:(lia)) as Hdm. lia.
Qed.

Lemma str_int_nonneg n :
  0 <= n -> isdecimal (str_int n) = true /\ digits_value 0 (str_int n) = n.
Proof.
  intros Hn. destruct n as [|p|p]; [split; reflexivity| |lia].
  unfold str_int, pretty, pretty_Z, pretty, pretty_positive, pretty, pretty_N.
  destruct (decide (N.pos p = 0%N)) as [Hp|_]; [discriminate Hp|].
  rewrite (pretty_N_go_step (N.pos p) "") by lia.
  destruct (pretty_N_char_decimal (N.modulo (N.pos p) 10)) as [Hd Hv];
    [apply N.mod_lt; lia|].
  destruct (pretty_N_go_digits (N.div (N.pos p) 10)
              (String (pretty_N_char (N.modulo (N.pos p) 10)) ""))
    as (Hall & Hne & k & Hk).
  { cbn [all_decimal]. now rewrite Hd. }
  split.
  - unfold isdecimal. now rewrite (Hne eq_refl), Hall.
  - rewrite Hk. cbn [digits_value]. rewrite Hv.
    rewrite N2Z.inj_div, N2Z.inj_mod.
    pose proof (Z.div_mod (Z.of_N (N.pos p)) 10 ltac:(lia)) as Hdm.
    change (Z.of_N (N.pos p)) with (Z.pos p) in *. lia.
Qed.

Lemma all_decimal_no_space s : all_decimal s = true -> no_space s = true.
Proof.
  induction s as [|c s IH]; [reflexivity|]. cbn [all_decimal no_space].
  intros Hs. apply andb_true_iff in Hs as [Hc Hs].
  now rewrite (isdecimal_char_not_space c Hc), (IH Hs).
Qed.

Lemma no_space_rstrip s : no_space s = true -> rstrip s = s.
Proof.
  induction s as [|c s IH]; [reflexivity|]. cbn [no_space rstrip].
  intros Hs. apply andb_true_iff in Hs as [Hc Hs].
  apply negb_true_iff in Hc. now rewrite Hc, (IH Hs).
Qed.

Lemma no_space_chars s :
  no_space s = true ->
  forall c, In c (list_ascii_of_string s) -> isspace c = false.
Proof.
  induction s as [|a s IH]; intros Hs c Hc; [destruct Hc|].
  cbn [no_space] in Hs. apply andb_true_iff in Hs as [Ha Hs].
  destruct Hc as [<- | Hc]; [now apply negb_true_iff | now apply IH].
Qed.

Lemma no_space_strip s : no_space s = true -> strip s = s.
Proof.
  intros Hs. unfold strip. rewrite (no_space_rstrip s Hs).
  destruct s as [|c s]; [reflexivity|]. cbn [no_space] in Hs.
  apply andb_true_iff in Hs as [Hc _]. apply negb_true_iff in Hc.
  cbn [lstrip]. now rewrite Hc.
Qed.

Lemma str_int_token z : token (str_int z).
Proof.
  destruct z as [|p|p].
  - split; reflexivity.
  - destruct (str_int_nonneg (Z.pos p)) as [Hd _]; [lia|].
    unfold isdecimal in Hd. apply andb_true_iff in Hd as [Hne Hd].
    split; [now apply negb_true_iff in Hne | now apply all_decimal_no_space].
  - destruct (str_int_nonneg (Z.pos p)) as [Hd _]; [lia|].
    unfold isdecimal in Hd. apply andb_true_iff in Hd as [_ Hd].
    split; [reflexivity|].
    change (str_int (Z.neg p)) with (String "-"%char (str_int (Z.pos p))).
    cbn [no_space]. now rewrite (all_decimal_no_space _ Hd).
Qed.

Lemma int_str_int z : int (str_int z) = Ok z.
Proof.
  destruct z as [|p|p].
  - reflexivity.
  - destruct (str_int_nonneg (Z.pos p)) as [Hd Hv]; [lia|].
    destruct (isdecimal_int _ Hd) as (_ & Hi & _). now rewrite Hi, Hv.
  - destruct (str_int_nonneg (Z.pos p)) as [Hd Hv]; [lia|].
    change (str_int (Z.neg p)) with (String "-"%char (str_int (Z.pos p))).
    unfold int. rewrite int_strip_no_space.
    2:{ apply no_space_chars, (proj2 (str_int_token (Z.neg p))). }
    unfold isdecimal in Hd. apply andb_true_iff in Hd as [Hne Hd].
    destruct (str_int (Z.pos p)) as [|c d]; [discriminate Hne|].
    cbn [all_decimal] in Hd. apply andb_true_iff in Hd as [Hc Hd].
    cbn [int_digits]. rewrite Hc.
    rewrite (all_decimal_int_digits d _ Hd).
    cbn [digits_value] in Hv. rewrite Hv. reflexivity.
Qed.

Lemma rstrip_token_blank t w :
  token t -> rstrip w = "" -> rstrip (t ++ w) = t.
Proof.
  intros [Hne Ht] Hw. revert Hne Ht.
  induction t as [|c t IH]; [discriminate|]. intros _ Ht.
  cbn [no_space] in Ht. apply andb_true_iff in Ht as [Hc Ht].
  apply negb_true_iff in Hc. rewrite string_app_cons. cbn [rstrip].
  rewrite Hc. cbn [andb]. destruct t as [|b t].
  - now rewrite string_app_nil_l, Hw.
  - now rewrite (IH eq_refl Ht).
Qed.

Ltac norm_string :=
  repeat first [ rewrite string_app_assoc
               | rewrite string_app_cons
               | rewrite string_app_nil_l ].

Section NVM_round_trip.
Context `{FL : PyFloat} `{!Numpy} `{!CameraLib}.
Import NVMFileHandler.

Lemma basename_id p : has_sep p = false -> basename p = p.
Proof. intros Hp. unfold basename. now apply basename_from_no_sep. Qed.

Lemma float_of_string_written x :
  float_round_trips x -> float_of_string (str_float x) = Ok x.
Proof. intros [_ Hx]. unfold float_of_string. now rewrite Hx. Qed.

Lemma token_no_break t : token t -> no_break t = true.
Proof. intros [_ Ht]. now apply no_space_no_break. Qed.

(** The line written for a camera: its values, and no line break before
    its end. *)
Lemma write_camera_line_split k cam :
  parsed_camera k cam ->
  (exists body,
     write_camera_line cam = (body ++ String LF "")%string
     /\ no_break body = true)
  /\ exists focal_length,
       calibration_mat cam
       = ((focal_length, f0, f0), (f0, focal_length, f0), (f0, f0, f1))
       /\ split (write_camera_line cam)
          = file_name cam :: str_float focal_length
            :: (map str_float (quat_to_list (get_quaternion cam))
                ++ map str_float (vec3_to_list (_center cam))
                ++ ["0"; "0"])%list.
Proof.
  intros (fl & inv & _ & Hfn & _ & Hcal & Hfl & Hq & Hc & _).
  unfold write_camera_line, get_calibration_mat, get_camera_center.
  rewrite Hcal. cbn [row fst].
  destruct (get_quaternion cam) as [[[w x] y] z].
  destruct (_center cam) as [[cx cy] cz].
  cbn [quat_to_list vec3_to_list map join] in *.
  apply Forall_cons_iff in Hq as [Hw Hq].
  apply Forall_cons_iff in Hq as [Hx Hq].
  apply Forall_cons_iff in Hq as [Hy Hq].
  apply Forall_cons_iff in Hq as [Hz _].
  apply Forall_cons_iff in Hc as [Hcx Hc].
  apply Forall_cons_iff in Hc as [Hcy Hc].
  apply Forall_cons_iff in Hc as [Hcz _].
  destruct Hfl as [Tfl _], Hw as [Tw _], Hx as [Tx _], Hy as [Ty _],
    Hz as [Tz _], Hcx as [Tcx _], Hcy as [Tcy _], Hcz as [Tcz _].
  split.
  - exists (file_name cam ++ String TAB "" ++ str_float fl ++ " "
            ++ str_float w ++ " " ++ str_float x ++ " " ++ str_float y ++ " "
            ++ str_float z ++ " " ++ str_float cx ++ " " ++ str_float cy
            ++ " " ++ str_float cz ++ " " ++ "0" ++ " " ++ "0" ++ " ")%string.
    split.
    + unfold linesep. norm_string. reflexivity.
    + rewrite !no_break_app.
      rewrite (token_no_break _ Hfn), (token_no_break _ Tfl),
        (token_no_break _ Tw), (token_no_break _ Tx), (token_no_break _ Ty),
        (token_no_break _ Tz), (token_no_break _ Tcx),
        (token_no_break _ Tcy), (token_no_break _ Tcz).
      reflexivity.
  - exists fl. split; [reflexivity|].
    unfold linesep. norm_string.
    rewrite (split_token_space _ TAB _ Hfn eq_refl).
    rewrite (split_token_space _ " " _ Tfl eq_refl).
    rewrite (split_token_space _ " " _ Tw eq_refl).
    rewrite (split_token_space _ " " _ Tx eq_refl).
    rewrite (split_token_space _ " " _ Ty eq_refl).
    rewrite (split_token_space _ " " _ Tz eq_refl).
    rewrite (split_token_space _ " " _ Tcx eq_refl).
    rewrite (split_token_space _ " " _ Tcy eq_refl).
    rewrite (split_token_space _ " " _ Tcz eq_refl).
    reflexivity.
Qed.

(** A written camera line is read back as the camera. *)
Lemma _parse_cameras_body_written k cam z0 :
  parse_float "0" = Some z0 -> feqb z0 f0 = true ->
  parsed_camera k cam ->
  _parse_cameras_body k (write_camera_line cam) = Ok cam.
Proof.
  intros Hzero Hz Hcam.
  destruct (write_camera_line_split k cam Hcam) as [_ (fl' & Hcal' & Hsplit)].
  destruct Hcam as (fl & inv & Hid & Hfn & Hsep & Hcal & Hfl & Hq & Hc & Hrot
                    & Hinv & Hnormal & Htrans & Hrad & Hw & Hh).
  assert (fl' = fl) by congruence. subst fl'. clear Hcal'.
  unfold _parse_cameras_body. rewrite Hsplit. clear Hsplit.
  unfold get_quaternion in *.
  destruct (rotation_mat_to_quaternion (_rotation_mat cam))
    as [[[qw qx] qy] qz] eqn:Equat.
  destruct cam as [R [[cx cy] cz] tv nv cal rd fn i wd ht].
  cbn [_rotation_mat _center _translation_vec normal calibration_mat
       radial_distortion file_name id width height
       quat_to_list vec3_to_list map app] in *.
  apply Forall_cons_iff in Hq as [Hqw Hq].
  apply Forall_cons_iff in Hq as [Hqx Hq].
  apply Forall_cons_iff in Hq as [Hqy Hq].
  apply Forall_cons_iff in Hq as [Hqz _].
  apply Forall_cons_iff in Hc as [Hcx Hc].
  apply Forall_cons_iff in Hc as [Hcy Hc].
  apply Forall_cons_iff in Hc as [Hcz _].
  cbn [getitem nth_error of_option fmap result_fmap mbind result_bind Py.bind].
  rewrite (float_of_string_written _ Hfl), (float_of_string_written _ Hqw),
    (float_of_string_written _ Hqx), (float_of_string_written _ Hqy),
    (float_of_string_written _ Hqz), (float_of_string_written _ Hcx),
    (float_of_string_written _ Hcy), (float_of_string_written _ Hcz).
  cbn [mbind result_bind Py.bind].
  unfold float_of_string. rewrite Hzero.
  cbn [of_option mbind result_bind Py.bind]. rewrite Hz.
  cbn [assert mbind result_bind Py.bind].
  unfold get_rotation_mat, set_quaternion, get_radial_distortion.
  cbn [_rotation_mat _center _translation_vec normal calibration_mat
       radial_distortion file_name id width height Camera_new].
  rewrite Hrot, Hinv. cbn [mbind result_bind Py.bind mret result_ret].
  rewrite (basename_id _ Hsep).
  subst. reflexivity.
Qed.

(** The line written for a point without measurements. *)
Lemma write_point_line_split k p :
  parsed_point k p ->
  (exists body,
     write_point_line p = (body ++ String LF "")%string
     /\ no_break body = true)
  /\ split (rstrip (write_point_line p))
     = (map str_float (coord p) ++ map str_int (color p) ++ ["0"])%list.
Proof.
  intros (_ & _ & Hm & Hlc & Hc & Hlr).
  unfold write_point_line. rewrite Hm. cbn [fold_left length].
  change (str_int (Z.of_nat 0)) with "0".
  destruct (coord p) as [|a [|b [|c [|]]]]; try discriminate Hlc.
  destruct (color p) as [|r [|g [|bl [|]]]]; try discriminate Hlr.
  cbn [map join app].
  apply Forall_cons_iff in Hc as [[Ta _] Hc].
  apply Forall_cons_iff in Hc as [[Tb _] Hc].
  apply Forall_cons_iff in Hc as [[Tc _] _].
  pose proof (str_int_token r) as Tr.
  pose proof (str_int_token g) as Tg.
  pose proof (str_int_token bl) as Tbl.
  split.
  - exists (str_float a ++ " " ++ str_float b ++ " " ++ str_float c ++ " "
            ++ str_int r ++ " " ++ str_int g ++ " " ++ str_int bl ++ " "
            ++ "0" ++ " ")%string.
    split.
    + unfold linesep. norm_string. reflexivity.
    + rewrite !no_break_app.
      rewrite (token_no_break _ Ta), (token_no_break _ Tb),
        (token_no_break _ Tc), (token_no_break _ Tr), (token_no_break _ Tg),
        (token_no_break _ Tbl).
      reflexivity.
  - rewrite split_rstrip. unfold linesep. norm_string.
    rewrite (split_token_space _ " " _ Ta eq_refl).
    rewrite (split_token_space _ " " _ Tb eq_refl).
    rewrite (split_token_space _ " " _ Tc eq_refl).
    rewrite (split_token_space _ " " _ Tr eq_refl).
    rewrite (split_token_space _ " " _ Tg eq_refl).
    rewrite (split_token_space _ " " _ Tbl eq_refl).
    reflexivity.
Qed.

(** A written point line is read back as the point. *)
Lemma _parse_nvm_points_body_written k p :
  parsed_point k p ->
  _parse_nvm_points_body k (write_point_line p) = Ok p.
Proof.
  intros Hp. destruct (write_point_line_split k p Hp) as [_ Hsplit].
  destruct Hp as (Hid & Hs & Hm & Hlc & Hc & Hlr).
  unfold _parse_nvm_points_body. rewrite Hsplit. clear Hsplit.
  destruct p as [xyz rgb ms i sc].
  cbn [coord color measurements point_id scalars] in *. subst ms i sc.
  destruct xyz as [|a [|b [|c [|]]]]; try discriminate Hlc.
  destruct rgb as [|r [|g [|bl [|]]]]; try discriminate Hlr.
  apply Forall_cons_iff in Hc as [Ha Hc].
  apply Forall_cons_iff in Hc as [Hb Hc].
  apply Forall_cons_iff in Hc as [Hc _].
  cbn [map app slice skipn firstn Nat.sub mapM].
  rewrite (float_of_string_written _ Ha), (float_of_string_written _ Hb),
    (float_of_string_written _ Hc).
  cbn [mbind result_bind Py.bind mret result_ret option_bind].
  rewrite !int_str_int.
  cbn [mbind result_bind Py.bind mret result_ret getitem nth_error of_option].
  change (int "0") with (Ok 0).
  cbn [mbind result_bind Py.bind mret result_ret range Z.to_nat
       _parse_measurements].
  reflexivity.
Qed.
End NVM_round_trip.

Section NVM_round_trip_file.
Context `{FL : PyFloat} `{!Numpy} `{!CameraLib}.
Import NVMFileHandler.

Lemma concat_nil : String.concat "" [] = "".
Proof. reflexivity. Qed.

(** The camera lines of a written file are read back as the cameras. *)
Lemma _parse_cameras_loop_written z0 :
  parse_float "0" = Some z0 -> feqb z0 f0 = true ->
  forall cams i rest,
    (forall k cam, cams !! k = Some cam -> parsed_camera (i + k) cam) ->
    _parse_cameras_loop i (length cams)
      (universal_newlines
         (String.concat "" (map write_camera_line cams) ++ rest))
    = Ok (cams, universal_newlines rest).
Proof.
  intros Hzero Hz. induction cams as [|cam cams IH]; intros i rest Hcams.
  - cbn [map length _parse_cameras_loop]. rewrite concat_nil, string_app_nil_l.
    reflexivity.
  - assert (Hcam : parsed_camera i cam).
    { rewrite <- (Nat.add_0_r i). now apply Hcams. }
    cbn [map length _parse_cameras_loop].
    rewrite concat_cons, string_app_assoc.
    destruct (write_camera_line_split i cam Hcam) as [(body & Hline & Hb) _].
    rewrite Hline at 1. rewrite string_app_assoc, string_app_cons, string_app_nil_l.
    rewrite (universal_newlines_written _ _ Hb), (readline_written _ _ Hb).
    rewrite <- Hline. cbv beta iota zeta.
    rewrite (_parse_cameras_body_written i cam z0 Hzero Hz Hcam).
    cbn [mbind result_bind Py.bind].
    rewrite (IH (S i) rest); [reflexivity|].
    intros k c Hk. replace (S i + k)%nat with (i + S k)%nat by lia.
    now apply Hcams.
Qed.

(** The point lines of a written file are read back as the points. *)
Lemma _parse_nvm_points_loop_written :
  forall pts i rest,
    (forall k p, pts !! k = Some p -> parsed_point (i + k) p) ->
    _parse_nvm_points_loop i (length pts)
      (universal_newlines
         (String.concat "" (map write_point_line pts) ++ rest))
    = Ok (pts, universal_newlines rest).
Proof.
  induction pts as [|p pts IH]; intros i rest Hpts.
  - cbn [map length _parse_nvm_points_loop].
    rewrite concat_nil, string_app_nil_l. reflexivity.
  - assert (Hp : parsed_point i p).
    { rewrite <- (Nat.add_0_r i). now apply Hpts. }
    cbn [map length _parse_nvm_points_loop].
    rewrite concat_cons, string_app_assoc.
    destruct (write_point_line_split i p Hp) as [(body & Hline & Hb) _].
    rewrite Hline at 1. rewrite string_app_assoc, string_app_cons, string_app_nil_l.
    rewrite (universal_newlines_written _ _ Hb), (readline_written _ _ Hb).
    rewrite <- Hline. cbv beta iota zeta.
    rewrite (_parse_nvm_points_body_written i p Hp).
    cbn [mbind result_bind Py.bind].
    rewrite (IH (S i) rest); [reflexivity|].
    intros k c Hk. replace (S i + k)%nat with (i + S k)%nat by lia.
    now apply Hpts.
Qed.

(** The text of a written file, line by line up to the last point. *)
Lemma nvm_content_text cameras points :
  exists trailer,
    String.concat "" (nvm_content cameras points)
    = ("NVM_V3 " ++ String LF
       (" " ++ String LF
        ((str_int (Z.of_nat (length cameras)) ++ " ") ++ String LF
         (String.concat "" (map write_camera_line cameras)
          ++ (" " ++ String LF
              ((str_int (Z.of_nat (length points)) ++ " ") ++ String LF
               (String.concat "" (map write_point_line points)
                ++ trailer)))))))%string.
Proof.
  unfold nvm_content. rewrite !concat_app.
  match goal with
  | |- context [(String.concat "" (map write_point_line points) ++ ?t)%string] =>
      exists t; generalize t
  end.
  intros trailer. rewrite !concat_cons, concat_nil.
  unfold nvm_line, linesep. norm_string. reflexivity.
Qed.

Lemma count_line_read n :
  rstrip ((str_int n ++ " ") ++ String LF "") = str_int n.
Proof.
  rewrite string_app_assoc.
  apply rstrip_token_blank; [apply str_int_token | reflexivity].
Qed.

Lemma count_line_no_break n : no_break (str_int n ++ " ") = true.
Proof.
  rewrite no_break_app, (token_no_break _ (str_int_token n)). reflexivity.
Qed.

(** X18. What [write_nvm_file] writes, [parse_nvm_file] reads back: for
    cameras of the shape the parser builds (camera [k] of the list has id
    [k], a file name of one token without a slash, the calibration matrix of
    one focal length, the rotation of its own quaternion, an invertible
    rotation with the normal and translation computed from it, no radial
    distortion and no image size) and points without measurements and
    scalars (point [k] has id [k], three coordinates, three colours), whose
    floats are written as tokens that [float] reads back unchanged, and a
    float text ["0"] that reads as zero, parsing the written file returns
    the same cameras and points, whatever the file system held before. *)
Theorem written_file_reads_back (fs : gmap string string) name
    cameras points z0 :
  parse_float "0" = Some z0 -> feqb z0 f0 = true ->
  (forall k cam, cameras !! k = Some cam -> parsed_camera k cam) ->
  (forall k p, points !! k = Some p -> parsed_point k p) ->
  parse_nvm_file (write_nvm_file fs name cameras points) name
  = Ok (cameras, points).
Proof.
  intros Hzero Hz Hcams Hpts.
  unfold parse_nvm_file, write_nvm_file. rewrite lookup_insert_eq.
  cbn [of_option mbind result_bind Py.bind].
  destruct (nvm_content_text cameras points) as [trailer ->].
  unfold parse_nvm_text.
  rewrite (universal_newlines_written "NVM_V3 " _ eq_refl).
  rewrite (readline_written "NVM_V3 " _ eq_refl). cbv beta iota zeta.
  change (String.eqb (rstrip ("NVM_V3 " ++ String LF "")) "NVM_V3") with true.
  cbn [assert mbind result_bind Py.bind].
  rewrite (universal_newlines_written " " _ eq_refl).
  rewrite (readline_written " " _ eq_refl). cbv beta iota zeta.
  change (String.eqb (rstrip (" " ++ String LF "")) "") with true.
  cbn [assert mbind result_bind Py.bind].
  unfold parse_nvm_model.
  rewrite (universal_newlines_written _ _ (count_line_no_break _)).
  rewrite (readline_written _ _ (count_line_no_break _)). cbv beta iota zeta.
  rewrite count_line_read, int_str_int. cbn [mbind result_bind Py.bind].
  unfold _parse_cameras, range. rewrite Nat2Z.id.
  rewrite (_parse_cameras_loop_written z0 Hzero Hz cameras 0 _ Hcams).
  cbn [mbind result_bind Py.bind].
  rewrite (universal_newlines_written " " _ eq_refl).
  rewrite (readline_written " " _ eq_refl). cbv beta iota zeta.
  change (String.eqb (rstrip (" " ++ String LF "")) "") with true.
  cbn [assert mbind result_bind Py.bind].
  rewrite (universal_newlines_written _ _ (count_line_no_break _)).
  rewrite (readline_written _ _ (count_line_no_break _)). cbv beta iota zeta.
  rewrite count_line_read.
  destruct (str_int_nonneg (Z.of_nat (length points))) as [Hd _]; [lia|].
  destruct (isdecimal_int _ Hd) as (Hdigit & _). rewrite Hdigit.
  rewrite int_str_int. cbn [mbind result_bind Py.bind].
  unfold _parse_nvm_points, range. rewrite Nat2Z.id.
  rewrite (_parse_nvm_points_loop_written points 0 _ Hpts).
  reflexivity.
Qed.
End NVM_round_trip_file.

Lemma written_file_reads_back_witness :
  NVMFileHandler.parse_nvm_file
    (NVMFileHandler.write_nvm_file {[ "out.nvm" := "NVM_V2" ]} "out.nvm"
       [Samples.upright_camera] [Samples.bare_point])
    "out.nvm"
  = Ok ([Samples.upright_camera], [Samples.bare_point]).
Proof.
  apply (written_file_reads_back {[ "out.nvm" := "NVM_V2" ]} "out.nvm"
           [Samples.upright_camera] [Samples.bare_point] 0%Q);
    [reflexivity | reflexivity | |].
  - intros [|k] cam Hk; [|destruct k; discriminate Hk].
    injection Hk as <-.
    exists 1000%Q, ((1, 0, 0), (0, 1, 0), (0, 0, 1))%Q.
    repeat split;
      repeat (apply Forall_cons; split; [repeat split|]); apply Forall_nil; exact I.
  - intros [|k] p Hk; [|destruct k; discriminate Hk].
    injection Hk as <-.
    repeat split;
      repeat (apply Forall_cons; split; [repeat split|]); apply Forall_nil; exact I.
Defined.
